(** * Customer normalisation and hierarchy flattening of the B2B portal

    A shallow embedding of
      - [single-page-app/app/contexts/CustomerContext.tsx]
        ([transformCustomerData], [addCustomer], [updateCustomer],
        [deleteCustomer], [refreshCustomers], [getCustomer]),
      - the [allCustomersFlattened] reducer of the home page and of the
        client-creation pages,
      - [single-page-app/app/components/CustomerAutocomplete.tsx] (the
        suggestions and the handlers of the dropdown),
      - [single-page-app/app/components/ThemeToggle.tsx],
      - [single-page-app/app/contexts/AppContext.tsx] (the two mount effects,
        [updatePreferences], [saveFormDraft], [clearFormDraft]),
      - [handleSubmit] of the batch page and of the customer creation page,
        [fetchClients] of the clients view, the search filter and the row
        expansion of the home page,
    followed by the properties of the specification that concern them and by
    further properties of the code.

    Modelling decisions.
      - A webhook payload is a JSON value ([JsVal]).  An object is the table
        of its own properties in insertion order; a lookup returns the first
        binding of the key.
      - JavaScript numbers are integers or [NaN].  The program never does
        arithmetic on a payload number: it tests it for truthiness, copies
        it, or prints it with [String].  The one subtraction, the age of a
        stored draft, is between two millisecond readings of the clock.
      - What the host supplies is gathered in [Runtime]: the clock reading
        [Date.now()], the value of [new Date(v).getTime() / 1000], the
        text of engine-raised errors, the [process.env] entries and
        [fetch].  One call of an operation sees one clock reading.
      - A JavaScript exception is a [Throw] outcome; [try]/[catch] is a
        [match] on the outcome.
      - [transformCustomerData] recurses into the records it keeps from the
        nested collection.  It is defined with a call budget
        ([transformFuel]) that the entry point sets above the nesting depth
        of the payload; [transformCustomerData_unfold] shows that the budget
        never runs out and that the function satisfies the equation of the
        source. *)

From Stdlib Require Import ZArith Lia Ascii.
From stdpp Require Import base option list strings pretty gmap.

Local Open Scope string_scope.
Local Open Scope list_scope.
Set Warnings "-register-all".

(** ** JavaScript values, as [response.json()] produces them *)

Inductive JsNumber : Type :=
| NaN
| Fin (n : Z).

Inductive JsVal : Type :=
| JUndefined
| JNull
| JBool (b : bool)
| JNum (x : JsNumber)
| JStr (s : string)
| JArr (items : list JsVal)
| JObj (props : list (string * JsVal)).

Coercion Fin : Z >-> JsNumber.

(** Errors.  [TypeError] and [RangeError] are raised by the engine (a
    property read on [null]/[undefined], a failed conversion to a primitive,
    an exhausted call stack); [Error] is [new Error(message)]. *)
Inductive EngineFault : Type :=
| TypeError
| RangeError.

Inductive JsError : Type :=
| Engine (f : EngineFault)
| Error (message : string).

Inductive Outcome (A : Type) : Type :=
| Ok (a : A)
| Throw (e : JsError).

Arguments Ok {A} a.
Arguments Throw {A} e.

Global Instance outcome_ret : MRet Outcome := fun A a => Ok a.
Global Instance outcome_bind : MBind Outcome := fun A B f m =>
  match m with
  | Ok a => f a
  | Throw e => Throw e
  end.

Global Instance outcome_fmap : FMap Outcome := fun A B f m =>
  match m with
  | Ok a => Ok (f a)
  | Throw e => Throw e
  end.

(** ** Primitive operations of the language *)

(** [ToBoolean]. *)
Definition truthy (v : JsVal) : bool :=
  match v with
  | JUndefined | JNull => false
  | JBool b => b
  | JNum NaN => false
  | JNum (Fin n) => negb (n =? 0)%Z
  | JStr s => negb (String.eqb s "")
  | JArr _ | JObj _ => true
  end.

Definition nullish (v : JsVal) : bool :=
  match v with
  | JUndefined | JNull => true
  | _ => false
  end.

Definition isArray (v : JsVal) : bool :=
  match v with
  | JArr _ => true
  | _ => false
  end.

(** [v === "literal"]. *)
Definition strictEqStr (v : JsVal) (literal : string) : bool :=
  match v with
  | JStr s => String.eqb s literal
  | _ => false
  end.

Fixpoint lookupProp (key : string) (props : list (string * JsVal)) : JsVal :=
  match props with
  | [] => JUndefined
  | (k, v) :: rest => if String.eqb k key then v else lookupProp key rest
  end.

Definition hasOwn (key : string) (props : list (string * JsVal)) : bool :=
  existsb (fun kv => String.eqb (fst kv) key) props.

(** [v.key], for the keys this program reads ([id], [name], [suborgs], ...):
    none of them exists on the prototype of a primitive, of an array or of a
    plain object, so the read yields the own property or [undefined]; on
    [null] and [undefined] the read raises a [TypeError]. *)
Definition getProp (v : JsVal) (key : string) : Outcome JsVal :=
  match v with
  | JUndefined | JNull => Throw (Engine TypeError)
  | JObj props => Ok (lookupProp key props)
  | _ => Ok JUndefined
  end.

(** [a || b] and [a ?? b] on outcomes: the right operand only counts when
    the left one completed and was falsy (resp. nullish). *)
Definition orElse (a b : Outcome JsVal) : Outcome JsVal :=
  match a with
  | Ok v => if truthy v then Ok v else b
  | Throw e => Throw e
  end.

Definition coalesce (a b : Outcome JsVal) : Outcome JsVal :=
  match a with
  | Ok v => if nullish v then b else Ok v
  | Throw e => Throw e
  end.

Declare Scope js_scope.
Delimit Scope js_scope with js.
Notation "v @ k" := (getProp v k) (at level 9, k at level 0, no associativity) : js_scope.
Notation "a ||| b" := (orElse a b) (at level 50, left associativity) : js_scope.
Notation "a ??? b" := (coalesce a b) (at level 50, left associativity) : js_scope.
Local Open Scope js_scope.

Definition numberToString (x : JsNumber) : string :=
  match x with
  | NaN => "NaN"
  | Fin n => pretty n
  end.

(** [String(v)].  An array joins its elements with a comma, [null] and
    [undefined] elements printing as nothing.  A plain object prints as
    [[object Object]] through [Object.prototype.toString]; an own property
    named [toString] shadows that method with a value that is not callable,
    and the conversion raises a [TypeError]. *)
Fixpoint jsString (v : JsVal) : Outcome string :=
  match v with
  | JUndefined => Ok "undefined"
  | JNull => Ok "null"
  | JBool true => Ok "true"
  | JBool false => Ok "false"
  | JNum x => Ok (numberToString x)
  | JStr s => Ok s
  | JArr items =>
      let element (x : JsVal) : Outcome string :=
        match x with
        | JUndefined | JNull => Ok ""
        | _ => jsString x
        end in
      (fix join (l : list JsVal) : Outcome string :=
         match l with
         | [] => Ok ""
         | [x] => element x
         | x :: rest =>
             match element x with
             | Ok s =>
                 match join rest with
                 | Ok r => Ok (s +:+ "," +:+ r)
                 | Throw e => Throw e
                 end
             | Throw e => Throw e
             end
         end) items
  | JObj props =>
      if hasOwn "toString" props then Throw (Engine TypeError)
      else Ok "[object Object]"
  end.

(** [array.filter(callback)] with a callback that may throw. *)
Fixpoint filterM {A : Type} (p : A -> Outcome bool) (l : list A) : Outcome (list A) :=
  match l with
  | [] => Ok []
  | x :: rest =>
      keep ← p x;
      kept ← filterM p rest;
      Ok (if (keep : bool) then x :: kept else kept)
  end.

(** ** The runtime *)

(** What [await fetch(url, init)] followed by [response.json()] can give:
    a rejected promise, or a response with its [ok] flag, its [statusText]
    and the outcome of parsing its body. *)
Inductive FetchResult : Type :=
| FetchRejected (e : JsError)
| Response (ok : bool) (statusText : string) (json : Outcome JsVal).

Record Runtime : Type := {
  now : Z;                                    (* Date.now(), milliseconds *)
  dateSeconds : JsVal -> Outcome JsNumber;    (* new Date(v).getTime() / 1000 *)
  engineText : EngineFault -> string;         (* err.message of an engine error *)
  NEXT_PUBLIC_WEBHOOK_GET_CUSTOMERS : option string;
  NEXT_PUBLIC_WEBHOOK_CREATE_CUSTOMER : option string;
  fetch : string -> option JsVal -> FetchResult;   (* url, JSON body of a POST *)
}.

Definition errorMessage (rt : Runtime) (e : JsError) : string :=
  match e with
  | Engine f => engineText rt f
  | Error message => message
  end.

(** ** The customer record ([interface Customer])

    The fields hold what [transformCustomerData] stores in them at run time:
    [id] is always the result of [String(...)]; the other scalar fields are
    copied from the payload and can hold any value. *)

Inductive Customer : Type := mkCustomer {
  id : string;
  name : JsVal;
  customer_type : JsVal;
  created : JsVal;
  client_count : JsVal;
  suborgs : option (list Customer);
  parent_org_name : JsVal;
  email : JsVal;
  metadata : JsVal;
}.

(** ** [transformCustomerData] *)

(** The callback of [rawSubOrgs.filter]. *)
Definition keepSubOrg (customerId : string) (suborg : JsVal) : Outcome bool :=
  suborgRawId ← suborg@"id" ??? suborg@"Id" ??? suborg@"ID";
  suborgId ← jsString suborgRawId;
  suborgType ← suborg@"customer_type" ||| suborg@"customerType" ||| Ok (JStr "org");
  Ok (negb (String.eqb suborgId customerId) && strictEqStr suborgType "sub-org").

(** The body of the function; [self] is the recursive call. *)
Definition transformBody (self : JsVal -> Outcome Customer)
    (rt : Runtime) (data : JsVal) : Outcome Customer :=
  rawId ← data@"id" ??? data@"Id" ??? data@"ID";
  customerId ← jsString rawId;
  rawSubOrgs ← data@"suborgs" ||| data@"subOrgs" ||| data@"SubOrgs" ||| Ok (JArr []);
  transformedSubOrgs ←
    match rawSubOrgs with
    | JArr items =>
        kept ← filterM (keepSubOrg customerId) items;
        mapM self kept
    | _ => Ok []
    end;
  name_ ← data@"name" ||| data@"Name" ||| Ok (JStr "");
  customer_type_ ← data@"customer_type" ||| data@"customerType" ||| Ok (JStr "org");
  created_ ← data@"created" |||
    (createdAt ← data@"CreatedAt";
     if truthy createdAt
     then seconds ← dateSeconds rt createdAt; Ok (JNum seconds)
     else Ok (JNum (Fin (now rt / 1000))));
  client_count_ ← data@"client_count" ||| data@"clientCount" ||| data@"ClientCount"
                    ||| Ok (JNum (Fin 0));
  parent_org_name_ ← data@"parent_org_name" ||| data@"parentOrgName" ||| data@"ParentOrgName";
  email_ ← data@"email" ||| data@"Email";
  metadata_ ← data@"metadata" ||| Ok (JObj []);
  Ok {| id := customerId;
        name := name_;
        customer_type := customer_type_;
        created := created_;
        client_count := client_count_;
        suborgs := Some transformedSubOrgs;
        parent_org_name := parent_org_name_;
        email := email_;
        metadata := metadata_ |}.

(** The function with a budget of nested calls; an exhausted budget is the
    engine's [RangeError] for an exhausted call stack. *)
Fixpoint transformFuel (fuel : nat) (rt : Runtime) (data : JsVal) : Outcome Customer :=
  match fuel with
  | O => Throw (Engine RangeError)
  | S fuel' => transformBody (transformFuel fuel' rt) rt data
  end.

(** Nesting depth of a payload. *)
Fixpoint depth (v : JsVal) : nat :=
  match v with
  | JArr items => S (foldr (fun x d => Nat.max (depth x) d) 0 items)
  | JObj props => S (foldr (fun kv d => Nat.max (depth (snd kv)) d) 0 props)
  | _ => 0
  end.

(** The function itself: a call nests at most as deep as the payload. *)
Definition transformCustomerData (rt : Runtime) (data : JsVal) : Outcome Customer :=
  transformFuel (S (depth data)) rt data.

(** ** The provider state and its operations *)

Record State : Type := {
  customers : list Customer;
  loading : bool;
  error : option string;
}.

Definition setCustomers (f : list Customer -> list Customer) (st : State) : State :=
  {| customers := f (customers st); loading := loading st; error := error st |}.

Definition setLoading (b : bool) (st : State) : State :=
  {| customers := customers st; loading := b; error := error st |}.

Definition setError (e : option string) (st : State) : State :=
  {| customers := customers st; loading := loading st; error := e |}.

(** [!webhookUrl] for an entry of [process.env]. *)
Definition configured (webhookUrl : option string) : option string :=
  match webhookUrl with
  | Some url => if String.eqb url "" then None else Some url
  | None => None
  end.

(** [!customer.id] and [!customer.name]. *)
Definition missingId (customer : Customer) : bool := negb (truthy (JStr (id customer))).
Definition missingName (customer : Customer) : bool := negb (truthy (name customer)).

Definition addCustomer (rt : Runtime) (customerData : JsVal) (st : State)
    : Outcome Customer * State :=
  let attempt : Outcome Customer :=
    match configured (NEXT_PUBLIC_WEBHOOK_CREATE_CUSTOMER rt) with
    | None => Throw (Error "NEXT_PUBLIC_WEBHOOK_CREATE_CUSTOMER is not configured")
    | Some webhookUrl =>
        match fetch rt webhookUrl (Some customerData) with
        | FetchRejected e => Throw e
        | Response ok statusText json =>
            if negb ok
            then Throw (Error ("Failed to create customer: " +:+ statusText))
            else
              rawCustomer ← json;
              rawCustomer ←
                match rawCustomer with
                | JArr [] => Throw (Error "Webhook returned empty array")
                | JArr (first :: _) => Ok first
                | _ => Ok rawCustomer
                end;
              newCustomer ← transformCustomerData rt rawCustomer;
              if missingId newCustomer || missingName newCustomer
              then Throw (Error "Invalid response from webhook - missing required fields (id, name)")
              else Ok newCustomer
        end
    end in
  match attempt with
  | Ok newCustomer =>
      (Ok newCustomer,
       setError None (setCustomers (fun prev => prev ++ [newCustomer]) st))
  | Throw err => (Throw err, setError (Some (errorMessage rt err)) st)
  end.

(** [Partial<Customer>]: the keys an update lists.  [Some v] is a listed key;
    for [suborgs] the listed value may itself be [undefined]. *)
Record CustomerUpdates : Type := {
  new_id : option string;
  new_name : option JsVal;
  new_customer_type : option JsVal;
  new_created : option JsVal;
  new_client_count : option JsVal;
  new_suborgs : option (option (list Customer));
  new_parent_org_name : option JsVal;
  new_email : option JsVal;
  new_metadata : option JsVal;
}.

(** [{ ...customer, ...updates }]. *)
Definition spreadUpdates (customer : Customer) (updates : CustomerUpdates) : Customer :=
  {| id := default (id customer) (new_id updates);
     name := default (name customer) (new_name updates);
     customer_type := default (customer_type customer) (new_customer_type updates);
     created := default (created customer) (new_created updates);
     client_count := default (client_count customer) (new_client_count updates);
     suborgs := default (suborgs customer) (new_suborgs updates);
     parent_org_name := default (parent_org_name customer) (new_parent_org_name updates);
     email := default (email customer) (new_email updates);
     metadata := default (metadata customer) (new_metadata updates) |}.

Definition updateCustomer (target : string) (updates : CustomerUpdates) (st : State) : State :=
  setError None
    (setCustomers
       (fun prev =>
          map (fun customer =>
                 if String.eqb (id customer) target
                 then spreadUpdates customer updates
                 else customer) prev) st).

Definition deleteCustomer (target : string) (st : State) : State :=
  setError None
    (setCustomers
       (fun prev => List.filter (fun customer => negb (String.eqb (id customer) target)) prev)
       st).

Definition getCustomer (target : string) (st : State) : option Customer :=
  List.find (fun customer => String.eqb (id customer) target) (customers st).

(** An entry of [invalidCustomers].  [raw] is the rejected element (the
    source stores it under [data] or [raw]); [caught] is the [error] key. *)
Record InvalidCustomer : Type := {
  index : nat;
  reason : string;
  raw : JsVal;
  transformed : option Customer;
  caught : option JsError;
}.

(** One turn of [data.forEach((rawCustomer, index) => ...)]. *)
Definition validateCustomer (rt : Runtime)
    (acc : list Customer * list InvalidCustomer) (rawCustomer : JsVal) (index : nat)
    : list Customer * list InvalidCustomer :=
  let '(validatedCustomers, invalidCustomers) := acc in
  let reject reason transformed caught :=
    (validatedCustomers,
     invalidCustomers ++ [ {| index := index; reason := reason; raw := rawCustomer;
                              transformed := transformed; caught := caught |} ]) in
  if negb (truthy rawCustomer) then reject "null or undefined" None None
  else
    match transformCustomerData rt rawCustomer with
    | Ok customer =>
        if missingId customer then reject "missing id" (Some customer) None
        else if missingName customer then reject "missing name" (Some customer) None
        else (validatedCustomers ++ [customer], invalidCustomers)
    | Throw err => reject "transform error" None (Some err)
    end.

Fixpoint forEachFrom {A B : Type} (f : B -> A -> nat -> B) (index : nat)
    (l : list A) (acc : B) : B :=
  match l with
  | [] => acc
  | x :: rest => forEachFrom f (S index) rest (f acc x index)
  end.

(** [refreshCustomers]: the new state and the [invalidCustomers] it logged. *)
Definition refreshCustomers (rt : Runtime) (st : State) : State * list InvalidCustomer :=
  let st := setError None (setLoading true st) in
  let attempt : Outcome (State * list InvalidCustomer) :=
    match configured (NEXT_PUBLIC_WEBHOOK_GET_CUSTOMERS rt) with
    | None => Ok (setCustomers (fun _ => []) st, [])
    | Some webhookUrl =>
        match fetch rt webhookUrl None with
        | FetchRejected e => Throw e
        | Response ok statusText json =>
            if negb ok
            then Throw (Error ("Failed to fetch customers: " +:+ statusText))
            else
              data ← json;
              match data with
              | JArr items =>
                  let '(validatedCustomers, invalidCustomers) :=
                    forEachFrom (validateCustomer rt) 0 items ([], []) in
                  Ok (setCustomers (fun _ => validatedCustomers) st, invalidCustomers)
              | _ => Ok (setCustomers (fun _ => []) st, [])
              end
        end
    end in
  match attempt with
  | Ok (st', invalidCustomers) => (setLoading false st', invalidCustomers)
  | Throw err => (setLoading false (setError (Some (errorMessage rt err)) st), [])
  end.

(** ** The flattened list of the pages *)

(** [Customer & { uniqueKey?: string; parent_org_id?: string }]: the copied
    customer and the keys the reducer adds. *)
Record FlatRow : Type := {
  row : Customer;
  uniqueKey : string;
  parent_org_id : option string;
}.

(** [{ ...suborg, parent_org_name: value }]. *)
Definition withParentName (suborg : Customer) (value : JsVal) : Customer :=
  {| id := id suborg;
     name := name suborg;
     customer_type := customer_type suborg;
     created := created suborg;
     client_count := client_count suborg;
     suborgs := suborgs suborg;
     parent_org_name := value;
     email := email suborg;
     metadata := metadata suborg |}.

(** [suborg.id || index], inside a template literal. *)
Definition idOrIndex (suborg : Customer) (index : nat) : string :=
  if String.eqb (id suborg) "" then pretty index else id suborg.

Definition orgKey (customer : Customer) : string := "org-" +:+ id customer.

Definition subOrgKey (customer suborg : Customer) (index : nat) : string :=
  "suborg-" +:+ id customer +:+ "-" +:+ idOrIndex suborg index.

Definition orgRow (customer : Customer) : FlatRow :=
  {| row := customer; uniqueKey := orgKey customer; parent_org_id := None |}.

(** The home page. *)
Module HomePage.

Definition subOrgsWithParent (customer : Customer) (subs : list Customer) : list FlatRow :=
  imap (fun index suborg =>
          {| row := withParentName suborg (name customer);
             uniqueKey := subOrgKey customer suborg index;
             parent_org_id := None |}) subs.

Definition allCustomersFlattened (customers : list Customer) : list FlatRow :=
  fold_left
    (fun acc customer =>
       let acc := acc ++ [orgRow customer] in
       match suborgs customer with
       | Some ((_ :: _) as subs) => acc ++ subOrgsWithParent customer subs
       | _ => acc
       end)
    customers [].

End HomePage.

(** The client-creation pages, which also record the parent's id. *)
Module ClientCreate.

Definition subOrgsWithParent (customer : Customer) (subs : list Customer) : list FlatRow :=
  imap (fun index suborg =>
          {| row := withParentName suborg (name customer);
             uniqueKey := subOrgKey customer suborg index;
             parent_org_id := Some (id customer) |}) subs.

Definition allCustomersFlattened (customers : list Customer) : list FlatRow :=
  fold_left
    (fun acc customer =>
       let acc := acc ++ [orgRow customer] in
       match suborgs customer with
       | Some ((_ :: _) as subs) => acc ++ subOrgsWithParent customer subs
       | _ => acc
       end)
    customers [].

Definition allSubOrgs (customers : list Customer) : list FlatRow :=
  List.filter (fun c => strictEqStr (customer_type (row c)) "sub-org")
    (allCustomersFlattened customers).

End ClientCreate.

(** ** Derived notions used in the statements *)

(** The records of the nested collection: the elements of
    [data.suborgs || data.subOrgs || data.SubOrgs || []] when it is an array. *)
Definition subRecords (data : JsVal) : list JsVal :=
  match data@"suborgs" ||| data@"subOrgs" ||| data@"SubOrgs" ||| Ok (JArr []) with
  | Ok (JArr items) => items
  | _ => []
  end.

(** The value of [data.key] on a value that is neither [null] nor
    [undefined], and the two choice operators on values.  The definitions
    after them name the alias chains of [transformCustomerData];
    [transformCustomerData_eq] ties them to the function. *)
Definition prop (data : JsVal) (key : string) : JsVal :=
  match data with
  | JObj props => lookupProp key props
  | _ => JUndefined
  end.

Definition orVal (a b : JsVal) : JsVal := if truthy a then a else b.
Definition nullVal (a b : JsVal) : JsVal := if nullish a then b else a.

Definition rawIdOf (data : JsVal) : JsVal :=
  nullVal (nullVal (prop data "id") (prop data "Id")) (prop data "ID").
Definition nameOf (data : JsVal) : JsVal :=
  orVal (orVal (prop data "name") (prop data "Name")) (JStr "").
Definition typeOf (data : JsVal) : JsVal :=
  orVal (orVal (prop data "customer_type") (prop data "customerType")) (JStr "org").
Definition clientCountOf (data : JsVal) : JsVal :=
  orVal (orVal (orVal (prop data "client_count") (prop data "clientCount"))
               (prop data "ClientCount")) (JNum (Fin 0)).
Definition parentOrgNameOf (data : JsVal) : JsVal :=
  orVal (orVal (prop data "parent_org_name") (prop data "parentOrgName"))
        (prop data "ParentOrgName").
Definition emailOf (data : JsVal) : JsVal := orVal (prop data "email") (prop data "Email").
Definition metadataOf (data : JsVal) : JsVal := orVal (prop data "metadata") (JObj []).

Definition createdOf (rt : Runtime) (data : JsVal) : Outcome JsVal :=
  if truthy (prop data "created") then Ok (prop data "created")
  else if truthy (prop data "CreatedAt")
       then seconds ← dateSeconds rt (prop data "CreatedAt"); Ok (JNum seconds)
       else Ok (JNum (Fin (now rt / 1000))).

(** The test of the filter callback, on a record that is not nullish:
    the stringified id differs from the parent's and the resolved kind is
    the string [sub-org]. *)
Definition passesFilter (parentId : string) (suborg : JsVal) : bool :=
  match jsString (rawIdOf suborg) with
  | Ok suborgId =>
      negb (String.eqb suborgId parentId) && strictEqStr (typeOf suborg) "sub-org"
  | Throw _ => false
  end.


(** ** Sample inputs *)

(** A runtime whose clock reads [clock], whose date conversion yields an
    invalid date, and whose webhooks answer [reply]. *)
Definition sampleRuntime (clock : Z) (reply : FetchResult) : Runtime :=
  {| now := clock;
     dateSeconds := fun _ => Ok NaN;
     engineText := fun _ => "engine error";
     NEXT_PUBLIC_WEBHOOK_GET_CUSTOMERS := Some "https://example.test/customers";
     NEXT_PUBLIC_WEBHOOK_CREATE_CUSTOMER := Some "https://example.test/create";
     fetch := fun _ _ => reply |}.

Definition offline : FetchResult := FetchRejected (Error "Failed to fetch").

Definition emptyState : State := {| customers := []; loading := false; error := None |}.

(** [{id:"1", name:"A", suborgs:[{id:"2", name:"B", customer_type:"sub-org",
      suborgs:[{id:"3", name:"C", customer_type:"sub-org"}]}]}] *)
Definition nestedPayload : JsVal :=
  JObj [("id", JStr "1"); ("name", JStr "A");
        ("suborgs", JArr [
           JObj [("id", JStr "2"); ("name", JStr "B"); ("customer_type", JStr "sub-org");
                 ("suborgs", JArr [
                    JObj [("id", JStr "3"); ("name", JStr "C");
                          ("customer_type", JStr "sub-org")]])]])].

(** [{id:"1", name:"A", customer_type:"sub-org",
      suborgs:[{id:"1", name:"A", customer_type:"sub-org"}]}] *)
Definition selfReferencePayload : JsVal :=
  JObj [("id", JStr "1"); ("name", JStr "A"); ("customer_type", JStr "sub-org");
        ("suborgs", JArr [
           JObj [("id", JStr "1"); ("name", JStr "A"); ("customer_type", JStr "sub-org")]])].

(** [{id:"1", name:"A", suborgs:[{id:"2", name:"O", customer_type:"org"},
      {id:"3", name:"S", customer_type:"sub-org"}]}] *)
Definition mixedKindsPayload : JsVal :=
  JObj [("id", JStr "1"); ("name", JStr "A");
        ("suborgs", JArr [
           JObj [("id", JStr "2"); ("name", JStr "O"); ("customer_type", JStr "org")];
           JObj [("id", JStr "3"); ("name", JStr "S"); ("customer_type", JStr "sub-org")]])].

(** [{id:"1", name:"A", customer_type:"enterprise"}] *)
Definition unknownKindPayload : JsVal :=
  JObj [("id", JStr "1"); ("name", JStr "A"); ("customer_type", JStr "enterprise")].

(** [{name:"Acme"}] *)
Definition noIdPayload : JsVal := JObj [("name", JStr "Acme")].

(** [{id:"1", name:"A"}] *)
Definition plainPayload : JsVal := JObj [("id", JStr "1"); ("name", JStr "A")].

(** [{id:"1", name:"A", created:1700000000}] *)
Definition stampedPayload : JsVal :=
  JObj [("id", JStr "1"); ("name", JStr "A"); ("created", JNum (Fin 1700000000))].

(** [{id:"1", name:"A", Email:""}] *)
Definition blankEmailPayload : JsVal :=
  JObj [("id", JStr "1"); ("name", JStr "A"); ("Email", JStr "")].

(** What [mixedKindsPayload] normalises to when the clock reads
    1700000000000 ms. *)
Definition mixedKindsEntity : Customer :=
  {| id := "1"; name := JStr "A"; customer_type := JStr "org";
     created := JNum (Fin 1700000000); client_count := JNum (Fin 0);
     suborgs := Some [ {| id := "3"; name := JStr "S"; customer_type := JStr "sub-org";
                          created := JNum (Fin 1700000000); client_count := JNum (Fin 0);
                          suborgs := Some []; parent_org_name := JUndefined;
                          email := JUndefined; metadata := JObj [] |} ];
     parent_org_name := JUndefined; email := JUndefined; metadata := JObj [] |}.

(** The customer a raw element contributes to the accepted list, if any:
    the decision of one turn of the [forEach] loop, without its log. *)
Definition accepted (rt : Runtime) (rawCustomer : JsVal) : option Customer :=
  if negb (truthy rawCustomer) then None
  else
    match transformCustomerData rt rawCustomer with
    | Ok customer =>
        if missingId customer || missingName customer then None else Some customer
    | Throw _ => None
    end.

(** What [noIdPayload] normalises to. *)
Definition noIdEntity (rt : Runtime) : Customer :=
  {| id := "undefined"; name := JStr "Acme"; customer_type := JStr "org";
     created := JNum (Fin (now rt / 1000)); client_count := JNum (Fin 0);
     suborgs := Some []; parent_org_name := JUndefined;
     email := JUndefined; metadata := JObj [] |}.

(** Runtimes whose customer webhook answers with a given body. *)
Definition noIdBatchRuntime : Runtime :=
  sampleRuntime 1700000000000 (Response true "OK" (Ok (JArr [noIdPayload]))).

(** [{customers: [{id:"1", name:"A"}]}]: an object, not a list. *)
Definition wrappedBody : JsVal := JObj [("customers", JArr [plainPayload])].

Definition wrappedBodyRuntime : Runtime :=
  sampleRuntime 1700000000000 (Response true "OK" (Ok wrappedBody)).

(** ** The flattening, in the words of the specification *)

(** The stored children of an entity; none when [suborgs] is [undefined]. *)
Definition children (E : Customer) : list Customer := default [] (suborgs E).

(** For each top-level entity: one row for the entity, immediately followed
    by one row per child, in stored order. *)
Definition rowsOf (subRows : Customer -> list Customer -> list FlatRow) (E : Customer)
    : list FlatRow :=
  orgRow E :: subRows E (children E).

Definition flattenedSpec (subRows : Customer -> list Customer -> list FlatRow)
    (entities : list Customer) : list FlatRow :=
  flat_map (rowsOf subRows) entities.

(** The entities the rows wrap: the entity itself, then each child with the
    parent's name copied into [parent_org_name]. *)
Definition wrappedEntities (E : Customer) : list Customer :=
  E :: map (fun c => withParentName c (name E)) (children E).

(** A customer with the given id, name, kind and children, as
    [transformCustomerData] builds them. *)
Definition entity (i n kind : string) (subs : list Customer) : Customer :=
  {| id := i; name := JStr n; customer_type := JStr kind;
     created := JNum (Fin 1700000000); client_count := JNum (Fin 0);
     suborgs := Some subs; parent_org_name := JUndefined;
     email := JUndefined; metadata := JObj [] |}.

(** The keys of a flattened list. *)
Definition keysOf (rows : list FlatRow) : list string := map uniqueKey rows.

(** The string has no hyphen. *)
Fixpoint dashFree (s : string) : bool :=
  match s with
  | EmptyString => true
  | String a rest => negb (Ascii.eqb a "-"%char) && dashFree rest
  end.

(** The condition under which the keys of an entity's rows are determined
    by ids alone: the entity's id has no hyphen, and its children have
    pairwise distinct, non-empty ids. *)
Definition wellKeyed (E : Customer) : Prop :=
  dashFree (id E) = true
  /\ NoDup (map id (children E))
  /\ Forall (fun c => id c <> "") (children E).

(** [[{id:"1", name:"A"}, {id:"1", name:"B"}]]: a batch that repeats an id. *)
Definition repeatedIdRuntime : Runtime :=
  sampleRuntime 1700000000000
    (Response true "OK"
       (Ok (JArr [JObj [("id", JStr "1"); ("name", JStr "A")];
                  JObj [("id", JStr "1"); ("name", JStr "B")]]))).

(** [[A(children=[A1, A2]), B(children=[])]], the list of the ordering test. *)
Definition sampleCustomers : list Customer :=
  [entity "A" "A" "org" [entity "A1" "A1" "sub-org" []; entity "A2" "A2" "sub-org" []];
   entity "B" "B" "org" []].

(** ** A customer read back as a payload *)

(** The object [transformCustomerData] returns, as a value that can be
    passed to it again: its nine own properties. *)
Fixpoint toJs (c : Customer) : JsVal :=
  match c with
  | mkCustomer id_ name_ customer_type_ created_ client_count_ suborgs_
               parent_org_name_ email_ metadata_ =>
      JObj [("id", JStr id_);
            ("name", name_);
            ("customer_type", customer_type_);
            ("created", created_);
            ("client_count", client_count_);
            ("suborgs", match suborgs_ with
                        | Some subs => JArr (map toJs subs)
                        | None => JUndefined
                        end);
            ("parent_org_name", parent_org_name_);
            ("email", email_);
            ("metadata", metadata_)]
  end.

Definition truthyOrUndefined (v : JsVal) : bool :=
  truthy v || match v with JUndefined => true | _ => false end.

(** An entity on which a second normalisation has nothing to resolve anew:
    [created] is truthy, and [parent_org_name] and [email] are truthy or
    [undefined]; likewise for every entity below it. *)
Fixpoint settled (c : Customer) : bool :=
  match c with
  | mkCustomer _ _ _ created_ _ suborgs_ parent_org_name_ email_ _ =>
      truthy created_
      && truthyOrUndefined parent_org_name_
      && truthyOrUndefined email_
      && match suborgs_ with
         | Some subs => forallb settled subs
         | None => true
         end
  end.

(** What [blankEmailPayload] normalises to when the clock reads
    1700000000000 ms: the empty [Email] is kept. *)
Definition blankEmailEntity : Customer :=
  {| id := "1"; name := JStr "A"; customer_type := JStr "org";
     created := JNum (Fin 1700000000); client_count := JNum (Fin 0);
     suborgs := Some []; parent_org_name := JUndefined;
     email := JStr ""; metadata := JObj [] |}.

(** ** Records that carry their own timestamp *)

(** The record has a truthy [created] or [CreatedAt], and so has every
    record of its nested collection, at every depth. *)
Inductive Timestamped : JsVal -> Prop :=
| Timestamped_record (data : JsVal) :
    truthy (prop data "created") = true \/ truthy (prop data "CreatedAt") = true ->
    Forall Timestamped (subRecords data) ->
    Timestamped data.

(** ** Further notions for the provider *)

(** The runtime [rt] with every [fetch] answered by [reply]. *)
Definition withReply (rt : Runtime) (reply : FetchResult) : Runtime :=
  {| now := now rt;
     dateSeconds := dateSeconds rt;
     engineText := engineText rt;
     NEXT_PUBLIC_WEBHOOK_GET_CUSTOMERS := NEXT_PUBLIC_WEBHOOK_GET_CUSTOMERS rt;
     NEXT_PUBLIC_WEBHOOK_CREATE_CUSTOMER := NEXT_PUBLIC_WEBHOOK_CREATE_CUSTOMER rt;
     fetch := fun _ _ => reply |}.

(** A customer that passes the two checks made after a transformation. *)
Definition hasIdAndName (c : Customer) : Prop :=
  id c <> "" /\ truthy (name c) = true.

(** [{id:"7", name:"New"}] *)
Definition newPayload : JsVal := JObj [("id", JStr "7"); ("name", JStr "New")].

(** An entity that came out of [transformCustomerData]. *)
Definition normalised (E : Customer) : Prop :=
  exists rt data, transformCustomerData rt data = Ok E.

(** The rows of an entity offered for client assignment: its own row when
    the entity is itself a sub-organisation, and the rows of its children. *)
Definition assignableRows (E : Customer) : list FlatRow :=
  (if strictEqStr (customer_type E) "sub-org" then [orgRow E] else [])
  ++ ClientCreate.subOrgsWithParent E (children E).

(** * The pages and components around the provider *)

(** ** [CustomerAutocomplete]

    The component receives the rows of a page.  A customer handed over
    without [uniqueKey] is the row with the empty key: the component only
    tests the key for truthiness. *)

Definition plainRow (customer : Customer) : FlatRow :=
  {| row := customer; uniqueKey := ""; parent_org_id := None |}.

(** [s.includes(sub)]. *)
Fixpoint includes (s sub : string) : bool :=
  String.prefix sub s
  || match s with
     | EmptyString => false
     | String _ rest => includes rest sub
     end.

(** [v.toLowerCase()]: the host's case mapping on a string; on any other
    value the method is missing and the call raises a [TypeError]. *)
Definition lowerCase (toLowerCase : string -> string) (v : JsVal) : Outcome string :=
  match v with
  | JStr s => Ok (toLowerCase s)
  | _ => Throw (Engine TypeError)
  end.

(** The callback of [customers.filter] in the component. *)
Definition suggestionMatches (toLowerCase : string -> string) (value : JsVal)
    (customer : FlatRow) : Outcome bool :=
  if negb (truthy (name (row customer))) then Ok false
  else
    searchLower ← lowerCase toLowerCase value;
    nameLower ← lowerCase toLowerCase (name (row customer));
    let nameMatches := includes nameLower searchLower in
    parentMatches ←
      (if truthy (parent_org_name (row customer))
       then parentLower ← lowerCase toLowerCase (parent_org_name (row customer));
            Ok (includes parentLower searchLower)
       else Ok false);
    Ok (nameMatches || parentMatches).

(** [customers.filter(...).slice(0, 8)]. *)
Definition suggestions (toLowerCase : string -> string) (customers : list FlatRow)
    (value : JsVal) : Outcome (list FlatRow) :=
  kept ← filterM (suggestionMatches toLowerCase value) customers;
  Ok (take 8 kept).

(** The component's own state, and what it reports to its parent through
    [onChange] and [onSelectCustomer].  The optional [onSelectCustomer] is
    taken as supplied, as every page that renders the component does. *)
Record Dropdown : Type := {
  isOpen : bool;
  highlightedIndex : Z;
}.

Inductive Emitted : Type :=
| OnChange (value : JsVal)
| OnSelectCustomer (customer : FlatRow).

Definition handleInputChange (newValue : string) (st : Dropdown) : Dropdown * list Emitted :=
  ({| isOpen := true; highlightedIndex := -1 |}, [OnChange (JStr newValue)]).

Definition handleSelectSuggestion (customer : FlatRow) (st : Dropdown)
    : Dropdown * list Emitted :=
  ({| isOpen := false; highlightedIndex := -1 |},
   [OnChange (name (row customer)); OnSelectCustomer customer]).

(** [suggestions[highlightedIndex]], for an index that is not negative. *)
Definition suggestionAt (shown : list FlatRow) (i : Z) : option FlatRow :=
  shown !! Z.to_nat i.

Definition handleKeyDown (shown : list FlatRow) (key : string) (st : Dropdown)
    : Dropdown * list Emitted :=
  if negb (isOpen st) && (0 <? length shown)%nat
     && (String.eqb key "ArrowDown" || String.eqb key "ArrowUp")
  then ({| isOpen := true; highlightedIndex := highlightedIndex st |}, [])
  else if String.eqb key "ArrowDown" then
    ({| isOpen := isOpen st;
        highlightedIndex :=
          if (highlightedIndex st <? Z.of_nat (length shown) - 1)%Z
          then (highlightedIndex st + 1)%Z else highlightedIndex st |}, [])
  else if String.eqb key "ArrowUp" then
    ({| isOpen := isOpen st;
        highlightedIndex :=
          if (0 <? highlightedIndex st)%Z then (highlightedIndex st - 1)%Z else (-1)%Z |}, [])
  else if String.eqb key "Enter" then
    if (0 <=? highlightedIndex st)%Z then
      match suggestionAt shown (highlightedIndex st) with
      | Some customer => handleSelectSuggestion customer st
      | None => (st, [])
      end
    else (st, [])
  else if String.eqb key "Escape" then
    ({| isOpen := false; highlightedIndex := -1 |}, [])
  else (st, []).

Definition handleFocus (st : Dropdown) : Dropdown :=
  {| isOpen := true; highlightedIndex := highlightedIndex st |}.

Definition handleClear (st : Dropdown) : Dropdown * list Emitted :=
  ({| isOpen := false; highlightedIndex := -1 |}, [OnChange (JStr "")]).

(** [isOpen && suggestions.length > 0]. *)
Definition showDropdown (shown : list FlatRow) (st : Dropdown) : bool :=
  isOpen st && (0 <? length shown)%nat.

(** The React key of the suggestion at [index]. *)
Definition suggestionKey (customer : FlatRow) (index : nat) : string :=
  if String.eqb (uniqueKey customer) ""
  then id (row customer) +:+ "-" +:+ pretty index
  else uniqueKey customer.

(** Pressing a key [presses] times in a row. *)
Fixpoint pressMany (shown : list FlatRow) (key : string) (presses : nat) (st : Dropdown)
    : Dropdown :=
  match presses with
  | O => st
  | S n => pressMany shown key n (fst (handleKeyDown shown key st))
  end.

(** The highlighted index points at a suggestion or is [-1]. *)
Definition inRange (shown : list FlatRow) (st : Dropdown) : Prop :=
  (-1 <= highlightedIndex st < Z.of_nat (length shown))%Z.

(** ASCII case mapping, a sample of the host's. *)
Fixpoint asciiLower (s : string) : string :=
  match s with
  | EmptyString => EmptyString
  | String a rest =>
      let n := nat_of_ascii a in
      String (if (65 <=? n)%nat && (n <=? 90)%nat then ascii_of_nat (n + 32) else a)
             (asciiLower rest)
  end.

Definition isString (v : JsVal) : Prop := exists s, v = JStr s.

(** A row the filter callback can examine without a [TypeError]: a truthy
    name is a string, and then a truthy parent name is a string too. *)
Definition searchable (r : FlatRow) : Prop :=
  truthy (name (row r)) = true ->
  isString (name (row r))
  /\ (truthy (parent_org_name (row r)) = true -> isString (parent_org_name (row r))).

Definition isStringb (v : JsVal) : bool :=
  match v with
  | JStr _ => true
  | _ => false
  end.

(** [searchable], as a test. *)
Definition searchableb (r : FlatRow) : bool :=
  negb (truthy (name (row r)))
  || (isStringb (name (row r))
      && (negb (truthy (parent_org_name (row r))) || isStringb (parent_org_name (row r)))).

(** [[{id:"1", name:5}]]: a record whose name is a number. *)
Definition numericNameRuntime : Runtime :=
  sampleRuntime 1700000000000
    (Response true "OK" (Ok (JArr [JObj [("id", JStr "1"); ("name", JNum (Fin 5))]]))).

(** [onMouseEnter] of the suggestion at [index]. *)
Definition handleMouseEnter (index : nat) (st : Dropdown) : Dropdown :=
  {| isOpen := isOpen st; highlightedIndex := Z.of_nat index |}.

(** The number of arrow presses that move the highlight: the first press on
    a closed dropdown with suggestions only opens it. *)
Definition movingPresses (shown : list FlatRow) (st : Dropdown) (presses : nat) : nat :=
  if isOpen st || (length shown =? 0)%nat then presses else presses - 1.

(** The four rows of the ordering test, and a closed dropdown. *)
Definition sampleRows : list FlatRow := HomePage.allCustomersFlattened sampleCustomers.
Definition closedDropdown : Dropdown := {| isOpen := false; highlightedIndex := -1 |}.
Definition openDropdown : Dropdown := {| isOpen := true; highlightedIndex := -1 |}.

(** The second of [sampleRows]: the child [A1] under its parent [A]. *)
Definition rowA1 : FlatRow :=
  {| row := withParentName (entity "A1" "A1" "sub-org" []) (JStr "A");
     uniqueKey := "suborg-A-A1";
     parent_org_id := None |}.

(** ** The browser's storage

    [localStorage] is a finite map from keys to strings.  A write that would
    exceed the browser's [quota], a test on the contents after the write,
    raises an error and leaves the contents as they are. *)

Definition getItem (storage : gmap string string) (key : string) : option string :=
  storage !! key.

Definition setItem (quota : gmap string string -> bool) (storage : gmap string string)
    (key value : string) : Outcome (gmap string string) :=
  if quota (<[key := value]> storage)
  then Ok (<[key := value]> storage)
  else Throw (Error "QuotaExceededError").

Definition removeItem (storage : gmap string string) (key : string) : gmap string string :=
  delete key storage.

(** [!stored], for what [getItem] returns. *)
Definition present (stored : option string) : bool :=
  match stored with
  | Some s => negb (String.eqb s "")
  | None => false
  end.

(** ** [ThemeToggle] *)

Module ThemeToggle.

(** The component's state with the two things it writes to: the class list
    of the document element and the storage. *)
Record Theme : Type := {
  isDark : bool;
  mounted : bool;
  classList : gset string;
  storage : gmap string string;
}.

(** The effect run on mount; [prefersDark] is what
    [matchMedia("(prefers-color-scheme: dark)")] reports. *)
Definition onMount (prefersDark : bool) (st : Theme) : Theme :=
  let savedTheme := getItem (storage st) "theme" in
  let shouldBeDark :=
    match savedTheme with
    | Some s => String.eqb s "dark"
    | None => false
    end
    || (negb (present savedTheme) && prefersDark) in
  {| isDark := shouldBeDark;
     mounted := true;
     classList := if shouldBeDark then classList st ∪ {["dark"]} else classList st ∖ {["dark"]};
     storage := storage st |}.

(** [toggleTheme]: the state after the handler, and the error it lets
    escape when the write to the storage fails. *)
Definition toggleTheme (quota : gmap string string -> bool) (st : Theme)
    : Theme * option JsError :=
  let newIsDark := negb (isDark st) in
  let classes :=
    if newIsDark then classList st ∪ {["dark"]} else classList st ∖ {["dark"]} in
  match setItem quota (storage st) "theme" (if newIsDark then "dark" else "light") with
  | Ok stored =>
      ({| isDark := newIsDark; mounted := mounted st; classList := classes; storage := stored |},
       None)
  | Throw e =>
      ({| isDark := newIsDark; mounted := mounted st; classList := classes;
          storage := storage st |},
       Some e)
  end.

(** A page load: a fresh component over the same storage.  The class list
    is carried over; the mount effect sets or removes its [dark] entry
    whatever it held. *)
Definition reload (prefersDark : bool) (st : Theme) : Theme :=
  onMount prefersDark
    {| isDark := false; mounted := false; classList := classList st; storage := storage st |}.

End ThemeToggle.

(** ** The home page: expanded rows *)

Module Home.

(** [toggleRowExpansion], as the update of the set of expanded ids. *)
Definition toggleRowExpansion (customerId : string) (prev : gset string) : gset string :=
  if decide (customerId ∈ prev) then prev ∖ {[customerId]} else prev ∪ {[customerId]}.

(** [array.some(callback)] for a callback that may throw: the scan stops at
    the first element the callback accepts. *)
Fixpoint some {A : Type} (callback : A -> Outcome bool) (l : list A) : Outcome bool :=
  match l with
  | [] => Ok false
  | x :: rest =>
      hit ← callback x;
      if (hit : bool) then Ok true else some callback rest
  end.

(** [suborg.name?.toLowerCase().includes(searchLower)], as [some] reads it:
    the [undefined] of a missing name counts as no match. *)
Definition subOrgNameMatches (toLowerCase : string -> string) (searchLower : string)
    (suborg : Customer) : Outcome bool :=
  if nullish (name suborg) then Ok false
  else
    nameLower ← lowerCase toLowerCase (name suborg);
    Ok (includes nameLower searchLower).

(** The callback of [customers.filter]; a customer of the list is an object,
    so [!customer] is false. *)
Definition customerMatches (toLowerCase : string -> string) (searchQuery : string)
    (customer : Customer) : Outcome bool :=
  if negb (truthy (name customer)) then Ok false
  else if negb (truthy (JStr searchQuery)) then Ok true
  else
    let searchLower := toLowerCase searchQuery in
    nameLower ← lowerCase toLowerCase (name customer);
    let customerNameMatches := includes nameLower searchLower in
    subOrgMatches ←
      match suborgs customer with
      | Some subs => some (subOrgNameMatches toLowerCase searchLower) subs
      | None => Ok false
      end;
    Ok (customerNameMatches || subOrgMatches).

Definition filteredCustomers (toLowerCase : string -> string) (searchQuery : string)
    (customers : list Customer) : Outcome (list Customer) :=
  filterM (customerMatches toLowerCase searchQuery) customers.

(** A customer the callback can examine without a [TypeError]: a truthy
    name is a string, and then each child's name is a string or missing. *)
Definition searchable (customer : Customer) : Prop :=
  truthy (name customer) = true ->
  isString (name customer)
  /\ Forall (fun suborg => nullish (name suborg) = true \/ isString (name suborg))
       (default [] (suborgs customer)).

(** The lower-cased string [v] contains the text. *)
Definition nameContains (toLowerCase : string -> string) (searchLower : string)
    (v : JsVal) : bool :=
  match v with
  | JStr s => includes (toLowerCase s) searchLower
  | _ => false
  end.

End Home.

(** A storage that takes every write. *)
Definition unlimited : gmap string string -> bool := fun _ => true.

(** A light page with nothing saved. *)
Definition freshTheme : ThemeToggle.Theme :=
  {| ThemeToggle.isDark := false; ThemeToggle.mounted := true;
     ThemeToggle.classList := ∅; ThemeToggle.storage := ∅ |}.

(** ** The client-creation pages: what is sent for a client *)

(** [clientData]: the body posted for one client of the selected row. *)
Definition clientData (clientName : string) (selectedCustomer : FlatRow)
    (recurringInterval : string) (recurringQuantity : Z) : JsVal :=
  let selected := row selectedCustomer in
  let base :=
    [("name", JStr clientName);
     ("customer_id", JStr (id selected));
     ("org_name", name selected);
     ("recurring_interval", JStr recurringInterval);
     ("recurring_quantity", JNum (Fin recurringQuantity))] in
  if strictEqStr (customer_type selected) "sub-org" then
    JObj (base
          ++ match parent_org_id selectedCustomer with
             | Some parentId =>
                 if String.eqb parentId "" then [] else [("parent_org_id", JStr parentId)]
             | None => []
             end
          ++ (if truthy (parent_org_name selected)
              then [("parent_org_name", parent_org_name selected)]
              else []))
  else JObj base.

(** ** The batch page *)

Module BatchCreate.

Record Progress : Type := {
  current : Z;
  total : Z;
}.

Record Page : Type := {
  selectedCustomer : option FlatRow;
  numberOfClients : Z;
  recurringInterval : string;
  recurringQuantity : Z;
  isSubmitting : bool;
  error : option string;
  success : bool;
  progress : Progress;
  createdClients : list string;
}.

(** The locals of the loop: the names created so far, the two counters, and
    the bodies posted so far. *)
Record Tally : Type := {
  created : list string;
  successCount : nat;
  failCount : nat;
  posted : list JsVal;
}.

(** One turn of the loop for index [i]: [fullName i] is the name the
    generator gives on that turn and [reply i] what the request comes to. *)
Definition createOne (fullName : nat -> string) (reply : nat -> FetchResult)
    (selected : FlatRow) (interval : string) (quantity : Z) (tally : Tally) (i : nat) : Tally :=
  let clientName := fullName i in
  let body := clientData clientName selected interval quantity in
  match reply i with
  | Response true _ _ =>
      {| created := created tally ++ [clientName];
         successCount := S (successCount tally);
         failCount := failCount tally;
         posted := posted tally ++ [body] |}
  | Response false _ _ | FetchRejected _ =>
      {| created := created tally;
         successCount := successCount tally;
         failCount := S (failCount tally);
         posted := posted tally ++ [body] |}
  end.

(** [for (let i = 0; i < numberOfClients; i++)], from index [i]. *)
Fixpoint createFrom (fullName : nat -> string) (reply : nat -> FetchResult)
    (selected : FlatRow) (interval : string) (quantity : Z)
    (i turns : nat) (tally : Tally) : Tally :=
  match turns with
  | O => tally
  | S rest =>
      createFrom fullName reply selected interval quantity (S i) rest
        (createOne fullName reply selected interval quantity tally i)
  end.

(** [handleSubmit]: the page afterwards and the bodies posted.
    [webhookUrl] is [process.env.NEXT_PUBLIC_WEBHOOK_CREATE_CLIENT]. *)
Definition handleSubmit (webhookUrl : option string) (fullName : nat -> string)
    (reply : nat -> FetchResult) (page : Page) : Page * list JsVal :=
  let cleared (e : option string) (submitting : bool) (p : Progress) :=
    {| selectedCustomer := selectedCustomer page;
       numberOfClients := numberOfClients page;
       recurringInterval := recurringInterval page;
       recurringQuantity := recurringQuantity page;
       isSubmitting := submitting;
       error := e;
       success := success page;
       progress := p;
       createdClients := [] |} in
  match selectedCustomer page with
  | None => (cleared (Some "Please select a sub-organization") (isSubmitting page)
               (progress page), [])
  | Some selected =>
      if (numberOfClients page <? 1)%Z || (1000 <? numberOfClients page)%Z
      then (cleared (Some "Please enter a number between 1 and 1000") (isSubmitting page)
              (progress page), [])
      else
        let started := {| current := 0; total := numberOfClients page |} in
        match configured webhookUrl with
        | None =>
            (cleared (Some "NEXT_PUBLIC_WEBHOOK_CREATE_CLIENT is not configured") false started,
             [])
        | Some _ =>
            let tally :=
              createFrom fullName reply selected (recurringInterval page)
                (recurringQuantity page) 0 (Z.to_nat (numberOfClients page))
                {| created := []; successCount := 0; failCount := 0; posted := [] |} in
            ({| selectedCustomer := selectedCustomer page;
                numberOfClients := numberOfClients page;
                recurringInterval := recurringInterval page;
                recurringQuantity := recurringQuantity page;
                isSubmitting := true;
                error :=
                  if (0 <? failCount tally)%nat
                  then Some ("Created " +:+ pretty (successCount tally)
                             +:+ " clients successfully, "
                             +:+ pretty (failCount tally) +:+ " failed")
                  else None;
                success := true;
                progress := {| current := numberOfClients page;
                               total := numberOfClients page |};
                createdClients := created tally |},
             posted tally)
        end
  end.

End BatchCreate.

(** The request of turn [i] got a response whose status is ok. *)
Definition replyOk (reply : nat -> FetchResult) (i : nat) : bool :=
  match reply i with
  | Response true _ _ => true
  | _ => false
  end.

(** A batch page with the row [rowA1] selected and three clients asked for;
    a name generator; a server that refuses every second request. *)
Definition samplePage : BatchCreate.Page :=
  {| BatchCreate.selectedCustomer := Some rowA1;
     BatchCreate.numberOfClients := 3;
     BatchCreate.recurringInterval := "month";
     BatchCreate.recurringQuantity := 1;
     BatchCreate.isSubmitting := false;
     BatchCreate.error := None;
     BatchCreate.success := false;
     BatchCreate.progress := {| BatchCreate.current := 0; BatchCreate.total := 0 |};
     BatchCreate.createdClients := [] |}.

Definition sampleNames (i : nat) : string := "Client " +:+ pretty i.

Definition everySecondFails (i : nat) : FetchResult :=
  if Nat.even i then Response true "OK" (Ok JNull) else Response false "Bad Gateway" (Ok JNull).

(** ** The clients page *)

Module ClientsView.

(** [interface Client], with what the transformation stores at run time. *)
Record Client : Type := {
  id : string;
  name : JsVal;
  customer_id : string;
  org_name : JsVal;
  parent_org_id : JsVal;
  parent_org_name : JsVal;
  created : JsVal;
  stripe_customer_id : JsVal;
  stripe_subscription_id : JsVal;
  stripe_subscription_status : JsVal;
}.

Record Page : Type := {
  clients : list Client;
  loading : bool;
  error : option string;
}.

(** The callback of [data.map] in [fetchClients]. *)
Definition transformClient (rt : Runtime) (client : JsVal) : Outcome Client :=
  rawId ← client@"id" ||| client@"Id";
  id_ ← jsString rawId;
  name_ ← client@"name" ||| client@"Name" ||| Ok (JStr "");
  rawCustomerId ← client@"customer_id" ||| client@"customerId" ||| client@"CustomerId"
                    ||| Ok (JStr "");
  customer_id_ ← jsString rawCustomerId;
  org_name_ ← client@"org_name" ||| client@"orgName" ||| client@"OrgName" ||| Ok (JStr "");
  parent_org_id_ ← client@"parent_org_id" ||| client@"parentOrgId" ||| client@"ParentOrgId";
  parent_org_name_ ← client@"parent_org_name" ||| client@"parentOrgName"
                       ||| client@"ParentOrgName";
  created_ ← client@"created" |||
    (createdAt ← client@"CreatedAt";
     if truthy createdAt
     then seconds ← dateSeconds rt createdAt; Ok (JNum seconds)
     else Ok JUndefined);
  stripe_customer_id_ ← client@"stripe_customer_id" ||| client@"stripeCustomerId";
  stripe_subscription_id_ ← client@"stripe_subscription_id" ||| client@"stripeSubscriptionId";
  stripe_subscription_status_ ← client@"stripe_subscription_status"
                                  ||| client@"stripeSubscriptionStatus";
  Ok {| id := id_;
        name := name_;
        customer_id := customer_id_;
        org_name := org_name_;
        parent_org_id := parent_org_id_;
        parent_org_name := parent_org_name_;
        created := created_;
        stripe_customer_id := stripe_customer_id_;
        stripe_subscription_id := stripe_subscription_id_;
        stripe_subscription_status := stripe_subscription_status_ |}.

(** The three response formats: a direct list, a list wrapped in an object
    under [data], and that object wrapped in a list. *)
Definition unwrap (data : JsVal) : Outcome JsVal :=
  match data with
  | JArr (first :: _) =>
      inner ← first@"data";
      if truthy inner then Ok inner else Ok data
  | JArr [] => Ok data
  | _ =>
      if truthy data
      then inner ← data@"data";
           if truthy inner && isArray inner then Ok inner else Ok data
      else Ok data
  end.

(** [fetchClients]; [suborgId] is the [suborg] parameter of the address and
    [webhookUrl] is [process.env.NEXT_PUBLIC_WEBHOOK_GET_CLIENTS]. *)
Definition fetchClients (rt : Runtime) (webhookUrl : option string)
    (suborgId : option string) (page : Page) : Page :=
  match configured suborgId with
  | None =>
      {| clients := clients page;
         loading := false;
         error := Some "No sub-organization specified. Please select a sub-org from the homepage." |}
  | Some suborg =>
      let attempt : Outcome (list Client) :=
        match configured webhookUrl with
        | None => Ok []
        | Some url =>
            match fetch rt url (Some (JObj [("customer_id", JStr suborg)])) with
            | FetchRejected e => Throw e
            | Response ok statusText json =>
                if negb ok
                then Throw (Error ("Failed to fetch clients: " +:+ statusText))
                else
                  data ← json;
                  data ← unwrap data;
                  match data with
                  | JArr items => mapM (transformClient rt) items
                  | _ => Ok []
                  end
            end
        end in
      match attempt with
      | Ok transformedClients =>
          {| clients := transformedClients; loading := false; error := None |}
      | Throw err =>
          {| clients := clients page; loading := false;
             error := Some (errorMessage rt err) |}
      end
  end.

End ClientsView.

(** The first element of a list of clients, if any, is a record without a
    truthy [data] property: the list cannot be mistaken for a wrapper. *)
Definition plainHead (items : list JsVal) : Prop :=
  match items with
  | [] => True
  | first :: _ => nullish first = false /\ truthy (prop first "data") = false
  end.

(** [[{id: 1, name: "Ada"}, {Id: 2, Name: "Bob"}]] *)
Definition sampleClients : list JsVal :=
  [JObj [("id", JNum (Fin 1)); ("name", JStr "Ada")];
   JObj [("Id", JNum (Fin 2)); ("Name", JStr "Bob")]].

Definition emptyClientsPage : ClientsView.Page :=
  {| ClientsView.clients := []; ClientsView.loading := true; ClientsView.error := None |}.

(** ** The application context *)

(** [ToNumber], as the subtraction in the draft's age test applies it.
    [stringToNumber] is the host's reading of a numeric string; an array or
    an object is first turned into a string. *)
Definition toNumber (stringToNumber : string -> JsNumber) (v : JsVal) : Outcome JsNumber :=
  match v with
  | JUndefined => Ok NaN
  | JNull => Ok (Fin 0)
  | JBool b => Ok (Fin (if b then 1 else 0))
  | JNum x => Ok x
  | JStr s => Ok (stringToNumber s)
  | JArr _ | JObj _ => s ← jsString v; Ok (stringToNumber s)
  end.

(** [target[key] = value] on a property table: an existing key keeps its
    place. *)
Fixpoint assign (key : string) (value : JsVal) (table : list (string * JsVal))
    : list (string * JsVal) :=
  match table with
  | [] => [(key, value)]
  | (k, v) :: rest =>
      if String.eqb k key then (key, value) :: rest else (k, v) :: assign key value rest
  end.

(** The own enumerable properties a spread copies: those of an object, the
    indexed elements of an array, the indexed characters of a string. *)
Definition ownEntries (source : JsVal) : list (string * JsVal) :=
  match source with
  | JObj props => props
  | JArr items => imap (fun i x => (pretty i, x)) items
  | JStr s => imap (fun i c => (pretty i, JStr (String c ""))) (String.list_ascii_of_string s)
  | _ => []
  end.

(** [{ ...target, ...source }]. *)
Definition spread (target : list (string * JsVal)) (source : JsVal) : list (string * JsVal) :=
  fold_left (fun table kv => assign (fst kv) (lookupProp (fst kv) (ownEntries source)) table)
    (ownEntries source) target.

Module AppContext.

Definition PREFERENCES_KEY : string := "b2b-portal-preferences".
Definition FORM_DRAFT_KEY : string := "b2b-portal-form-draft".

Definition DEFAULT_PREFERENCES : list (string * JsVal) :=
  [("itemsPerPage", JNum (Fin 10));
   ("defaultCustomerType", JStr "org");
   ("showWelcomeMessage", JBool true)].

(** What the browser supplies: [JSON.stringify], [JSON.parse], the reading
    of numeric strings, the storage quota and the clock. *)
Record Browser : Type := {
  stringify : JsVal -> string;
  parse : string -> Outcome JsVal;
  stringToNumber : string -> JsNumber;
  quota : gmap string string -> bool;
  clock : Z;
}.

(** The provider's state, with the storage it persists to. *)
Record App : Type := {
  preferences : list (string * JsVal);
  formDraft : option JsVal;
  searchQuery : string;
  filterType : string;
  storage : gmap string string;
}.

Definition initial (stored : gmap string string) : App :=
  {| preferences := DEFAULT_PREFERENCES;
     formDraft := None;
     searchQuery := "";
     filterType := "all";
     storage := stored |}.

Definition setPreferences (p : list (string * JsVal)) (app : App) : App :=
  {| preferences := p; formDraft := formDraft app; searchQuery := searchQuery app;
     filterType := filterType app; storage := storage app |}.

Definition setFormDraft (d : option JsVal) (app : App) : App :=
  {| preferences := preferences app; formDraft := d; searchQuery := searchQuery app;
     filterType := filterType app; storage := storage app |}.

Definition setStorage (s : gmap string string) (app : App) : App :=
  {| preferences := preferences app; formDraft := formDraft app;
     searchQuery := searchQuery app; filterType := filterType app; storage := s |}.

(** The effect that loads the preferences on mount. *)
Definition loadPreferences (b : Browser) (app : App) : App :=
  match getItem (storage app) PREFERENCES_KEY with
  | Some stored =>
      if present (Some stored)
      then match parse b stored with
           | Ok parsed => setPreferences (spread DEFAULT_PREFERENCES parsed) app
           | Throw _ => app
           end
      else app
  | None => app
  end.

(** [Date.now() - timestamp < 24 * 60 * 60 * 1000]. *)
Definition isRecent (now : Z) (timestamp : JsNumber) : bool :=
  match timestamp with
  | Fin t => (now - t <? 24 * 60 * 60 * 1000)%Z
  | NaN => false
  end.

(** The effect that loads the form draft on mount. *)
Definition loadFormDraft (b : Browser) (app : App) : App :=
  match getItem (storage app) FORM_DRAFT_KEY with
  | Some stored =>
      if present (Some stored)
      then
        let attempt : Outcome App :=
          parsed ← parse b stored;
          timestamp ← parsed@"timestamp";
          age ← toNumber (stringToNumber b) timestamp;
          if isRecent (clock b) age
          then Ok (setFormDraft (Some parsed) app)
          else Ok (setStorage (removeItem (storage app) FORM_DRAFT_KEY) app) in
        match attempt with
        | Ok app' => app'
        | Throw _ => app
        end
      else app
  | None => app
  end.

(** [updatePreferences(updates)]. *)
Definition updatePreferences (b : Browser) (updates : JsVal) (app : App) : App :=
  let updated := spread (preferences app) updates in
  let app := setPreferences updated app in
  match setItem (quota b) (storage app) PREFERENCES_KEY (stringify b (JObj updated)) with
  | Ok stored => setStorage stored app
  | Throw _ => app
  end.

(** [saveFormDraft(draft)], for a draft with its two declared fields. *)
Definition saveFormDraft (b : Browser) (name customer_type : string) (app : App) : App :=
  let draftWithTimestamp :=
    JObj [("name", JStr name); ("customer_type", JStr customer_type);
          ("timestamp", JNum (Fin (clock b)))] in
  let app := setFormDraft (Some draftWithTimestamp) app in
  match setItem (quota b) (storage app) FORM_DRAFT_KEY (stringify b draftWithTimestamp) with
  | Ok stored => setStorage stored app
  | Throw _ => app
  end.

(** [clearFormDraft()]. *)
Definition clearFormDraft (app : App) : App :=
  setStorage (removeItem (storage app) FORM_DRAFT_KEY) (setFormDraft None app).

(** A page load: a fresh provider over the same storage, after both mount
    effects. *)
Definition reload (b : Browser) (app : App) : App :=
  loadFormDraft b (loadPreferences b (initial (storage app))).

End AppContext.

(** A sample browser: a codec that only knows one text, every numeric
    string read as [NaN], no quota. *)
Definition sampleDraft (savedAt : Z) : JsVal :=
  JObj [("name", JStr "Acme"); ("customer_type", JStr "org"); ("timestamp", JNum (Fin savedAt))].

Definition sampleBrowser (savedAt now : Z) : AppContext.Browser :=
  {| AppContext.stringify := fun _ => "draft";
     AppContext.parse := fun _ => Ok (sampleDraft savedAt);
     AppContext.stringToNumber := fun _ => NaN;
     AppContext.quota := unlimited;
     AppContext.clock := now |}.

(** A browser whose codec maps every value to the text ["prefs"] and back
    to the given table. *)
Definition prefsBrowser (table : list (string * JsVal)) : AppContext.Browser :=
  {| AppContext.stringify := fun _ => "prefs";
     AppContext.parse := fun _ => Ok (JObj table);
     AppContext.stringToNumber := fun _ => NaN;
     AppContext.quota := unlimited;
     AppContext.clock := 1700000000000 |}.

(** The table holds every key of the default preferences. *)
Definition hasDefaultKeys (table : list (string * JsVal)) : Prop :=
  Forall (fun kv => hasOwn (fst kv) table = true) AppContext.DEFAULT_PREFERENCES.

(** The update [{ name: n }]. *)
Definition renameTo (n : string) : CustomerUpdates :=
  {| new_id := None; new_name := Some (JStr n); new_customer_type := None;
     new_created := None; new_client_count := None; new_suborgs := None;
     new_parent_org_name := None; new_email := None; new_metadata := None |}.

(** A list of two organisations, ["7"] and ["8"]. *)
Definition twoCustomers : State :=
  {| customers := [entity "7" "Seven" "org" []; entity "8" "Eight" "org" []];
     loading := false; error := None |}.

(** ** The customer creation page

    The state [handleSubmit] reads and writes.  The redirect it schedules
    two seconds after a success leaves the page and is not part of the
    state. *)

Module CustomerCreate.

Record FormData : Type := {
  name : string;
  customer_type : string;
}.

Record Page : Type := {
  formData : FormData;
  selectedParentOrg : option Customer;
  isSubmitting : bool;
  error : option string;
  success : bool;
}.

Definition setError (e : option string) (page : Page) : Page :=
  {| formData := formData page; selectedParentOrg := selectedParentOrg page;
     isSubmitting := isSubmitting page; error := e; success := success page |}.

Definition setIsSubmitting (b : bool) (page : Page) : Page :=
  {| formData := formData page; selectedParentOrg := selectedParentOrg page;
     isSubmitting := b; error := error page; success := success page |}.

Definition setSuccess (b : bool) (page : Page) : Page :=
  {| formData := formData page; selectedParentOrg := selectedParentOrg page;
     isSubmitting := isSubmitting page; error := error page; success := b |}.

(** The body of the request: [parent_org_id] is added for a sub-organisation
    with a selected parent. *)
Definition customerData (page : Page) : JsVal :=
  let base := [("name", JStr (name (formData page)));
               ("customer_type", JStr (customer_type (formData page)))] in
  match selectedParentOrg page with
  | Some org =>
      if String.eqb (customer_type (formData page)) "sub-org"
      then JObj (base ++ [("parent_org_id", JStr (id org))])
      else JObj base
  | None => JObj base
  end.

(** [handleSubmit(e)], over the page, the customer provider and the
    application provider. *)
Definition handleSubmit (rt : Runtime) (page : Page) (st : State) (app : AppContext.App)
    : Page * State * AppContext.App :=
  let page := setError None page in
  let missingParent :=
    String.eqb (customer_type (formData page)) "sub-org"
    && match selectedParentOrg page with Some _ => false | None => true end in
  if missingParent
  then (setError (Some "Please select a parent organization for sub-organizations") page,
        st, app)
  else
    let page := setIsSubmitting true page in
    match addCustomer rt (customerData page) st with
    | (Ok _, st') => (setSuccess true page, st', AppContext.clearFormDraft app)
    | (Throw err, st') =>
        (setIsSubmitting false (setError (Some (errorMessage rt err)) page), st', app)
    end.

End CustomerCreate.

(** A sub-organisation form with the parent ["7"] selected. *)
Definition subOrgForm : CustomerCreate.Page :=
  {| CustomerCreate.formData :=
       {| CustomerCreate.name := "Branch"; CustomerCreate.customer_type := "sub-org" |};
     CustomerCreate.selectedParentOrg := Some (entity "7" "Seven" "org" []);
     CustomerCreate.isSubmitting := false;
     CustomerCreate.error := None;
     CustomerCreate.success := false |}.

(** A customer whose name is the number 42, as the normalisation stores it
    for [{id:"9", name:42}]. *)
Definition numberNamed : Customer :=
  {| id := "9"; name := JNum (Fin 42); customer_type := JStr "org";
     created := JNum (Fin 1700000000); client_count := JNum (Fin 0);
     suborgs := Some []; parent_org_name := JUndefined;
     email := JUndefined; metadata := JObj [] |}.
(** * Properties *)

(** ** The recursion of [transformCustomerData] *)

Lemma depth_item (x : JsVal) (items : list JsVal) :
  x ∈ items -> depth x < depth (JArr items).
Proof.
  intros Hin. simpl. apply Nat.lt_succ_r.
  induction Hin as [y l | y z l _ IH]; simpl; lia.
Qed.

Lemma depth_lookupProp (key : string) (props : list (string * JsVal)) :
  depth (lookupProp key props) < depth (JObj props) \/ lookupProp key props = JUndefined.
Proof.
  induction props as [| [k v] rest IH]; [by right |].
  cbn [lookupProp]. destruct (String.eqb k key).
  - left. cbn. lia.
  - destruct IH as [IH | IH]; [left | by right].
    cbn in *. lia.
Qed.

Lemma depth_subRecords (data x : JsVal) :
  x ∈ subRecords data -> depth x < depth data.
Proof.
  unfold subRecords.
  destruct data; cbn [getProp orElse truthy]; try (intros H; by inversion H).
  assert (forall key, x ∈ match lookupProp key props with JArr items => items | _ => [] end ->
                      depth x < depth (JObj props)) as Hkey.
  { intros key. destruct (depth_lookupProp key props) as [Hlt | ->];
      [| intros H; by inversion H].
    destruct (lookupProp key props); try (intros H; by inversion H).
    intros Hin%depth_item. lia. }
  destruct (truthy (lookupProp "suborgs" props)) eqn:T1;
    cbn [orElse]; rewrite ?T1; cbn [orElse]; rewrite ?T1; [apply Hkey |].
  destruct (truthy (lookupProp "subOrgs" props)) eqn:T2;
    cbn [orElse]; rewrite ?T2; [apply Hkey |].
  destruct (truthy (lookupProp "SubOrgs" props)) eqn:T3; [apply Hkey |].
  intros H; by inversion H.
Qed.

Lemma filterM_subset {A : Type} (p : A -> Outcome bool) (l kept : list A) :
  filterM p l = Ok kept -> forall x, x ∈ kept -> x ∈ l.
Proof.
  revert kept. induction l as [| y l IH]; simpl; intros kept H x Hx.
  - injection H as <-. done.
  - destruct (p y) as [keep |]; simpl in H; [| done].
    destruct (filterM p l) as [kept' |]; simpl in H; [| done].
    injection H as <-. destruct keep.
    + apply elem_of_cons in Hx as [-> | Hx]; [left | right; eauto].
    + right; eauto.
Qed.

Lemma mapM_outcome_ext {A B : Type} (f g : A -> Outcome B) (l : list A) :
  (forall x, x ∈ l -> f x = g x) -> mapM f l = mapM g l.
Proof.
  induction l as [| y l IH]; simpl; intros H; [done |].
  rewrite (H y) by left. rewrite IH; [done |].
  intros x Hx. apply H. by right.
Qed.

(** The body only calls [self] on records of the nested collection. *)
Lemma transformBody_ext (f g : JsVal -> Outcome Customer) (rt : Runtime) (data : JsVal) :
  (forall x, x ∈ subRecords data -> f x = g x) ->
  transformBody f rt data = transformBody g rt data.
Proof.
  intros Hfg. unfold transformBody, subRecords in *.
  destruct (data@"id" ??? data@"Id" ??? data@"ID") as [rawId |]; simpl; [| done].
  destruct (jsString rawId) as [customerId |]; simpl; [| done].
  destruct (data@"suborgs" ||| data@"subOrgs" ||| data@"SubOrgs" ||| Ok (JArr []))
    as [[] |]; simpl; try done.
  destruct (filterM (keepSubOrg customerId) items) as [kept |] eqn:Hkept; simpl; [| done].
  rewrite (mapM_outcome_ext f g kept); [done |].
  intros x Hx. apply Hfg. eapply filterM_subset; eauto.
Qed.

Lemma transformFuel_enough (rt : Runtime) (fuel : nat) :
  forall data, depth data < fuel ->
    transformFuel fuel rt data = transformFuel (S (depth data)) rt data.
Proof.
  induction fuel as [fuel IH] using lt_wf_ind. intros data Hlt.
  destruct fuel as [| fuel]; [lia |].
  simpl. apply transformBody_ext. intros x Hx%depth_subRecords.
  assert (depth x < fuel) as Hfuel by lia.
  rewrite (IH fuel (Nat.lt_succ_diag_r fuel) x Hfuel).
  symmetry. apply IH; lia.
Qed.

(** [transformCustomerData] satisfies the recursive equation of the source:
    the call budget of the definition never runs out. *)
Lemma transformCustomerData_unfold (rt : Runtime) (data : JsVal) :
  transformCustomerData rt data = transformBody (transformCustomerData rt) rt data.
Proof.
  unfold transformCustomerData at 1. simpl.
  apply transformBody_ext. intros x Hx%depth_subRecords.
  by apply transformFuel_enough.
Qed.

(** A larger budget gives the same outcome. *)
Lemma transformFuel_stable (rt : Runtime) (fuel : nat) (data : JsVal) :
  depth data < fuel -> transformFuel fuel rt data = transformCustomerData rt data.
Proof. apply transformFuel_enough. Qed.

(** ** Alias resolution, field by field

    On a value that is neither [null] nor [undefined] no property read
    throws, and each alias chain of the source is a choice among values. *)

Lemma getProp_prop (data : JsVal) (key : string) :
  nullish data = false -> data@key = Ok (prop data key).
Proof. by destruct data. Qed.

Lemma getProp_nullish (data : JsVal) (key : string) :
  nullish data = true -> data@key = Throw (Engine TypeError).
Proof. by destruct data. Qed.

Lemma orElse_pure (a b : JsVal) : Ok a ||| Ok b = Ok (orVal a b).
Proof. unfold orElse, orVal. by destruct (truthy a). Qed.

Lemma coalesce_pure (a b : JsVal) : Ok a ??? Ok b = Ok (nullVal a b).
Proof. unfold coalesce, nullVal. by destruct (nullish a). Qed.

Lemma subRecords_nullish (data : JsVal) : nullish data = true -> subRecords data = [].
Proof. by destruct data. Qed.

Ltac pure_aliases H :=
  rewrite ?(getProp_prop _ _ H), ?orElse_pure, ?coalesce_pure.

Lemma keepSubOrg_eq (customerId : string) (suborg : JsVal) :
  nullish suborg = false ->
  keepSubOrg customerId suborg =
    (suborgId ← jsString (rawIdOf suborg);
     Ok (negb (String.eqb suborgId customerId) && strictEqStr (typeOf suborg) "sub-org")).
Proof. intros H. unfold keepSubOrg. by pure_aliases H. Qed.

Lemma keepSubOrg_nullish (customerId : string) (suborg : JsVal) :
  nullish suborg = true -> keepSubOrg customerId suborg = Throw (Engine TypeError).
Proof. by destruct suborg. Qed.

(** The normal form of a call on a value that is not nullish. *)
Lemma transformCustomerData_eq (rt : Runtime) (data : JsVal) :
  nullish data = false ->
  transformCustomerData rt data =
    (customerId ← jsString (rawIdOf data);
     kept ← filterM (keepSubOrg customerId) (subRecords data);
     transformedSubOrgs ← mapM (transformCustomerData rt) kept;
     created_ ← createdOf rt data;
     Ok {| id := customerId;
           name := nameOf data;
           customer_type := typeOf data;
           created := created_;
           client_count := clientCountOf data;
           suborgs := Some transformedSubOrgs;
           parent_org_name := parentOrgNameOf data;
           email := emailOf data;
           metadata := metadataOf data |}).
Proof.
  intros H. rewrite transformCustomerData_unfold.
  unfold transformBody, subRecords, createdOf. pure_aliases H.
  cbn [mbind outcome_bind]. fold (rawIdOf data).
  destruct (jsString (rawIdOf data)) as [customerId |]; cbn [mbind outcome_bind]; [| done].
  assert (forall (items : list JsVal) (k : list Customer -> Outcome Customer),
    ((kept ← filterM (keepSubOrg customerId) items; mapM (transformCustomerData rt) kept) ≫= k)
    = (kept ← filterM (keepSubOrg customerId) items;
       transformedSubOrgs ← mapM (transformCustomerData rt) kept; k transformedSubOrgs)) as Hassoc.
  { intros items k. destruct (filterM _ items); reflexivity. }
  destruct (orVal _ (JArr [])) as [| | | | | items |]; try rewrite Hassoc;
    cbn [mbind outcome_bind filterM mapM mret outcome_ret orElse];
    try (destruct (filterM _ items) as [kept |]; cbn [mbind outcome_bind]; [| done];
         destruct (mapM _ kept); cbn [mbind outcome_bind]; [| done]);
    (destruct (truthy (prop data "created")); [done |]);
    (destruct (truthy (prop data "CreatedAt")); [| done]);
    by destruct (dateSeconds rt _).
Qed.

Lemma transformCustomerData_nullish (rt : Runtime) (data : JsVal) :
  nullish data = true -> transformCustomerData rt data = Throw (Engine TypeError).
Proof. by destruct data. Qed.

(** ** What a successful call returns *)

Lemma filterM_Ok {A : Type} (p : A -> Outcome bool) (q : A -> bool) (l kept : list A) :
  (forall x b, p x = Ok b -> q x = b) ->
  filterM p l = Ok kept -> kept = List.filter q l.
Proof.
  intros Hpq. revert kept. induction l as [| y l IH]; simpl; intros kept H.
  - by injection H as <-.
  - destruct (p y) as [keep |] eqn:Hy; simpl in H; [| done].
    destruct (filterM p l) as [kept' |]; simpl in H; [| done].
    injection H as <-. rewrite (Hpq y keep Hy), (IH kept' eq_refl).
    by destruct keep.
Qed.

Lemma keepSubOrg_passes (parentId : string) (suborg : JsVal) (b : bool) :
  keepSubOrg parentId suborg = Ok b -> passesFilter parentId suborg = b.
Proof.
  destruct (nullish suborg) eqn:Hn.
  - by rewrite keepSubOrg_nullish.
  - rewrite keepSubOrg_eq by done. unfold passesFilter.
    destruct (jsString (rawIdOf suborg)); simpl; congruence.
Qed.

Lemma mapM_outcome_Forall2 {A B : Type} (f : A -> Outcome B) (l : list A) (k : list B) :
  mapM f l = Ok k <-> Forall2 (fun x y => f x = Ok y) l k.
Proof.
  revert k. induction l as [| x l IH]; intros k; simpl.
  - split; [intros [= <-]; constructor | by inversion 1].
  - split.
    + destruct (f x) as [y |] eqn:Hx; simpl; [| done].
      destruct (mapM f l) as [k' |] eqn:Hl; simpl; [| done].
      intros [= <-]. constructor; [done | by apply IH].
    + inversion 1 as [| ? y ? k' Hx Hl]; subst.
      rewrite Hx. simpl. apply IH in Hl. rewrite Hl. done.
Qed.

(** Inversion of a successful call. *)
Lemma transformCustomerData_Ok (rt : Runtime) (data : JsVal) (E : Customer) :
  transformCustomerData rt data = Ok E ->
  nullish data = false
  /\ jsString (rawIdOf data) = Ok (id E)
  /\ name E = nameOf data
  /\ customer_type E = typeOf data
  /\ createdOf rt data = Ok (created E)
  /\ client_count E = clientCountOf data
  /\ parent_org_name E = parentOrgNameOf data
  /\ email E = emailOf data
  /\ metadata E = metadataOf data
  /\ exists subs,
       suborgs E = Some subs
       /\ Forall2 (fun r c => transformCustomerData rt r = Ok c)
            (List.filter (passesFilter (id E)) (subRecords data)) subs.
Proof.
  intros H. destruct (nullish data) eqn:Hn.
  { by rewrite transformCustomerData_nullish in H. }
  rewrite transformCustomerData_eq in H by done.
  destruct (jsString (rawIdOf data)) as [customerId |]; simpl in H; [| done].
  destruct (filterM _ (subRecords data)) as [kept |] eqn:Hkept; simpl in H; [| done].
  destruct (mapM _ kept) as [subs |] eqn:Hsubs; simpl in H; [| done].
  destruct (createdOf rt data) as [created_ |]; simpl in H; [| done].
  injection H as <-. simpl. repeat (split; [done |]).
  exists subs. split; [done |].
  apply (filterM_Ok _ (passesFilter customerId)) in Hkept as <-;
    [| apply keepSubOrg_passes].
  by apply mapM_outcome_Forall2.
Qed.

Lemma elem_of_filter_passes (parentId : string) (r : JsVal) (l : list JsVal) :
  r ∈ List.filter (passesFilter parentId) l -> r ∈ l /\ passesFilter parentId r = true.
Proof.
  rewrite !list_elem_of_In. apply filter_In.
Qed.

Lemma suborgs_of_Ok (rt : Runtime) (data : JsVal) (E : Customer) :
  transformCustomerData rt data = Ok E ->
  exists subs,
    suborgs E = Some subs
    /\ Forall2 (fun r c => transformCustomerData rt r = Ok c)
         (List.filter (passesFilter (id E)) (subRecords data)) subs.
Proof.
  intros H. by apply transformCustomerData_Ok in H as (_ & _ & _ & _ & _ & _ & _ & _ & _ & H).
Qed.

(** A kept record normalises to a sub-organisation with another id. *)
Lemma kept_child (rt : Runtime) (parentId : string) (r : JsVal) (c : Customer) :
  passesFilter parentId r = true ->
  transformCustomerData rt r = Ok c ->
  customer_type c = JStr "sub-org" /\ id c <> parentId.
Proof.
  intros Hpass Hc. apply transformCustomerData_Ok in Hc as (_ & Hid & _ & Htype & _).
  unfold passesFilter in Hpass. rewrite Hid in Hpass.
  apply andb_true_iff in Hpass as [Hne Hsub]. split.
  - rewrite Htype. destruct (typeOf r); try discriminate.
    simpl in Hsub. apply String.eqb_eq in Hsub. by subst.
  - intros Heq. rewrite Heq, String.eqb_refl in Hne. discriminate.
Qed.

(** C4.  The children of a normalised entity are exactly the normalised raw
    entries that pass the filter (stringified id different from the
    parent's, resolved kind equal to [sub-org]), in their order; hence every
    child has [customer_type] [sub-org] and an id other than the parent's,
    and a raw entry violating either condition is not among them. *)
Theorem suborgs_are_filtered_children (rt : Runtime) (data : JsVal) (E : Customer) :
  transformCustomerData rt data = Ok E ->
  exists subs,
    suborgs E = Some subs
    /\ Forall (fun c => customer_type c = JStr "sub-org" /\ id c <> id E) subs
    /\ Forall2 (fun r c => transformCustomerData rt r = Ok c)
         (List.filter (passesFilter (id E)) (subRecords data)) subs.
Proof.
  intros H. apply transformCustomerData_Ok in H as (_ & _ & _ & _ & _ & _ & _ & _ & _ & subs & Hsubs & Hall).
  exists subs. repeat split; [done | | done].
  apply Forall_forall. intros c Hc.
  destruct (proj1 (list_elem_of_lookup subs c) Hc) as [i Hi].
  destruct (Forall2_lookup_r _ _ _ _ _ Hall Hi) as (r & Hr & Hrc).
  apply list_elem_of_lookup_2 in Hr. apply elem_of_filter_passes in Hr as [_ Hpass].
  eapply kept_child; eauto.
Qed.

(** An instance: of the [org] and the [sub-org] child of [mixedKindsPayload]
    only the second is a child of the entity. *)
Lemma suborgs_are_filtered_children_witness :
  transformCustomerData (sampleRuntime 1700000000000 offline) mixedKindsPayload
    = Ok mixedKindsEntity
  /\ exists subs,
       suborgs mixedKindsEntity = Some subs
       /\ Forall (fun c => customer_type c = JStr "sub-org" /\ id c <> id mixedKindsEntity) subs
       /\ Forall2 (fun r c => transformCustomerData (sampleRuntime 1700000000000 offline) r = Ok c)
            (List.filter (passesFilter (id mixedKindsEntity)) (subRecords mixedKindsPayload)) subs.
Proof.
  split; [vm_compute; reflexivity |].
  apply (suborgs_are_filtered_children (sampleRuntime 1700000000000 offline) mixedKindsPayload).
  vm_compute; reflexivity.
Defined.

(** The self-reference case of the specification: the child that repeats
    the parent's id is dropped. *)
Example self_reference_dropped (clock : Z) :
  suborgs <$> transformCustomerData (sampleRuntime clock offline) selfReferencePayload
    = Ok (Some []).
Proof. reflexivity. Qed.

(** Kind filtering of the specification: of an [org] and a [sub-org] raw
    child only the latter survives. *)
Example kind_filtering (clock : Z) :
  (fun E => map id <$> suborgs E)
    <$> transformCustomerData (sampleRuntime clock offline) mixedKindsPayload
    = Ok (Some ["3"]).
Proof. reflexivity. Qed.

(** Alias precedence of the specification: with both [id] and [Id] present
    the lower-case key wins. *)
Example alias_precedence (clock : Z) :
  id <$> transformCustomerData (sampleRuntime clock offline)
           (JObj [("id", JStr "5"); ("Id", JStr "9"); ("name", JStr "X")])
    = Ok "5".
Proof. reflexivity. Qed.

(** ** One level or many *)

(** On [nestedPayload] the child ["2"] comes back with its own child ["3"]:
    the nested collection of a child is normalised too. *)
Lemma grandchild_is_kept :
  (fun E => map (fun c => map id <$> suborgs c) <$> suborgs E)
    <$> transformCustomerData (sampleRuntime 1700000000000 offline) nestedPayload
    = Ok (Some [Some ["3"]]).
Proof. vm_compute. reflexivity. Qed.

(** C9, amended.  Every child of a normalised entity is the normalisation
    of a raw entry of the parent's nested collection, and its own child list
    holds the normalised entries of that raw entry's nested collection that
    pass the filter against the child's id: the hierarchy is normalised at
    every depth, and a child's list is empty exactly when no raw grandchild
    passes. *)
Theorem children_are_normalised_recursively
    (rt : Runtime) (data : JsVal) (E : Customer) (subs : list Customer) :
  transformCustomerData rt data = Ok E ->
  suborgs E = Some subs ->
  Forall (fun c =>
            exists r grand,
              r ∈ subRecords data
              /\ transformCustomerData rt r = Ok c
              /\ suborgs c = Some grand
              /\ Forall2 (fun g gc => transformCustomerData rt g = Ok gc)
                   (List.filter (passesFilter (id c)) (subRecords r)) grand) subs.
Proof.
  intros H Hsubs.
  apply transformCustomerData_Ok in H as (_ & _ & _ & _ & _ & _ & _ & _ & _ & subs' & Hsubs' & Hall).
  assert (subs' = subs) as -> by congruence.
  apply Forall_forall. intros c Hc.
  destruct (proj1 (list_elem_of_lookup subs c) Hc) as [i Hi].
  destruct (Forall2_lookup_r _ _ _ _ _ Hall Hi) as (r & Hr & Hrc).
  apply list_elem_of_lookup_2 in Hr. apply elem_of_filter_passes in Hr as [Hr _].
  destruct (suborgs_of_Ok rt r c Hrc) as (grand & Hgrand & Hall').
  by exists r, grand.
Qed.

(** An instance, on [mixedKindsPayload]. *)
Lemma children_are_normalised_recursively_witness :
  transformCustomerData (sampleRuntime 1700000000000 offline) mixedKindsPayload
    = Ok mixedKindsEntity
  /\ suborgs mixedKindsEntity = Some (default [] (suborgs mixedKindsEntity))
  /\ Forall (fun c =>
            exists r grand,
              r ∈ subRecords mixedKindsPayload
              /\ transformCustomerData (sampleRuntime 1700000000000 offline) r = Ok c
              /\ suborgs c = Some grand
              /\ Forall2 (fun g gc =>
                            transformCustomerData (sampleRuntime 1700000000000 offline) g = Ok gc)
                   (List.filter (passesFilter (id c)) (subRecords r)) grand)
       (default [] (suborgs mixedKindsEntity)).
Proof.
  split; [vm_compute; reflexivity |]. split; [reflexivity |].
  apply (children_are_normalised_recursively
           (sampleRuntime 1700000000000 offline) mixedKindsPayload mixedKindsEntity);
    [vm_compute; reflexivity | reflexivity].
Defined.

(** ** The kind of a normalised entity *)

(** On [unknownKindPayload] the kind comes back as ["enterprise"]: a truthy
    alias value is kept whatever it is. *)
Lemma unknown_kind_is_kept :
  customer_type <$> transformCustomerData (sampleRuntime 1700000000000 offline) unknownKindPayload
    = Ok (JStr "enterprise")
  /\ JStr "enterprise" <> JStr "org" /\ JStr "enterprise" <> JStr "sub-org".
Proof. split; [vm_compute; reflexivity |]. split; discriminate. Qed.

(** C6, amended.  The kind of a normalised entity is the value of
    [customer_type] when that is truthy, else the value of [customerType]
    when that is truthy, else ["org"]: an absent or falsy kind defaults to
    ["org"], and a truthy value is kept as it is, recognised or not. *)
Theorem customer_type_resolution (rt : Runtime) (data : JsVal) (E : Customer) :
  transformCustomerData rt data = Ok E ->
  customer_type E =
    if truthy (prop data "customer_type") then prop data "customer_type"
    else if truthy (prop data "customerType") then prop data "customerType"
    else JStr "org".
Proof.
  intros H. apply transformCustomerData_Ok in H as (_ & _ & _ & -> & _).
  unfold typeOf, orVal.
  destruct (truthy (prop data "customer_type")) eqn:T1; rewrite ?T1; [done |].
  by destruct (truthy (prop data "customerType")) eqn:T2; rewrite ?T2.
Qed.

(** An instance: [mixedKindsPayload] names no kind and comes back as ["org"]. *)
Lemma customer_type_resolution_witness :
  transformCustomerData (sampleRuntime 1700000000000 offline) mixedKindsPayload
    = Ok mixedKindsEntity
  /\ customer_type mixedKindsEntity =
       if truthy (prop mixedKindsPayload "customer_type")
       then prop mixedKindsPayload "customer_type"
       else if truthy (prop mixedKindsPayload "customerType")
            then prop mixedKindsPayload "customerType"
            else JStr "org".
Proof.
  split; [vm_compute; reflexivity |].
  apply (customer_type_resolution (sampleRuntime 1700000000000 offline)).
  vm_compute; reflexivity.
Defined.

(** ** [refreshCustomers] *)

(** One turn of the loop appends the accepted customer, if any; the
    decision does not look at the log. *)
Lemma validateCustomer_accepted (rt : Runtime) (x : JsVal) (index : nat)
    (valid : list Customer) (invalid : list InvalidCustomer) :
  fst (validateCustomer rt (valid, invalid) x index)
  = valid ++ option_list (accepted rt x).
Proof.
  unfold validateCustomer, accepted.
  destruct (negb (truthy x)); simpl; [by rewrite app_nil_r |].
  destruct (transformCustomerData rt x) as [c |]; simpl; [| by rewrite app_nil_r].
  destruct (missingId c); simpl; [by rewrite app_nil_r |].
  destruct (missingName c); simpl; [by rewrite app_nil_r | done].
Qed.

Lemma forEach_validate (rt : Runtime) (items : list JsVal) :
  forall (index : nat) (valid : list Customer) (invalid : list InvalidCustomer),
    fst (forEachFrom (validateCustomer rt) index items (valid, invalid))
    = valid ++ omap (accepted rt) items.
Proof.
  induction items as [| x items IH]; intros index valid invalid.
  - simpl. by rewrite app_nil_r.
  - cbn [forEachFrom omap list_omap].
    pose proof (validateCustomer_accepted rt x index valid invalid) as Hx.
    destruct (validateCustomer rt (valid, invalid) x index) as [valid' invalid'].
    simpl in Hx. subst valid'. rewrite IH, <- app_assoc.
    by destruct (accepted rt x).
Qed.

(** The steps of a refresh that reaches the parsed body. *)
Lemma refreshCustomers_body (rt : Runtime) (st : State)
    (webhookUrl statusText : string) (data : JsVal) :
  configured (NEXT_PUBLIC_WEBHOOK_GET_CUSTOMERS rt) = Some webhookUrl ->
  fetch rt webhookUrl None = Response true statusText (Ok data) ->
  refreshCustomers rt st =
    match data with
    | JArr items =>
        let '(validatedCustomers, invalidCustomers) :=
          forEachFrom (validateCustomer rt) 0 items ([], []) in
        ({| customers := validatedCustomers; loading := false; error := None |},
         invalidCustomers)
    | _ => ({| customers := []; loading := false; error := None |}, [])
    end.
Proof.
  intros Hurl Hfetch. unfold refreshCustomers. rewrite Hurl, Hfetch. simpl.
  destruct data; try reflexivity.
  by destruct (forEachFrom _ _ _ _).
Qed.

(** C1, at the failing input.  A batch holding the single record
    [{name: "Acme"}], which has no id under any alias, is accepted whole:
    the record enters the customer list with the id ["undefined"], the
    string that [String(undefined)] yields, and no diagnostic is recorded. *)
Theorem record_without_id_is_accepted (rt : Runtime) (st : State)
    (webhookUrl statusText : string) :
  configured (NEXT_PUBLIC_WEBHOOK_GET_CUSTOMERS rt) = Some webhookUrl ->
  fetch rt webhookUrl None = Response true statusText (Ok (JArr [noIdPayload])) ->
  refreshCustomers rt st
    = ({| customers := [noIdEntity rt]; loading := false; error := None |}, []).
Proof.
  intros Hurl Hfetch. by rewrite (refreshCustomers_body _ _ _ _ _ Hurl Hfetch).
Qed.

(** An instance, with the clock at 1700000000000 ms. *)
Lemma record_without_id_is_accepted_witness :
  refreshCustomers noIdBatchRuntime emptyState
    = ({| customers := [noIdEntity noIdBatchRuntime]; loading := false; error := None |}, []).
Proof.
  apply (record_without_id_is_accepted noIdBatchRuntime emptyState
           "https://example.test/customers" "OK"); reflexivity.
Defined.

(** Why the check misses: an id that no alias resolves is [undefined] or
    [null], and [String] turns either into a non-empty word. *)
Lemma unresolved_id_is_not_missing (rt : Runtime) (data : JsVal) (E : Customer) :
  transformCustomerData rt data = Ok E ->
  nullish (rawIdOf data) = true ->
  (id E = "undefined" \/ id E = "null") /\ missingId E = false.
Proof.
  intros H Hnull. apply transformCustomerData_Ok in H as (_ & Hid & _).
  unfold missingId. destruct (rawIdOf data); try discriminate;
    injection Hid as <-; auto.
Qed.

(** The half of C1 that the code keeps: a record whose [name] and [Name]
    are both falsy is rejected with the reason ["missing name"], provided
    its id did not resolve to the empty string. *)
Lemma missing_name_is_rejected (rt : Runtime) (rawCustomer : JsVal) (customer : Customer)
    (valid : list Customer) (invalid : list InvalidCustomer) (index : nat) :
  truthy rawCustomer = true ->
  transformCustomerData rt rawCustomer = Ok customer ->
  id customer <> "" ->
  truthy (prop rawCustomer "name") = false ->
  truthy (prop rawCustomer "Name") = false ->
  validateCustomer rt (valid, invalid) rawCustomer index
    = (valid, invalid ++ [ {| index := index; reason := "missing name"; raw := rawCustomer;
                             transformed := Some customer; caught := None |} ]).
Proof.
  intros Ht Hc Hid Hn1 Hn2. unfold validateCustomer. rewrite Ht, Hc. simpl.
  apply transformCustomerData_Ok in Hc as (_ & _ & Hname & _).
  unfold missingId, missingName. rewrite Hname. unfold nameOf, orVal.
  rewrite Hn1, Hn2. simpl.
  destruct (String.eqb_spec (id customer) ""); [done | reflexivity].
Qed.

(** The rejection test of the specification: [{id:"1", customer_type:"org"}]
    is rejected with the reason ["missing name"]. *)
Example missing_name_rejection (clock : Z) :
  (fun out => (customers (fst out), map reason (snd out)))
    (refreshCustomers
       (sampleRuntime clock
          (Response true "OK"
             (Ok (JArr [JObj [("id", JStr "1"); ("customer_type", JStr "org")]]))))
       emptyState)
  = ([], ["missing name"]).
Proof. reflexivity. Qed.

(** One malformed element does not stop the loop: of
    [[{id:"1",name:"A"}, null, {id:"",name:"x"}, {id:"4"},
      {id:"5",name:"E",suborgs:[null]}, {id:"6",name:"F"}]]
    the first and the last are accepted and the others are logged, each with
    its index and reason. *)
Example partial_batch (clock : Z) :
  (fun out => (map id (customers (fst out)),
               map (fun entry => (index entry, reason entry)) (snd out)))
    (refreshCustomers
       (sampleRuntime clock
          (Response true "OK"
             (Ok (JArr [JObj [("id", JStr "1"); ("name", JStr "A")];
                        JNull;
                        JObj [("id", JStr ""); ("name", JStr "x")];
                        JObj [("id", JStr "4")];
                        JObj [("id", JStr "5"); ("name", JStr "E"); ("suborgs", JArr [JNull])];
                        JObj [("id", JStr "6"); ("name", JStr "F")]]))))
       emptyState)
  = (["1"; "6"],
     [(1, "null or undefined"); (2, "missing id"); (3, "missing name"); (4, "transform error")]).
Proof. reflexivity. Qed.

(** The only id the check rejects is the empty string. *)
Lemma missing_id_iff (rt : Runtime) (data : JsVal) (E : Customer) :
  transformCustomerData rt data = Ok E ->
  missingId E = true <-> jsString (rawIdOf data) = Ok "".
Proof.
  intros H. apply transformCustomerData_Ok in H as (_ & Hid & _). rewrite Hid.
  unfold missingId. simpl. destruct (String.eqb_spec (id E) "") as [-> | Hne]; simpl.
  - done.
  - split; [done | intros [= ?]; done].
Qed.

(** C7.  When the parsed body of the response is not an array, the refresh
    completes normally: the customer list is set to empty, no error is
    stored, loading ends, and no record is examined (the log of rejected
    records is empty). *)
Theorem non_list_response_gives_empty_batch (rt : Runtime) (st : State)
    (webhookUrl statusText : string) (data : JsVal) :
  configured (NEXT_PUBLIC_WEBHOOK_GET_CUSTOMERS rt) = Some webhookUrl ->
  fetch rt webhookUrl None = Response true statusText (Ok data) ->
  isArray data = false ->
  refreshCustomers rt st = ({| customers := []; loading := false; error := None |}, []).
Proof.
  intros Hurl Hfetch Harr. rewrite (refreshCustomers_body _ _ _ _ _ Hurl Hfetch).
  by destruct data.
Qed.

(** An instance: a body that wraps the list in an object empties the state. *)
Lemma non_list_response_gives_empty_batch_witness :
  isArray wrappedBody = false
  /\ refreshCustomers wrappedBodyRuntime
       {| customers := [mixedKindsEntity]; loading := false; error := Some "stale" |}
     = ({| customers := []; loading := false; error := None |}, []).
Proof.
  split; [reflexivity |].
  apply (non_list_response_gives_empty_batch wrappedBodyRuntime _
           "https://example.test/customers" "OK" wrappedBody); reflexivity.
Defined.

(** ** The list operations of the provider *)

Lemma filter_sublist {A : Type} (p : A -> bool) (l : list A) :
  List.filter p l `sublist_of` l.
Proof.
  induction l as [| x l IH]; simpl; [constructor |].
  destruct (p x); by constructor.
Qed.

(** C10.  [deleteCustomer] keeps exactly the customers whose id differs from
    the given one, unchanged and in their order; a successful [addCustomer]
    appends the new customer at the end and a failed one leaves the list
    alone; [updateCustomer] keeps the length and every position, replacing
    only the fields an update lists and only in the customers whose id
    matches. *)
Theorem list_operations_frame (rt : Runtime) (target : string)
    (updates : CustomerUpdates) (customerData : JsVal) (st : State) :
  customers (deleteCustomer target st)
    = List.filter (fun c => negb (String.eqb (id c) target)) (customers st)
  /\ (forall c, c ∈ customers (deleteCustomer target st)
                <-> c ∈ customers st /\ id c <> target)
  /\ customers (deleteCustomer target st) `sublist_of` customers st
  /\ match addCustomer rt customerData st with
     | (Ok newCustomer, st') => customers st' = customers st ++ [newCustomer]
     | (Throw _, st') => customers st' = customers st
     end
  /\ length (customers (updateCustomer target updates st)) = length (customers st)
  /\ (forall i c, customers st !! i = Some c ->
        customers (updateCustomer target updates st) !! i
        = Some (if String.eqb (id c) target then spreadUpdates c updates else c)).
Proof.
  split; [reflexivity |]. split; [| split; [| split; [| split]]].
  - intros c. simpl. rewrite !list_elem_of_In, filter_In.
    destruct (String.eqb_spec (id c) target); simpl; intuition congruence.
  - apply filter_sublist.
  - unfold addCustomer. by destruct (match configured _ with Some _ => _ | None => _ end).
  - simpl. apply length_map.
  - intros i c Hi. simpl. rewrite list_lookup_fmap, Hi. reflexivity.
Qed.

(** ** The flattened list *)

Lemma rowsOf_cases (subRows : Customer -> list Customer -> list FlatRow)
    (acc : list FlatRow) (customer : Customer) :
  subRows customer [] = [] ->
  match suborgs customer with
  | Some ((_ :: _) as subs) => (acc ++ [orgRow customer]) ++ subRows customer subs
  | _ => acc ++ [orgRow customer]
  end = acc ++ rowsOf subRows customer.
Proof.
  intros Hnil. unfold rowsOf, children.
  destruct (suborgs customer) as [[| s subs] |]; simpl; rewrite ?Hnil;
    [done | | done].
  symmetry. apply (app_assoc acc [orgRow customer]).
Qed.

Lemma HomePage_fold (customers : list Customer) :
  forall acc,
    fold_left
      (fun acc customer =>
         let acc := acc ++ [orgRow customer] in
         match suborgs customer with
         | Some ((_ :: _) as subs) => acc ++ HomePage.subOrgsWithParent customer subs
         | _ => acc
         end) customers acc
    = acc ++ flattenedSpec HomePage.subOrgsWithParent customers.
Proof.
  induction customers as [| c rest IH]; intros acc; simpl.
  - by rewrite app_nil_r.
  - rewrite IH, (rowsOf_cases HomePage.subOrgsWithParent) by done.
    by rewrite <- app_assoc.
Qed.

Lemma ClientCreate_fold (customers : list Customer) :
  forall acc,
    fold_left
      (fun acc customer =>
         let acc := acc ++ [orgRow customer] in
         match suborgs customer with
         | Some ((_ :: _) as subs) => acc ++ ClientCreate.subOrgsWithParent customer subs
         | _ => acc
         end) customers acc
    = acc ++ flattenedSpec ClientCreate.subOrgsWithParent customers.
Proof.
  induction customers as [| c rest IH]; intros acc; simpl.
  - by rewrite app_nil_r.
  - rewrite IH, (rowsOf_cases ClientCreate.subOrgsWithParent) by done.
    by rewrite <- app_assoc.
Qed.

Lemma HomePage_flattened (customers : list Customer) :
  HomePage.allCustomersFlattened customers
  = flattenedSpec HomePage.subOrgsWithParent customers.
Proof. apply (HomePage_fold customers []). Qed.

Lemma ClientCreate_flattened (customers : list Customer) :
  ClientCreate.allCustomersFlattened customers
  = flattenedSpec ClientCreate.subOrgsWithParent customers.
Proof. apply (ClientCreate_fold customers []). Qed.

Lemma map_row_imap (mk : nat -> Customer -> FlatRow) (f : Customer -> Customer)
    (subs : list Customer) :
  (forall i c, row (mk i c) = f c) -> map row (imap mk subs) = map f subs.
Proof.
  revert mk. induction subs as [| s subs IH]; intros mk Hmk; simpl; [done |].
  rewrite Hmk. f_equal. apply IH. intros i c. apply Hmk.
Qed.

Lemma map_row_flattenedSpec (subRows : Customer -> list Customer -> list FlatRow)
    (customers : list Customer) :
  (forall E subs, map row (subRows E subs) = map (fun c => withParentName c (name E)) subs) ->
  map row (flattenedSpec subRows customers) = flat_map wrappedEntities customers.
Proof.
  intros Hsub. unfold flattenedSpec. induction customers as [| c rest IH]; simpl; [done |].
  rewrite map_app, IH. f_equal. by rewrite Hsub.
Qed.

(** C2.  On both pages the flattened list is, for the top-level entities in
    their order, the entity's row followed by one row per stored child in
    stored order.  The rows wrap exactly the entities [E1, E1.children...,
    E2, E2.children...], each position once, so an entity without children
    contributes its single row. *)
Theorem flattened_order (customers : list Customer) :
  HomePage.allCustomersFlattened customers
    = flattenedSpec HomePage.subOrgsWithParent customers
  /\ ClientCreate.allCustomersFlattened customers
    = flattenedSpec ClientCreate.subOrgsWithParent customers
  /\ map row (HomePage.allCustomersFlattened customers) = flat_map wrappedEntities customers
  /\ map row (ClientCreate.allCustomersFlattened customers) = flat_map wrappedEntities customers
  /\ (forall E, children E = [] ->
        HomePage.allCustomersFlattened [E] = [orgRow E]
        /\ ClientCreate.allCustomersFlattened [E] = [orgRow E]).
Proof.
  split; [apply HomePage_flattened |]. split; [apply ClientCreate_flattened |].
  split; [| split].
  - rewrite HomePage_flattened. apply map_row_flattenedSpec.
    intros E subs. by apply map_row_imap.
  - rewrite ClientCreate_flattened. apply map_row_flattenedSpec.
    intros E subs. by apply map_row_imap.
  - intros E HE. rewrite HomePage_flattened, ClientCreate_flattened.
    unfold flattenedSpec, rowsOf. simpl. rewrite HE. done.
Qed.

(** The ordering test of the specification: [[A(children=[A1,A2]), B]]
    flattens to [[A, A1, A2, B]]. *)
Example flattened_order_example :
  map (fun r => id (row r))
    (HomePage.allCustomersFlattened
       [entity "A" "A" "org" [entity "A1" "A1" "sub-org" []; entity "A2" "A2" "sub-org" []];
        entity "B" "B" "org" []])
  = ["A"; "A1"; "A2"; "B"].
Proof. reflexivity. Qed.

(** ** Keys of the flattened list *)

(** A batch that repeats the id ["1"] is accepted whole, and both rows get
    the key ["org-1"]. *)
Lemma repeated_id_repeats_key :
  keysOf (HomePage.allCustomersFlattened
            (customers (fst (refreshCustomers repeatedIdRuntime emptyState))))
    = ["org-1"; "org-1"]
  /\ ~ NoDup ["org-1"; "org-1"].
Proof.
  split; [vm_compute; reflexivity |].
  intros H. apply NoDup_cons in H as [H _]. apply H. left.
Qed.

(** Two children of one parent, the first with id ["1"] and the second
    with an empty id at index 1, share the key ["suborg-P-1"]: the index
    that stands in for an empty id can be another child's id. *)
Example index_fallback_collides :
  keysOf (HomePage.allCustomersFlattened
            [entity "P" "P" "org" [entity "1" "a" "sub-org" []; entity "" "b" "sub-org" []]])
  = ["org-P"; "suborg-P-1"; "suborg-P-1"].
Proof. vm_compute. reflexivity. Qed.

(** A hyphen in a parent id makes the key ambiguous. *)
Example hyphen_in_parent_id_collides :
  keysOf (HomePage.allCustomersFlattened
            [entity "a" "A" "org" [entity "b-c" "x" "sub-org" []];
             entity "a-b" "B" "org" [entity "c" "y" "sub-org" []]])
  = ["org-a"; "suborg-a-b-c"; "org-a-b"; "suborg-a-b-c"].
Proof. vm_compute. reflexivity. Qed.

Lemma app_empty (s : string) : "" +:+ s = s.
Proof. reflexivity. Qed.

Lemma app_String (c : ascii) (s t : string) : String c s +:+ t = String c (s +:+ t).
Proof. reflexivity. Qed.

Ltac push_app H := repeat (rewrite app_String in H || rewrite app_empty in H).

Lemma dash_split (a b x y : string) :
  dashFree a = true -> dashFree b = true ->
  a +:+ "-" +:+ x = b +:+ "-" +:+ y -> a = b /\ x = y.
Proof.
  revert b. induction a as [| c a IH]; intros [| d b] Ha Hb Heq; push_app Heq.
  - by injection Heq as ->.
  - injection Heq as Hd _. subst d. cbn in Hb. discriminate Hb.
  - injection Heq as Hc _. subst c. cbn in Ha. discriminate Ha.
  - injection Heq as Hc Heq. subst d. cbn [dashFree] in Ha, Hb.
    apply andb_true_iff in Ha as [_ Ha]. apply andb_true_iff in Hb as [_ Hb].
    destruct (IH b Ha Hb Heq) as [-> ->]. done.
Qed.

Lemma idOrIndex_id (c : Customer) (index : nat) : id c <> "" -> idOrIndex c index = id c.
Proof. unfold idOrIndex. intros H. by destruct (String.eqb_spec (id c) ""). Qed.

(** With non-empty child ids the index never enters a key. *)
Lemma keys_imap (mk : nat -> Customer -> FlatRow) (E : Customer) (subs : list Customer) :
  (forall i c, uniqueKey (mk i c) = subOrgKey E c i) ->
  Forall (fun c => id c <> "") subs ->
  keysOf (imap mk subs) = map (fun s => "suborg-" +:+ id E +:+ "-" +:+ s) (map id subs).
Proof.
  intros Hmk Hne.
  assert (forall i c, id c <> "" ->
            uniqueKey (mk i c) = "suborg-" +:+ id E +:+ "-" +:+ id c) as Hkey.
  { intros i c Hc. rewrite Hmk. unfold subOrgKey. by rewrite idOrIndex_id. }
  clear Hmk. revert mk Hkey.
  induction Hne as [| c subs Hc _ IH]; intros mk Hkey; [done |].
  cbn [imap keysOf map]. rewrite Hkey by done. f_equal.
  apply (IH (mk ∘ S)). intros i c'. apply Hkey.
Qed.

Section Keys.

Variable subRows : Customer -> list Customer -> list FlatRow.
Hypothesis subRows_keys : forall E subs,
  Forall (fun c => id c <> "") subs ->
  keysOf (subRows E subs) = map (fun s => "suborg-" +:+ id E +:+ "-" +:+ s) (map id subs).

Lemma key_shape (E : Customer) (k : string) :
  wellKeyed E -> k ∈ keysOf (rowsOf subRows E) ->
  k = "org-" +:+ id E \/ exists s, k = "suborg-" +:+ id E +:+ "-" +:+ s.
Proof.
  intros (_ & _ & Hne) Hk. unfold rowsOf, keysOf in Hk. cbn [map] in Hk.
  apply elem_of_cons in Hk as [-> | Hk]; [by left | right].
  fold (keysOf (subRows E (children E))) in Hk. rewrite subRows_keys in Hk by done.
  apply list_elem_of_fmap in Hk as (s & -> & _). by exists s.
Qed.

Lemma keys_of_one (E : Customer) : wellKeyed E -> NoDup (keysOf (rowsOf subRows E)).
Proof.
  intros (Hdash & Hdup & Hne). unfold rowsOf, keysOf. cbn [map].
  fold (keysOf (subRows E (children E))). rewrite subRows_keys by done.
  apply NoDup_cons. split.
  - intros (s & Heq & _)%list_elem_of_fmap. push_app Heq. discriminate Heq.
  - assert (Inj (=) (=) (fun s : string => "suborg-" +:+ id E +:+ "-" +:+ s)) as Hinj.
    { intros s1 s2 Heq. by do 3 apply String.app_inj in Heq. }
    by apply (NoDup_fmap_2 _).
Qed.

Lemma keys_apart (E E' : Customer) (k : string) :
  wellKeyed E -> wellKeyed E' -> id E <> id E' ->
  k ∈ keysOf (rowsOf subRows E) -> k ∈ keysOf (rowsOf subRows E') -> False.
Proof.
  intros HE HE' Hne Hk Hk'.
  destruct (key_shape E k HE Hk) as [-> | [s ->]];
    destruct (key_shape E' _ HE' Hk') as [Heq | [s' Heq]].
  - apply String.app_inj in Heq. done.
  - push_app Heq. discriminate Heq.
  - push_app Heq. discriminate Heq.
  - apply String.app_inj in Heq.
    destruct HE as (Hd & _), HE' as (Hd' & _).
    by destruct (dash_split _ _ _ _ Hd Hd' Heq).
Qed.

Lemma keys_distinct (customers : list Customer) :
  NoDup (map id customers) ->
  Forall wellKeyed customers ->
  NoDup (keysOf (flattenedSpec subRows customers)).
Proof.
  unfold flattenedSpec, keysOf.
  induction customers as [| E rest IH]; intros Hids Hwell; cbn [flat_map map].
  { constructor. }
  apply NoDup_cons in Hids as [HE Hids]. apply Forall_cons in Hwell as [HwE Hwell].
  rewrite map_app. apply NoDup_app. split; [by apply keys_of_one |].
  split; [| by apply IH].
  intros k Hk (r & -> & Hr)%list_elem_of_fmap.
  apply list_elem_of_In, in_flat_map in Hr as (E' & HE' & Hr).
  apply list_elem_of_In in HE', Hr.
  apply (keys_apart E E' (uniqueKey r)); [done | | | done |].
  - by eapply Forall_forall in Hwell.
  - intros Heq. apply HE. rewrite Heq. by apply list_elem_of_fmap_2.
  - by apply list_elem_of_fmap_2.
Qed.

End Keys.

(** C3, amended.  When the top-level ids are pairwise distinct and free of
    hyphens, and the children of each top-level entity have pairwise
    distinct, non-empty ids, the keys of the flattened list are pairwise
    distinct, on both pages. *)
Theorem keys_pairwise_distinct (customers : list Customer) :
  NoDup (map id customers) ->
  Forall wellKeyed customers ->
  NoDup (keysOf (HomePage.allCustomersFlattened customers))
  /\ NoDup (keysOf (ClientCreate.allCustomersFlattened customers)).
Proof.
  intros Hids Hwell. rewrite HomePage_flattened, ClientCreate_flattened.
  split; apply keys_distinct; try done; intros E subs Hne; by apply keys_imap.
Qed.

(** An instance, on the list of the ordering test. *)
Lemma keys_pairwise_distinct_witness :
  NoDup (map id sampleCustomers)
  /\ Forall wellKeyed sampleCustomers
  /\ NoDup (keysOf (HomePage.allCustomersFlattened sampleCustomers))
  /\ NoDup (keysOf (ClientCreate.allCustomersFlattened sampleCustomers)).
Proof.
  assert (NoDup (map id sampleCustomers)) as Hids.
  { apply (bool_decide_unpack _). vm_compute. exact I. }
  assert (Forall wellKeyed sampleCustomers) as Hwell.
  { repeat constructor; try discriminate; apply (bool_decide_unpack _); vm_compute; exact I. }
  split; [exact Hids |]. split; [exact Hwell |].
  apply (keys_pairwise_distinct sampleCustomers Hids Hwell).
Defined.

(** ** Normalising twice *)

(** Normalising [blankEmailPayload] keeps the empty string under [email];
    normalising the result again turns it into [undefined]. *)
Lemma blank_email_drifts :
  transformCustomerData (sampleRuntime 1700000000000 offline) blankEmailPayload
    = Ok blankEmailEntity
  /\ email <$> transformCustomerData (sampleRuntime 1700000000000 offline) (toJs blankEmailEntity)
     = Ok JUndefined
  /\ transformCustomerData (sampleRuntime 1700000000000 offline) (toJs blankEmailEntity)
     <> Ok blankEmailEntity.
Proof.
  split; [vm_compute; reflexivity |]. split; [vm_compute; reflexivity |].
  vm_compute. discriminate.
Qed.

(** A timestamp that converts to an invalid date is stored as [NaN]; a
    second normalisation replaces it by the clock reading. *)
Example invalid_date_drifts :
  created <$> transformCustomerData (sampleRuntime 1700000000000 offline)
                (JObj [("id", JStr "1"); ("name", JStr "A"); ("CreatedAt", JStr "soon")])
    = Ok (JNum NaN)
  /\ created <$> transformCustomerData (sampleRuntime 1800000000000 offline)
       (toJs {| id := "1"; name := JStr "A"; customer_type := JStr "org";
                created := JNum NaN; client_count := JNum (Fin 0);
                suborgs := Some []; parent_org_name := JUndefined;
                email := JUndefined; metadata := JObj [] |})
     = Ok (JNum (Fin 1800000000)).
Proof. split; vm_compute; reflexivity. Qed.

Lemma orVal_cases (a b : JsVal) :
  (truthy a = true /\ orVal a b = a) \/ (truthy a = false /\ orVal a b = b).
Proof. unfold orVal. destruct (truthy a); auto. Qed.

Lemma orVal_undefined (b : JsVal) : orVal JUndefined b = b.
Proof. reflexivity. Qed.

(** Re-resolving a value that came out of an alias chain with default
    [dflt] gives the value back, when [dflt] resolves to itself. *)
Lemma orVal_again (v dflt : JsVal) :
  truthy v = true \/ v = dflt -> orVal v dflt = v.
Proof. unfold orVal. intros [-> | ->]; [done |]. by destruct (truthy dflt). Qed.

Lemma orVal_truthy_or_default (a b : JsVal) :
  truthy (orVal a b) = true \/ orVal a b = b.
Proof. destruct (orVal_cases a b) as [[H ->] | [_ ->]]; auto. Qed.

Lemma rawIdOf_toJs (E : Customer) : rawIdOf (toJs E) = JStr (id E).
Proof. by destruct E. Qed.

(** An alias that is absent does not change the choice. *)
Lemma orVal_skip (a b : JsVal) : orVal (orVal a JUndefined) b = orVal a b.
Proof. unfold orVal. destruct (truthy a) eqn:T; by rewrite ?T. Qed.

Lemma nameOf_toJs (E : Customer) : nameOf (toJs E) = orVal (name E) (JStr "").
Proof. destruct E. apply orVal_skip. Qed.

Lemma typeOf_toJs (E : Customer) : typeOf (toJs E) = orVal (customer_type E) (JStr "org").
Proof. destruct E. apply orVal_skip. Qed.

Lemma clientCountOf_toJs (E : Customer) :
  clientCountOf (toJs E) = orVal (client_count E) (JNum (Fin 0)).
Proof. destruct E. unfold clientCountOf. cbn [toJs prop]. by rewrite !orVal_skip. Qed.

Lemma parentOrgNameOf_toJs (E : Customer) :
  parentOrgNameOf (toJs E) = orVal (parent_org_name E) JUndefined.
Proof. destruct E. unfold parentOrgNameOf. cbn [toJs prop]. by rewrite orVal_skip. Qed.

Lemma emailOf_toJs (E : Customer) : emailOf (toJs E) = orVal (email E) JUndefined.
Proof. by destruct E. Qed.

Lemma metadataOf_toJs (E : Customer) : metadataOf (toJs E) = orVal (metadata E) (JObj []).
Proof. by destruct E. Qed.

Lemma createdOf_toJs (rt : Runtime) (E : Customer) :
  truthy (created E) = true -> createdOf rt (toJs E) = Ok (created E).
Proof. destruct E. unfold createdOf. cbn. by intros ->. Qed.

Lemma subRecords_toJs (E : Customer) : subRecords (toJs E) = map toJs (children E).
Proof. by destruct E as [? ? ? ? ? [subs |] ? ? ?]. Qed.

Lemma truthyOrUndefined_again (v : JsVal) :
  truthyOrUndefined v = true -> orVal v JUndefined = v.
Proof.
  unfold truthyOrUndefined. intros H. apply orVal_again.
  destruct (truthy v); [by left | right]. by destruct v.
Qed.

Lemma settled_unfold (E : Customer) :
  settled E = true ->
  truthy (created E) = true
  /\ truthyOrUndefined (parent_org_name E) = true
  /\ truthyOrUndefined (email E) = true
  /\ Forall (fun c => settled c = true) (children E).
Proof.
  destruct E as [? ? ? ? ? subs ? ? ?]. cbn.
  rewrite !andb_true_iff. intros [[[? ?] ?] Hsubs]. repeat split; try done.
  destruct subs as [subs |]; [| constructor].
  apply Forall_forall. intros c Hc. rewrite forallb_forall in Hsubs.
  apply Hsubs. by apply list_elem_of_In.
Qed.

(** The callback keeps a normalised sub-organisation with another id. *)
Lemma keepSubOrg_toJs (parentId : string) (c : Customer) :
  customer_type c = JStr "sub-org" -> id c <> parentId ->
  keepSubOrg parentId (toJs c) = Ok true.
Proof.
  intros Htype Hid. rewrite keepSubOrg_eq by by destruct c.
  rewrite rawIdOf_toJs, typeOf_toJs, Htype. cbn.
  by destruct (String.eqb_spec (id c) parentId).
Qed.

Lemma filterM_all {A : Type} (p : A -> Outcome bool) (l : list A) :
  Forall (fun x => p x = Ok true) l -> filterM p l = Ok l.
Proof.
  induction 1 as [| x l Hx _ IH]; [done |]. cbn [filterM]. by rewrite Hx, IH.
Qed.

(** The children of a normalised entity, with what is known of each. *)
Lemma children_of_Ok (rt : Runtime) (data : JsVal) (E : Customer) :
  transformCustomerData rt data = Ok E ->
  Forall (fun c =>
            customer_type c = JStr "sub-org" /\ id c <> id E
            /\ exists r, depth r < depth data /\ transformCustomerData rt r = Ok c)
    (children E).
Proof.
  intros H. destruct (suborgs_of_Ok rt data E H) as (subs & Hsubs & Hall).
  unfold children. rewrite Hsubs. cbn.
  apply Forall_forall. intros c Hc.
  destruct (proj1 (list_elem_of_lookup subs c) Hc) as [i Hi].
  destruct (Forall2_lookup_r _ _ _ _ _ Hall Hi) as (r & Hr & Hrc).
  apply list_elem_of_lookup_2 in Hr. apply elem_of_filter_passes in Hr as [Hr Hpass].
  destruct (kept_child rt (id E) r c Hpass Hrc) as [? ?].
  repeat split; try done. exists r. split; [by apply depth_subRecords | done].
Qed.

Lemma idempotent_below (rt rt' : Runtime) (n : nat) :
  forall data E,
    depth data < n ->
    transformCustomerData rt data = Ok E ->
    settled E = true ->
    transformCustomerData rt' (toJs E) = Ok E.
Proof.
  induction n as [| n IH]; intros data E Hdepth HE Hsettled; [lia |].
  pose proof (children_of_Ok rt data E HE) as Hchildren.
  destruct (settled_unfold E Hsettled) as (Hcreated & Hparent & Hemail & Hsub).
  apply transformCustomerData_Ok in HE
    as (_ & _ & Hname & Htype & _ & Hcount & _ & _ & Hmeta & subs & Hsubs & _).
  rewrite transformCustomerData_eq by by destruct E.
  rewrite rawIdOf_toJs. cbn [jsString mbind outcome_bind].
  rewrite subRecords_toJs, filterM_all; cycle 1.
  { apply Forall_fmap. eapply Forall_impl; [exact Hchildren |].
    intros c (Hc1 & Hc2 & _). by apply keepSubOrg_toJs. }
  cbn [mbind outcome_bind].
  assert (mapM (transformCustomerData rt') (map toJs (children E)) = Ok (children E)) as ->.
  { apply mapM_outcome_Forall2. apply Forall2_fmap_l, Forall_Forall2_diag.
    apply Forall_forall. intros c Hc.
    pose proof (proj1 (Forall_forall _ _) Hchildren c Hc) as (_ & _ & r & Hr & Hrc).
    pose proof (proj1 (Forall_forall _ _) Hsub c Hc) as Hcs.
    apply (IH r c); [lia | done | done]. }
  cbn [mbind outcome_bind]. rewrite createdOf_toJs by done. cbn [mbind outcome_bind].
  rewrite nameOf_toJs, typeOf_toJs, clientCountOf_toJs, parentOrgNameOf_toJs,
    emailOf_toJs, metadataOf_toJs.
  rewrite (truthyOrUndefined_again _ Hparent), (truthyOrUndefined_again _ Hemail).
  rewrite (orVal_again (name E)) by (rewrite Hname; apply orVal_truthy_or_default).
  rewrite (orVal_again (customer_type E)) by (rewrite Htype; apply orVal_truthy_or_default).
  rewrite (orVal_again (client_count E)) by (rewrite Hcount; apply orVal_truthy_or_default).
  rewrite (orVal_again (metadata E)) by (rewrite Hmeta; apply orVal_truthy_or_default).
  unfold children. rewrite Hsubs. destruct E. cbn in Hsubs |- *. by rewrite Hsubs.
Qed.

(** C5, amended.  Normalising the output of a normalisation gives the same
    entity back, at any time, provided the entity is settled: its [created]
    is truthy and its [parent_org_name] and [email] are truthy or
    [undefined], and so for the entities below it. *)
Theorem normalisation_idempotent_when_settled
    (rt rt' : Runtime) (data : JsVal) (E : Customer) :
  transformCustomerData rt data = Ok E ->
  settled E = true ->
  transformCustomerData rt' (toJs E) = Ok E.
Proof.
  intros HE Hs.
  apply (idempotent_below rt rt' (S (depth data)) data E); [lia | exact HE | exact Hs].
Qed.

(** An instance: [mixedKindsEntity], normalised again a good while later. *)
Lemma normalisation_idempotent_when_settled_witness :
  transformCustomerData (sampleRuntime 1700000000000 offline) mixedKindsPayload
    = Ok mixedKindsEntity
  /\ settled mixedKindsEntity = true
  /\ transformCustomerData (sampleRuntime 1800000000000 offline) (toJs mixedKindsEntity)
     = Ok mixedKindsEntity.
Proof.
  split; [vm_compute; reflexivity |]. split; [reflexivity |].
  apply (normalisation_idempotent_when_settled
           (sampleRuntime 1700000000000 offline) (sampleRuntime 1800000000000 offline)
           mixedKindsPayload mixedKindsEntity); [vm_compute; reflexivity | reflexivity].
Defined.

(** ** Dependence on the clock *)

(** The same record, normalised at two clock readings, gets two different
    [created] values. *)
Lemma clock_shows_in_created :
  created <$> transformCustomerData (sampleRuntime 1700000000000 offline) plainPayload
    = Ok (JNum (Fin 1700000000))
  /\ created <$> transformCustomerData (sampleRuntime 1800000000000 offline) plainPayload
     = Ok (JNum (Fin 1800000000))
  /\ transformCustomerData (sampleRuntime 1700000000000 offline) plainPayload
     <> transformCustomerData (sampleRuntime 1800000000000 offline) plainPayload.
Proof.
  split; [vm_compute; reflexivity |]. split; [vm_compute; reflexivity |].
  vm_compute. discriminate.
Qed.

(** The timestamp fallback of the specification: with neither [created] nor
    [CreatedAt] the entity is stamped with the clock reading, in seconds. *)
Lemma created_fallback (rt : Runtime) (data : JsVal) (E : Customer) :
  transformCustomerData rt data = Ok E ->
  truthy (prop data "created") = false ->
  truthy (prop data "CreatedAt") = false ->
  created E = JNum (Fin (now rt / 1000)).
Proof.
  intros H H1 H2. apply transformCustomerData_Ok in H as (_ & _ & _ & _ & Hc & _).
  unfold createdOf in Hc. rewrite H1, H2 in Hc. congruence.
Qed.

Lemma createdOf_clock_free (rt1 rt2 : Runtime) (data : JsVal) :
  (forall v, dateSeconds rt1 v = dateSeconds rt2 v) ->
  truthy (prop data "created") = true \/ truthy (prop data "CreatedAt") = true ->
  createdOf rt1 data = createdOf rt2 data.
Proof.
  intros Hdate Hstamp. unfold createdOf.
  destruct (truthy (prop data "created")); [done |].
  destruct Hstamp as [? | ->]; [done |]. by rewrite Hdate.
Qed.

Lemma clock_free_below (rt1 rt2 : Runtime) (n : nat) :
  (forall v, dateSeconds rt1 v = dateSeconds rt2 v) ->
  forall data, depth data < n -> Timestamped data ->
    transformCustomerData rt1 data = transformCustomerData rt2 data.
Proof.
  intros Hdate. induction n as [| n IH]; intros data Hdepth Hstamped; [lia |].
  destruct (nullish data) eqn:Hn.
  { by rewrite !transformCustomerData_nullish. }
  inversion Hstamped as [? Hown Hsubs]; subst.
  rewrite !transformCustomerData_eq by done.
  destruct (jsString (rawIdOf data)) as [customerId |]; cbn [mbind outcome_bind]; [| done].
  destruct (filterM _ (subRecords data)) as [kept |] eqn:Hkept;
    cbn [mbind outcome_bind]; [| done].
  rewrite (mapM_outcome_ext (transformCustomerData rt1) (transformCustomerData rt2) kept).
  - by rewrite (createdOf_clock_free rt1 rt2 data Hdate Hown).
  - intros r Hr. pose proof (filterM_subset _ _ _ Hkept r Hr) as Hin.
    apply IH.
    + apply depth_subRecords in Hin. lia.
    + by eapply Forall_forall in Hsubs.
Qed.

(** C8, amended.  The entity is determined by the raw record, the date
    conversion and the clock; when the record and every record of its nested
    collections carries a truthy [created] or [CreatedAt], the clock does
    not matter either: two invocations on the same record, at any two times
    and in any two environments with the same date conversion, have the
    same outcome. *)
Theorem transform_is_clock_free_when_timestamped
    (rt1 rt2 : Runtime) (data : JsVal) :
  (forall v, dateSeconds rt1 v = dateSeconds rt2 v) ->
  Timestamped data ->
  transformCustomerData rt1 data = transformCustomerData rt2 data.
Proof.
  intros Hdate Hstamped.
  apply (clock_free_below rt1 rt2 (S (depth data)) Hdate data); [lia | exact Hstamped].
Qed.

(** An instance: [stampedPayload] at two clock readings and two webhook replies. *)
Lemma transform_is_clock_free_when_timestamped_witness :
  Timestamped stampedPayload
  /\ transformCustomerData (sampleRuntime 1700000000000 offline) stampedPayload
     = transformCustomerData (sampleRuntime 1800000000000 (Response true "OK" (Ok JNull)))
         stampedPayload.
Proof.
  assert (Timestamped stampedPayload) as Hstamped.
  { constructor; [left; reflexivity | constructor]. }
  split; [exact Hstamped |].
  apply (transform_is_clock_free_when_timestamped
           (sampleRuntime 1700000000000 offline)
           (sampleRuntime 1800000000000 (Response true "OK" (Ok JNull)))
           stampedPayload); [reflexivity | exact Hstamped].
Defined.

(** The accepted list of a refresh is decided element by element; the log
    of rejected records plays no part in it. *)
Lemma refresh_accepts (rt : Runtime) (st : State)
    (webhookUrl statusText : string) (items : list JsVal) :
  configured (NEXT_PUBLIC_WEBHOOK_GET_CUSTOMERS rt) = Some webhookUrl ->
  fetch rt webhookUrl None = Response true statusText (Ok (JArr items)) ->
  customers (fst (refreshCustomers rt st)) = omap (accepted rt) items.
Proof.
  intros Hurl Hfetch. rewrite (refreshCustomers_body _ _ _ _ _ Hurl Hfetch).
  pose proof (forEach_validate rt items 0 [] []) as H.
  destruct (forEachFrom _ _ _ _) as [valid invalid]. exact H.
Qed.

(** * Further properties of the code *)

Set Warnings "-clear-no-such-hyp".

(** ** The provider: refresh *)

Lemma accepted_Some (rt : Runtime) (x : JsVal) (c : Customer) :
  accepted rt x = Some c ->
  truthy x = true /\ transformCustomerData rt x = Ok c /\ hasIdAndName c.
Proof.
  unfold accepted, hasIdAndName, missingId, missingName.
  destruct (truthy x); simpl; [| done].
  destruct (transformCustomerData rt x) as [c' |]; [| done].
  cbn [truthy]. destruct (String.eqb_spec (id c') ""); simpl; [done |].
  destruct (truthy (name c')) eqn:Hname; simpl; [| done].
  intros [= <-]. done.
Qed.

(** The outcomes of a refresh, case by case. *)
Lemma refreshCustomers_cases (rt : Runtime) (st : State) :
  (exists items url statusText,
     configured (NEXT_PUBLIC_WEBHOOK_GET_CUSTOMERS rt) = Some url
     /\ fetch rt url None = Response true statusText (Ok (JArr items))
     /\ fst (refreshCustomers rt st)
        = {| customers := omap (accepted rt) items; loading := false; error := None |})
  \/ fst (refreshCustomers rt st) = {| customers := []; loading := false; error := None |}
  \/ exists message,
       fst (refreshCustomers rt st)
       = {| customers := customers st; loading := false; error := Some message |}.
Proof.
  destruct (configured (NEXT_PUBLIC_WEBHOOK_GET_CUSTOMERS rt)) as [url |] eqn:Hurl;
    [| right; left; unfold refreshCustomers; by rewrite Hurl].
  destruct (fetch rt url None) as [e | ok statusText json] eqn:Hfetch.
  { right; right. exists (errorMessage rt e). unfold refreshCustomers.
    by rewrite Hurl, Hfetch. }
  destruct ok.
  2:{ right; right. exists ("Failed to fetch customers: " +:+ statusText).
      unfold refreshCustomers. by rewrite Hurl, Hfetch. }
  destruct json as [data | e].
  2:{ right; right. exists (errorMessage rt e). unfold refreshCustomers.
      by rewrite Hurl, Hfetch. }
  destruct (isArray data) eqn:Harr.
  - left. destruct data; try discriminate. exists items, url, statusText.
    repeat split; try done.
    rewrite (refreshCustomers_body _ _ _ _ _ Hurl Hfetch).
    pose proof (forEach_validate rt items 0 [] []) as H.
    destruct (forEachFrom _ _ _ _) as [valid invalid]. simpl in *. by subst.
  - right; left. rewrite (refreshCustomers_body _ _ _ _ _ Hurl Hfetch).
    by destruct data.
Qed.

(** X1.  After a refresh that stores no error, every customer of the list
    has a non-empty id and a truthy name. *)
Theorem refreshed_customers_have_id_and_name (rt : Runtime) (st : State) :
  error (fst (refreshCustomers rt st)) = None ->
  Forall hasIdAndName (customers (fst (refreshCustomers rt st))).
Proof.
  intros Herr.
  destruct (refreshCustomers_cases rt st)
    as [(items & url & s & _ & _ & ->) | [-> | [message Hst]]].
  - cbn. apply Forall_forall. intros c Hc.
    apply list_elem_of_omap in Hc as (x & _ & Hx).
    by apply accepted_Some in Hx as (_ & _ & ?).
  - constructor.
  - rewrite Hst in Herr. discriminate.
Qed.

(** An instance: the batch that repeats an id. *)
Lemma refreshed_customers_have_id_and_name_witness :
  error (fst (refreshCustomers repeatedIdRuntime emptyState)) = None
  /\ Forall hasIdAndName (customers (fst (refreshCustomers repeatedIdRuntime emptyState))).
Proof.
  split; [reflexivity |].
  apply (refreshed_customers_have_id_and_name repeatedIdRuntime emptyState). reflexivity.
Defined.

(** One turn of the loop either accepts the element or logs it under its
    index. *)
Lemma validateCustomer_step (rt : Runtime) (x : JsVal) (i : nat)
    (valid : list Customer) (invalid : list InvalidCustomer) :
  (exists c, validateCustomer rt (valid, invalid) x i = (valid ++ [c], invalid))
  \/ (exists entry,
        validateCustomer rt (valid, invalid) x i = (valid, invalid ++ [entry])
        /\ index entry = i /\ raw entry = x).
Proof.
  unfold validateCustomer.
  destruct (negb (truthy x)); [right; eauto |].
  destruct (transformCustomerData rt x) as [c |]; [| right; eauto].
  destruct (missingId c); [right; eauto |].
  destruct (missingName c); [right; eauto | left; eauto].
Qed.

Lemma forEach_partition (rt : Runtime) (items : list JsVal) :
  forall (start : nat) (valid : list Customer) (invalid : list InvalidCustomer),
    exists valid' invalid',
      forEachFrom (validateCustomer rt) start items (valid, invalid)
      = (valid ++ valid', invalid ++ invalid')
      /\ length valid' + length invalid' = length items
      /\ Forall (fun entry =>
                   start <= index entry
                   /\ items !! (index entry - start) = Some (raw entry)) invalid'.
Proof.
  induction items as [| x items IH]; intros start valid invalid.
  - exists [], []. rewrite !app_nil_r. split; [reflexivity |]. split; [reflexivity | constructor].
  - cbn [forEachFrom].
    destruct (validateCustomer_step rt x start valid invalid)
      as [[c ->] | (entry & -> & Hindex & Hraw)].
    + destruct (IH (S start) (valid ++ [c]) invalid) as (v & i & -> & Hlen & Hall).
      exists (c :: v), i. rewrite <- app_assoc.
      split; [reflexivity |]. split; [cbn [length]; lia |].
      eapply Forall_impl; [exact Hall |]. intros e [Hle Hlook]. split; [lia |].
      replace (index e - start) with (S (index e - S start)) by lia. exact Hlook.
    + destruct (IH (S start) valid (invalid ++ [entry])) as (v & i & -> & Hlen & Hall).
      exists v, (entry :: i). rewrite <- app_assoc.
      split; [reflexivity |]. split; [cbn [length]; lia |].
      constructor.
      * rewrite Hindex, Nat.sub_diag, Hraw. done.
      * eapply Forall_impl; [exact Hall |]. intros e [Hle Hlook]. split; [lia |].
        replace (index e - start) with (S (index e - S start)) by lia. exact Hlook.
Qed.

(** X2.  When the webhook answers with a list, every element is either
    accepted or logged, never both and never dropped silently: the accepted
    customers and the log entries add up to the length of the list, and each
    log entry carries the position and the raw value of the element it
    rejects. *)
Theorem refresh_accounts_for_every_element (rt : Runtime) (st : State)
    (webhookUrl statusText : string) (items : list JsVal) :
  configured (NEXT_PUBLIC_WEBHOOK_GET_CUSTOMERS rt) = Some webhookUrl ->
  fetch rt webhookUrl None = Response true statusText (Ok (JArr items)) ->
  length (customers (fst (refreshCustomers rt st))) + length (snd (refreshCustomers rt st))
    = length items
  /\ Forall (fun entry => items !! index entry = Some (raw entry))
       (snd (refreshCustomers rt st)).
Proof.
  intros Hurl Hfetch. rewrite (refreshCustomers_body _ _ _ _ _ Hurl Hfetch).
  destruct (forEach_partition rt items 0 [] []) as (v & i & Heq & Hlen & Hall).
  rewrite Heq. cbn. split; [exact Hlen |].
  eapply Forall_impl; [exact Hall |]. intros e [_ Hlook].
  by rewrite Nat.sub_0_r in Hlook.
Qed.

(** An instance: the batch [[{name:"Acme"}]]. *)
Lemma refresh_accounts_for_every_element_witness :
  length (customers (fst (refreshCustomers noIdBatchRuntime emptyState)))
    + length (snd (refreshCustomers noIdBatchRuntime emptyState))
    = length [noIdPayload]
  /\ Forall (fun entry => [noIdPayload] !! index entry = Some (raw entry))
       (snd (refreshCustomers noIdBatchRuntime emptyState)).
Proof.
  apply (refresh_accounts_for_every_element noIdBatchRuntime emptyState
           "https://example.test/customers" "OK" [noIdPayload]); reflexivity.
Defined.

(** X3.  Every refresh ends with [loading] off, and it either stores no
    error or leaves the customer list as it was: a failed refresh never
    empties or alters the list. *)
Theorem refresh_fails_without_touching_the_list (rt : Runtime) (st : State) :
  loading (fst (refreshCustomers rt st)) = false
  /\ (error (fst (refreshCustomers rt st)) = None
      \/ customers (fst (refreshCustomers rt st)) = customers st).
Proof.
  destruct (refreshCustomers_cases rt st)
    as [(items & url & s & _ & _ & ->) | [-> | [message ->]]]; cbn; auto.
Qed.

(** ** The provider: create, update, delete, look up *)

(** The two ways [addCustomer] ends. *)
Lemma addCustomer_cases (rt : Runtime) (customerData : JsVal) (st : State) :
  (exists c,
     addCustomer rt customerData st
     = (Ok c, {| customers := customers st ++ [c]; loading := loading st; error := None |})
     /\ missingId c = false /\ missingName c = false)
  \/ (exists e,
        addCustomer rt customerData st
        = (Throw e, {| customers := customers st; loading := loading st;
                       error := Some (errorMessage rt e) |})).
Proof.
  unfold addCustomer.
  destruct (configured _) as [url |]; [| right; eauto].
  destruct (fetch rt url (Some customerData)) as [e | ok statusText json]; [right; eauto |].
  destruct ok; [| right; eauto]. cbn [negb].
  destruct json as [rawCustomer | e]; [| right; eauto]. cbn [mbind outcome_bind].
  destruct (match rawCustomer with
            | JArr [] => Throw (Error "Webhook returned empty array")
            | JArr (first :: _) => Ok first
            | _ => Ok rawCustomer
            end) as [chosen | e]; [| right; eauto]. cbn [mbind outcome_bind].
  destruct (transformCustomerData rt chosen) as [c | e]; [| right; eauto].
  cbn [mbind outcome_bind].
  destruct (missingId c) eqn:Hid; [right; eauto |].
  destruct (missingName c) eqn:Hname; [right; eauto |]. cbn [orb].
  left. by exists c.
Qed.

(** X4.  [addCustomer] has two outcomes.  Either it returns a customer,
    which then has a non-empty id and a truthy name, sits at the end of the
    list, and the stored error is cleared; or it throws, the list is
    untouched and the error's message is stored.  [loading] is never
    changed. *)
Theorem addCustomer_outcomes (rt : Runtime) (customerData : JsVal) (st : State) :
  (exists c,
     addCustomer rt customerData st
     = (Ok c, {| customers := customers st ++ [c]; loading := loading st; error := None |})
     /\ hasIdAndName c)
  \/ (exists e,
        addCustomer rt customerData st
        = (Throw e, {| customers := customers st; loading := loading st;
                       error := Some (errorMessage rt e) |})).
Proof.
  destruct (addCustomer_cases rt customerData st) as [(c & Heq & Hid & Hname) | Herr];
    [left | by right].
  exists c. split; [exact Heq |].
  unfold hasIdAndName, missingId, missingName in *. cbn [truthy] in Hid. split.
  - intros Hempty. rewrite Hempty in Hid. discriminate.
  - by destruct (truthy (name c)).
Qed.

(** Normalisation does not look at the webhook settings of the runtime. *)
Lemma transformFuel_withReply (rt : Runtime) (reply : FetchResult) (fuel : nat) :
  forall data, transformFuel fuel (withReply rt reply) data = transformFuel fuel rt data.
Proof.
  induction fuel as [| fuel IH]; intros data; [reflexivity |].
  cbn [transformFuel].
  rewrite (transformBody_ext _ (transformFuel fuel rt) (withReply rt reply) data)
    by (intros x _; apply IH).
  reflexivity.
Qed.

Lemma transformCustomerData_withReply (rt : Runtime) (reply : FetchResult) (data : JsVal) :
  transformCustomerData (withReply rt reply) data = transformCustomerData rt data.
Proof. apply transformFuel_withReply. Qed.

(** X5.  A reply that wraps the new record in a non-empty array is treated
    as the record itself: only the first element counts. *)
Theorem addCustomer_uses_first_element (rt : Runtime) (customerData : JsVal) (st : State)
    (statusText : string) (first : JsVal) (others : list JsVal) :
  isArray first = false ->
  addCustomer (withReply rt (Response true statusText (Ok (JArr (first :: others)))))
    customerData st
  = addCustomer (withReply rt (Response true statusText (Ok first))) customerData st.
Proof.
  intros Harr. unfold addCustomer. cbn [withReply NEXT_PUBLIC_WEBHOOK_CREATE_CUSTOMER fetch].
  destruct (configured _); [| reflexivity].
  cbn [negb mbind outcome_bind].
  assert (match first with
          | JArr [] => Throw (Error "Webhook returned empty array")
          | JArr (x :: _) => Ok x
          | _ => Ok first
          end = Ok first) as -> by by destruct first.
  cbn [mbind outcome_bind].
  rewrite (transformCustomerData_withReply rt
             (Response true statusText (Ok (JArr (first :: others))))),
          (transformCustomerData_withReply rt (Response true statusText (Ok first))).
  reflexivity.
Qed.

(** An instance: the record alone, and followed by a second one. *)
Lemma addCustomer_uses_first_element_witness :
  isArray newPayload = false
  /\ addCustomer
       (withReply (sampleRuntime 1700000000000 offline)
          (Response true "OK" (Ok (JArr [newPayload; plainPayload]))))
       JNull emptyState
     = addCustomer
         (withReply (sampleRuntime 1700000000000 offline) (Response true "OK" (Ok newPayload)))
         JNull emptyState.
Proof.
  split; [reflexivity |].
  apply (addCustomer_uses_first_element (sampleRuntime 1700000000000 offline) JNull emptyState
           "OK" newPayload [plainPayload]). reflexivity.
Defined.

Lemma find_filter_none (target : string) (l : list Customer) :
  List.find (fun c => String.eqb (id c) target)
    (List.filter (fun c => negb (String.eqb (id c) target)) l) = None.
Proof.
  induction l as [| c l IH]; [done |]. cbn [List.filter].
  destruct (String.eqb (id c) target) eqn:Hc; cbn [negb]; [done |].
  cbn [List.find]. by rewrite Hc.
Qed.

Lemma find_filter_other (target other : string) (l : list Customer) :
  other <> target ->
  List.find (fun c => String.eqb (id c) other)
    (List.filter (fun c => negb (String.eqb (id c) target)) l)
  = List.find (fun c => String.eqb (id c) other) l.
Proof.
  intros Hne. induction l as [| c l IH]; [done |]. cbn [List.filter List.find].
  destruct (String.eqb_spec (id c) target) as [Ht | Ht]; cbn [negb].
  - destruct (String.eqb_spec (id c) other); [congruence | done].
  - cbn [List.find]. by destruct (String.eqb (id c) other).
Qed.

Lemma filter_filter_same {A : Type} (p : A -> bool) (l : list A) :
  List.filter p (List.filter p l) = List.filter p l.
Proof.
  induction l as [| x l IH]; [done |]. cbn [List.filter].
  destruct (p x) eqn:Hx; [| done]. cbn [List.filter]. by rewrite Hx, IH.
Qed.

(** X6.  After [deleteCustomer(id)] a lookup of that id finds nothing, a
    lookup of any other id finds what it found before, and deleting the
    same id again changes nothing. *)
Theorem delete_then_lookup (target other : string) (st : State) :
  getCustomer target (deleteCustomer target st) = None
  /\ (other <> target ->
      getCustomer other (deleteCustomer target st) = getCustomer other st)
  /\ deleteCustomer target (deleteCustomer target st) = deleteCustomer target st.
Proof.
  split; [apply find_filter_none |]. split; [apply find_filter_other |].
  unfold deleteCustomer, setError, setCustomers. cbn. by rewrite filter_filter_same.
Qed.

Lemma find_map_update (target other : string) (updates : CustomerUpdates)
    (l : list Customer) :
  new_id updates = None ->
  List.find (fun c => String.eqb (id c) other)
    (map (fun c => if String.eqb (id c) target then spreadUpdates c updates else c) l)
  = (fun c => if String.eqb (id c) target then spreadUpdates c updates else c)
      <$> List.find (fun c => String.eqb (id c) other) l.
Proof.
  intros Hid. induction l as [| c l IH]; [done |]. cbn [map List.find].
  assert (id (if String.eqb (id c) target then spreadUpdates c updates else c) = id c) as ->.
  { destruct (String.eqb (id c) target); [| done]. cbn. by rewrite Hid. }
  by destruct (String.eqb (id c) other).
Qed.

(** X7.  When an update does not list [id], a lookup after
    [updateCustomer(id, updates)] finds the customer found before, with the
    listed fields replaced if it is the target and unchanged otherwise. *)
Theorem update_then_lookup (target other : string) (updates : CustomerUpdates) (st : State) :
  new_id updates = None ->
  getCustomer target (updateCustomer target updates st)
    = (fun c => spreadUpdates c updates) <$> getCustomer target st
  /\ (other <> target ->
      getCustomer other (updateCustomer target updates st) = getCustomer other st).
Proof.
  intros Hid. unfold getCustomer, updateCustomer, setError, setCustomers. cbn.
  rewrite !find_map_update by done. split.
  - destruct (List.find _ (customers st)) as [c |] eqn:Hfind; [| done].
    apply find_some in Hfind as [_ Hc]. cbn. by rewrite Hc.
  - intros Hne. destruct (List.find _ (customers st)) as [c |] eqn:Hfind; [| done].
    apply find_some in Hfind as [_ Hc]. cbn.
    apply String.eqb_eq in Hc. subst other.
    by destruct (String.eqb_spec (id c) target).
Qed.

(** An instance: renaming customer ["7"] in a list of two. *)
Lemma update_then_lookup_witness :
  getCustomer "7" (updateCustomer "7" (renameTo "Renamed") twoCustomers)
  = Some (entity "7" "Renamed" "org" [])
  /\ getCustomer "8" (updateCustomer "7" (renameTo "Renamed") twoCustomers)
     = Some (entity "8" "Eight" "org" []).
Proof.
  split.
  - exact (proj1 (update_then_lookup "7" "8" (renameTo "Renamed") twoCustomers eq_refl)).
  - apply (proj2 (update_then_lookup "7" "8" (renameTo "Renamed") twoCustomers eq_refl)).
    discriminate.
Defined.

Lemma find_app_last (target : string) (l : list Customer) (c : Customer) :
  List.find (fun x => String.eqb (id x) target) (l ++ [c])
  = match List.find (fun x => String.eqb (id x) target) l with
    | Some old => Some old
    | None => if String.eqb (id c) target then Some c else None
    end.
Proof.
  induction l as [| x l IH]; cbn [app List.find]; [done |].
  by destruct (String.eqb (id x) target).
Qed.

(** X8.  After a successful [addCustomer], a lookup finds what it found
    before; only when nothing was found does it find the new customer, under
    the new customer's id.  An id already in the list keeps pointing at the
    older customer. *)
Theorem add_then_lookup (rt : Runtime) (customerData : JsVal) (st st' : State)
    (c : Customer) (target : string) :
  addCustomer rt customerData st = (Ok c, st') ->
  getCustomer target st'
  = match getCustomer target st with
    | Some old => Some old
    | None => if String.eqb (id c) target then Some c else None
    end.
Proof.
  intros Hadd.
  destruct (addCustomer_cases rt customerData st) as [(c' & Heq & _) | (e & Heq)];
    rewrite Heq in Hadd; [| discriminate].
  injection Hadd as <- <-. apply find_app_last.
Qed.

(** An instance: adding [{id:"7", name:"New"}] to an empty list. *)
Lemma add_then_lookup_witness :
  addCustomer (sampleRuntime 1700000000000 (Response true "OK" (Ok newPayload))) JNull emptyState
  = (Ok (entity "7" "New" "org" []),
     {| customers := [entity "7" "New" "org" []]; loading := false; error := None |})
  /\ getCustomer "7"
       {| customers := [entity "7" "New" "org" []]; loading := false; error := None |}
     = match getCustomer "7" emptyState with
       | Some old => Some old
       | None => if String.eqb (id (entity "7" "New" "org" [])) "7"
                 then Some (entity "7" "New" "org" []) else None
       end.
Proof.
  split; [vm_compute; reflexivity |].
  apply (add_then_lookup (sampleRuntime 1700000000000 (Response true "OK" (Ok newPayload)))
           JNull emptyState). vm_compute. reflexivity.
Defined.

(** ** The flattened list of normalised customers *)

Lemma filter_imap_all (p : FlatRow -> bool) (mk : nat -> Customer -> FlatRow)
    (subs : list Customer) :
  (forall i c, c ∈ subs -> p (mk i c) = true) ->
  List.filter p (imap mk subs) = imap mk subs.
Proof.
  revert mk. induction subs as [| s subs IH]; intros mk Hp; [done |].
  cbn [imap List.filter]. rewrite Hp by left. f_equal.
  apply IH. intros i c Hc. apply Hp. by right.
Qed.

Lemma filter_flat_map {A B : Type} (p : B -> bool) (f : A -> list B) (l : list A) :
  List.filter p (flat_map f l) = flat_map (fun x => List.filter p (f x)) l.
Proof.
  induction l as [| x l IH]; [done |]. cbn [flat_map].
  by rewrite List.filter_app, IH.
Qed.

Lemma flat_map_ext_in {A B : Type} (f g : A -> list B) (l : list A) :
  Forall (fun x => f x = g x) l -> flat_map f l = flat_map g l.
Proof. induction 1 as [| x l Hx _ IH]; [done |]. cbn. by rewrite Hx, IH. Qed.

(** X9.  For customers that came out of the normalisation, the list offered
    for client assignment holds every child row, with the parent's name and
    id attached, in flattening order; a top-level row is offered only when
    the entity itself is of kind [sub-org]. *)
Theorem allSubOrgs_of_normalised (customers : list Customer) :
  Forall normalised customers ->
  ClientCreate.allSubOrgs customers = flat_map assignableRows customers.
Proof.
  intros Hnorm. unfold ClientCreate.allSubOrgs.
  rewrite ClientCreate_flattened. unfold flattenedSpec. rewrite filter_flat_map.
  apply flat_map_ext_in. eapply Forall_impl; [exact Hnorm |].
  intros E (rt & data & HE). unfold rowsOf, assignableRows. cbn [List.filter].
  assert (List.filter (fun r => strictEqStr (customer_type (row r)) "sub-org")
            (ClientCreate.subOrgsWithParent E (children E))
          = ClientCreate.subOrgsWithParent E (children E)) as ->.
  { apply filter_imap_all. intros i c Hc. cbn.
    pose proof (children_of_Ok rt data E HE) as Hchildren.
    apply (proj1 (Forall_forall _ _) Hchildren) in Hc as (-> & _). reflexivity. }
  cbn [orgRow row]. by destruct (strictEqStr (customer_type E) "sub-org").
Qed.

(** An instance: [mixedKindsEntity], whose only child is the sub-organisation
    ["3"]. *)
Lemma allSubOrgs_of_normalised_witness :
  Forall normalised [mixedKindsEntity]
  /\ ClientCreate.allSubOrgs [mixedKindsEntity] = flat_map assignableRows [mixedKindsEntity].
Proof.
  assert (Forall normalised [mixedKindsEntity]) as Hnorm.
  { constructor; [| constructor].
    exists (sampleRuntime 1700000000000 offline), mixedKindsPayload.
    vm_compute. reflexivity. }
  split; [exact Hnorm |].
  apply (allSubOrgs_of_normalised [mixedKindsEntity] Hnorm).
Defined.

(** ** The autocomplete *)

Lemma filterM_sublist {A : Type} (p : A -> Outcome bool) (l kept : list A) :
  filterM p l = Ok kept -> kept `sublist_of` l.
Proof.
  revert kept. induction l as [| x l IH]; cbn [filterM]; intros kept H.
  - injection H as <-. constructor.
  - destruct (p x) as [keep |]; cbn in H; [| done].
    destruct (filterM p l) as [kept' |]; cbn in H; [| done].
    injection H as <-. destruct keep; constructor; by apply IH.
Qed.

Lemma filterM_kept {A : Type} (p : A -> Outcome bool) (l kept : list A) :
  filterM p l = Ok kept -> Forall (fun x => p x = Ok true) kept.
Proof.
  revert kept. induction l as [| x l IH]; cbn [filterM]; intros kept H.
  - injection H as <-. constructor.
  - destruct (p x) as [keep |] eqn:Hx; cbn in H; [| done].
    destruct (filterM p l) as [kept' |]; cbn in H; [| done].
    injection H as <-. destruct keep; [constructor |]; auto.
Qed.

Lemma suggestionMatches_true (toLowerCase : string -> string) (value : JsVal) (r : FlatRow) :
  suggestionMatches toLowerCase value r = Ok true ->
  exists search n,
    value = JStr search /\ name (row r) = JStr n /\ n <> ""
    /\ (includes (toLowerCase n) (toLowerCase search) = true
        \/ exists p, parent_org_name (row r) = JStr p
                     /\ includes (toLowerCase p) (toLowerCase search) = true).
Proof.
  unfold suggestionMatches.
  destruct (truthy (name (row r))) eqn:Hname; cbn [negb]; [| done].
  destruct value as [| | | | search | |]; try done. cbn [lowerCase mbind outcome_bind].
  destruct (name (row r)) as [| | | | n | |]; try done. cbn [lowerCase mbind outcome_bind].
  intros H. exists search, n. repeat split; try done.
  { intros ->. discriminate. }
  destruct (truthy (parent_org_name (row r))); cbn in H.
  - destruct (parent_org_name (row r)) as [| | | | p | |]; try done. cbn in H.
    injection H as H. apply orb_true_iff in H as [H | H]; [by left | right; eauto].
  - injection H as H. rewrite orb_false_r in H. by left.
Qed.

(** X10.  The suggestions are at most eight rows of the given list, in the
    order of the list, and each of them has a non-empty string name and
    matches the search text, case-insensitively, in its name or in its
    parent's name. *)
Theorem suggestions_are_matching_rows (toLowerCase : string -> string)
    (customers shown : list FlatRow) (value : JsVal) :
  suggestions toLowerCase customers value = Ok shown ->
  length shown <= 8
  /\ shown `sublist_of` customers
  /\ Forall (fun r =>
               exists search n,
                 value = JStr search /\ name (row r) = JStr n /\ n <> ""
                 /\ (includes (toLowerCase n) (toLowerCase search) = true
                     \/ exists p, parent_org_name (row r) = JStr p
                                  /\ includes (toLowerCase p) (toLowerCase search) = true))
       shown.
Proof.
  unfold suggestions. intros H.
  destruct (filterM _ customers) as [kept |] eqn:Hkept; cbn in H; [| done].
  injection H as <-. split; [| split].
  - rewrite length_take. lia.
  - etrans; [apply sublist_take | by eapply filterM_sublist].
  - apply Forall_take. eapply Forall_impl; [by eapply filterM_kept |].
    intros r Hr. by apply suggestionMatches_true.
Qed.

(** An instance: searching ["a1"] in the flattened list of the ordering
    test. *)
Lemma suggestions_are_matching_rows_witness :
  suggestions asciiLower (HomePage.allCustomersFlattened sampleCustomers) (JStr "a1")
  = Ok (HomePage.subOrgsWithParent
          (entity "A" "A" "org" [entity "A1" "A1" "sub-org" []; entity "A2" "A2" "sub-org" []])
          [entity "A1" "A1" "sub-org" []])
  /\ length (HomePage.subOrgsWithParent
              (entity "A" "A" "org" [entity "A1" "A1" "sub-org" []; entity "A2" "A2" "sub-org" []])
              [entity "A1" "A1" "sub-org" []]) <= 8.
Proof.
  split; [vm_compute; reflexivity |].
  apply (suggestions_are_matching_rows asciiLower
           (HomePage.allCustomersFlattened sampleCustomers) _ (JStr "a1")).
  vm_compute. reflexivity.
Defined.

Lemma lowerCase_Ok (toLowerCase : string -> string) (v : JsVal) :
  (isString v /\ exists s, v = JStr s /\ lowerCase toLowerCase v = Ok (toLowerCase s))
  \/ (~ isString v /\ lowerCase toLowerCase v = Throw (Engine TypeError)).
Proof.
  destruct v as [| | | | s | |];
    try (right; split; [intros [s Hs]; discriminate Hs | reflexivity]).
  left. split; [by exists s | by exists s].
Qed.

Lemma suggestionMatches_Ok_iff (toLowerCase : string -> string) (search : string)
    (r : FlatRow) :
  (exists b, suggestionMatches toLowerCase (JStr search) r = Ok b) <-> searchable r.
Proof.
  unfold suggestionMatches, searchable.
  destruct (truthy (name (row r))) eqn:Hname; cbn [negb lowerCase mbind outcome_bind].
  2:{ split; [done | eauto]. }
  destruct (lowerCase_Ok toLowerCase (name (row r))) as [[Hn (n & _ & ->)] | [Hn ->]];
    cbn [mbind outcome_bind].
  2:{ split; [intros [b Hb]; discriminate Hb | intros H; by destruct (H eq_refl)]. }
  destruct (truthy (parent_org_name (row r))) eqn:Hparent.
  2:{ split; [intros _ _; split; [done | intros H; discriminate H] | eauto]. }
  destruct (lowerCase_Ok toLowerCase (parent_org_name (row r)))
    as [[Hp (p & _ & ->)] | [Hp ->]]; cbn [mbind outcome_bind].
  - split; [intros _ _; split; [done | done] | eauto].
  - split; [intros [b Hb]; discriminate Hb |].
    intros H. destruct (H eq_refl) as [_ Hp']. by destruct (Hp (Hp' eq_refl)).
Qed.

Lemma filterM_Ok_iff {A : Type} (p : A -> Outcome bool) (l : list A) :
  (exists kept, filterM p l = Ok kept) <-> Forall (fun x => exists b, p x = Ok b) l.
Proof.
  induction l as [| x l IH]; cbn [filterM].
  - split; [constructor | eauto].
  - split.
    + intros [kept H]. destruct (p x) as [b |] eqn:Hx; cbn in H; [| done].
      destruct (filterM p l) as [kept' |]; cbn in H; [| done].
      constructor; [eauto | apply IH; eauto].
    + intros H. apply Forall_cons in H as [[b ->] Hl]. apply IH in Hl as [kept ->].
      cbn. eauto.
Qed.

(** X11.  Computing the suggestions for a search text succeeds exactly when
    every row is searchable: one row whose truthy name (or, next to a truthy
    name, truthy parent name) is not a string makes the whole computation
    raise a [TypeError], whatever the search text and wherever the row
    stands. *)
Theorem suggestions_succeed_iff_searchable (toLowerCase : string -> string)
    (customers : list FlatRow) (search : string) :
  (exists shown, suggestions toLowerCase customers (JStr search) = Ok shown)
  <-> Forall searchable customers.
Proof.
  unfold suggestions. split.
  - intros [shown H].
    destruct (filterM _ customers) as [kept |] eqn:Hkept; cbn in H; [| done].
    assert (exists kept, filterM (suggestionMatches toLowerCase (JStr search)) customers
                         = Ok kept) as Hok by eauto.
    apply filterM_Ok_iff in Hok. eapply Forall_impl; [exact Hok |].
    intros r Hr. by apply suggestionMatches_Ok_iff in Hr.
  - intros Hall.
    assert (Forall (fun r => exists b, suggestionMatches toLowerCase (JStr search) r = Ok b)
              customers) as Hok.
    { eapply Forall_impl; [exact Hall |]. intros r Hr. by apply suggestionMatches_Ok_iff. }
    apply filterM_Ok_iff in Hok as [kept ->]. cbn. eauto.
Qed.

(** A refresh accepts a record whose name is the number 5, and the
    suggestions over the refreshed list then raise a [TypeError]. *)
Example numeric_name_breaks_suggestions :
  map (fun c => name c) (customers (fst (refreshCustomers numericNameRuntime emptyState)))
  = [JNum (Fin 5)]
  /\ suggestions asciiLower
       (HomePage.allCustomersFlattened
          (customers (fst (refreshCustomers numericNameRuntime emptyState))))
       (JStr "")
     = Throw (Engine TypeError).
Proof. split; vm_compute; reflexivity. Qed.

Lemma includes_empty (s : string) : includes s "" = true.
Proof. by destruct s. Qed.

Lemma filterM_pure {A : Type} (p : A -> Outcome bool) (q : A -> bool) (l : list A) :
  Forall (fun x => p x = Ok (q x)) l -> filterM p l = Ok (List.filter q l).
Proof.
  induction 1 as [| x l Hx _ IH]; [done |]. cbn [filterM List.filter].
  rewrite Hx, IH. cbn. by destruct (q x).
Qed.

Lemma isStringb_true (v : JsVal) : isStringb v = true -> isString v.
Proof. destruct v; try discriminate. by eexists. Qed.

Lemma searchableb_true (r : FlatRow) : searchableb r = true -> searchable r.
Proof.
  unfold searchableb, searchable. intros H Hname. rewrite Hname in H. cbn in H.
  apply andb_true_iff in H as [Hn Hp]. split; [by apply isStringb_true |].
  intros Hparent. rewrite Hparent in Hp. by apply isStringb_true.
Qed.

Lemma forallb_searchable (l : list FlatRow) :
  forallb searchableb l = true -> Forall searchable l.
Proof.
  intros H. apply Forall_forall. intros r Hr. apply searchableb_true.
  rewrite forallb_forall in H. apply H. by apply list_elem_of_In.
Qed.

(** X12.  With an empty search box, over searchable rows, the suggestions
    are the first eight rows that have a name: the empty text matches every
    name. *)
Theorem empty_search_offers_first_eight (toLowerCase : string -> string)
    (customers : list FlatRow) :
  toLowerCase "" = "" ->
  Forall searchable customers ->
  suggestions toLowerCase customers (JStr "")
  = Ok (take 8 (List.filter (fun r => truthy (name (row r))) customers)).
Proof.
  intros Hlower Hall. unfold suggestions.
  rewrite (filterM_pure _ (fun r => truthy (name (row r)))); [done |].
  eapply Forall_impl; [exact Hall |]. intros r Hr.
  unfold suggestionMatches, searchable, isString in *.
  destruct (truthy (name (row r))) eqn:Hname; cbn [negb]; [| done].
  destruct (Hr eq_refl) as [[n Hn] Hp]. rewrite Hn.
  cbn [lowerCase mbind outcome_bind]. rewrite Hlower, includes_empty.
  destruct (truthy (parent_org_name (row r))) eqn:Hparent; [| done].
  destruct (Hp eq_refl) as [p ->]. done.
Qed.

(** An instance: the flattened list of the ordering test, all four rows. *)
Lemma empty_search_offers_first_eight_witness :
  asciiLower "" = ""
  /\ Forall searchable (HomePage.allCustomersFlattened sampleCustomers)
  /\ suggestions asciiLower (HomePage.allCustomersFlattened sampleCustomers) (JStr "")
     = Ok (take 8 (List.filter (fun r => truthy (name (row r)))
                     (HomePage.allCustomersFlattened sampleCustomers))).
Proof.
  assert (Forall searchable (HomePage.allCustomersFlattened sampleCustomers)) as Hall.
  { apply forallb_searchable. vm_compute. reflexivity. }
  split; [reflexivity |]. split; [exact Hall |].
  apply (empty_search_offers_first_eight asciiLower _ eq_refl Hall).
Defined.

(** X13.  Whatever key is pressed, a highlighted index that points at a
    suggestion or is [-1] still does so afterwards; typing, clearing,
    selecting and hovering keep it so as well. *)
Theorem handlers_keep_index_in_range (shown : list FlatRow) (st : Dropdown)
    (key newValue : string) (customer : FlatRow) (hovered : nat) :
  inRange shown st ->
  inRange shown (fst (handleKeyDown shown key st))
  /\ inRange shown (fst (handleInputChange newValue st))
  /\ inRange shown (fst (handleSelectSuggestion customer st))
  /\ inRange shown (fst (handleClear st))
  /\ inRange shown (handleFocus st)
  /\ (hovered < length shown -> inRange shown (handleMouseEnter hovered st)).
Proof.
  unfold inRange. intros Hin. repeat split; cbn; try lia.
  all: unfold handleKeyDown.
  all: destruct (negb (isOpen st) && (0 <? length shown)%nat
                 && (String.eqb key "ArrowDown" || String.eqb key "ArrowUp")); cbn; try lia.
  all: destruct (String.eqb key "ArrowDown"); cbn;
         [destruct (Z.ltb_spec (highlightedIndex st) (Z.of_nat (length shown) - 1)); lia |].
  all: destruct (String.eqb key "ArrowUp"); cbn;
         [destruct (Z.ltb_spec 0 (highlightedIndex st)); lia |].
  all: destruct (String.eqb key "Enter");
         [destruct (0 <=? highlightedIndex st)%Z;
          [destruct (suggestionAt shown (highlightedIndex st)) |]; cbn; lia |].
  all: destruct (String.eqb key "Escape"); cbn; lia.
Qed.

(** An instance: the second of four rows is highlighted and [ArrowDown] is
    pressed. *)
Lemma handlers_keep_index_in_range_witness :
  inRange sampleRows {| isOpen := true; highlightedIndex := 1 |}
  /\ inRange sampleRows
       (fst (handleKeyDown sampleRows "ArrowDown" {| isOpen := true; highlightedIndex := 1 |})).
Proof.
  assert (inRange sampleRows {| isOpen := true; highlightedIndex := 1 |}) as Hin.
  { unfold inRange. cbn. lia. }
  split; [exact Hin |].
  exact (proj1 (handlers_keep_index_in_range sampleRows _ "ArrowDown" ""
                  (orgRow mixedKindsEntity) 0 Hin)).
Defined.

Lemma arrowDown_open (shown : list FlatRow) (st : Dropdown) :
  isOpen st = true ->
  handleKeyDown shown "ArrowDown" st
  = ({| isOpen := true;
        highlightedIndex :=
          if (highlightedIndex st <? Z.of_nat (length shown) - 1)%Z
          then (highlightedIndex st + 1)%Z else highlightedIndex st |}, []).
Proof. intros H. unfold handleKeyDown. rewrite H. reflexivity. Qed.

Lemma arrowDown_closed (r : FlatRow) (shown : list FlatRow) (st : Dropdown) :
  isOpen st = false ->
  handleKeyDown (r :: shown) "ArrowDown" st
  = ({| isOpen := true; highlightedIndex := highlightedIndex st |}, []).
Proof. intros H. unfold handleKeyDown. rewrite H. reflexivity. Qed.

Lemma pressMany_open (shown : list FlatRow) (presses : nat) :
  forall st,
    isOpen st = true ->
    (highlightedIndex st <= Z.of_nat (length shown) - 1)%Z ->
    pressMany shown "ArrowDown" presses st
    = {| isOpen := true;
         highlightedIndex :=
           Z.min (highlightedIndex st + Z.of_nat presses) (Z.of_nat (length shown) - 1) |}.
Proof.
  induction presses as [| n IH]; intros st Hopen Hle.
  - cbn [pressMany]. destruct st as [o h]. cbn in *. subst o. f_equal. lia.
  - cbn [pressMany]. rewrite arrowDown_open by done. cbn [fst].
    rewrite IH; cbn [isOpen highlightedIndex]; [| done |].
    + f_equal. destruct (Z.ltb_spec (highlightedIndex st) (Z.of_nat (length shown) - 1)); lia.
    + destruct (Z.ltb_spec (highlightedIndex st) (Z.of_nat (length shown) - 1)); lia.
Qed.

Lemma pressMany_closed_empty (presses : nat) (st : Dropdown) :
  isOpen st = false -> highlightedIndex st = (-1)%Z ->
  pressMany [] "ArrowDown" presses st = st.
Proof.
  intros Hopen Hh. induction presses as [| n IH]; [done |].
  cbn [pressMany]. unfold handleKeyDown at 1. rewrite Hopen, Hh. cbn.
  destruct st as [o h]. cbn in *. subst. exact IH.
Qed.

(** X14.  Starting with nothing highlighted, pressing [ArrowDown] moves the
    highlight one suggestion down per press and stops at the last one; on a
    closed dropdown that has suggestions the first press only opens it. *)
Theorem arrow_down_walks_to_the_last (shown : list FlatRow) (st : Dropdown) (presses : nat) :
  highlightedIndex st = (-1)%Z ->
  highlightedIndex (pressMany shown "ArrowDown" presses st)
  = Z.min (Z.of_nat (movingPresses shown st presses) - 1) (Z.of_nat (length shown) - 1).
Proof.
  intros Hh. unfold movingPresses. destruct (isOpen st) eqn:Hopen; cbn [orb].
  - rewrite pressMany_open by (done || lia). cbn. lia.
  - destruct shown as [| r shown].
    + rewrite pressMany_closed_empty by done. cbn. lia.
    + cbn [length Nat.eqb]. destruct presses as [| n]; [cbn; lia |].
      cbn [pressMany]. rewrite arrowDown_closed by done. cbn [fst].
      rewrite pressMany_open; cbn [isOpen highlightedIndex length]; [| done | lia].
      lia.
Qed.

(** An instance: four presses on the closed dropdown over four rows reach
    the third row. *)
Lemma arrow_down_walks_to_the_last_witness :
  highlightedIndex closedDropdown = (-1)%Z
  /\ highlightedIndex (pressMany sampleRows "ArrowDown" 4 closedDropdown) = 2%Z.
Proof.
  split; [reflexivity |].
  apply (arrow_down_walks_to_the_last sampleRows closedDropdown 4). reflexivity.
Defined.

(** X15.  On an open dropdown with nothing highlighted, pressing
    [ArrowDown] [k] times and then [Enter] selects the [k]-th suggestion:
    its name goes to the search box, the row goes to the parent, and the
    dropdown closes with nothing highlighted. *)
Theorem arrows_then_enter_select (shown : list FlatRow) (k : nat) (chosen : FlatRow) :
  shown !! k = Some chosen ->
  handleKeyDown shown "Enter" (pressMany shown "ArrowDown" (S k) openDropdown)
  = ({| isOpen := false; highlightedIndex := -1 |},
     [OnChange (name (row chosen)); OnSelectCustomer chosen]).
Proof.
  intros Hk. pose proof (lookup_lt_Some _ _ _ Hk) as Hlt.
  rewrite pressMany_open; cbn [isOpen highlightedIndex openDropdown]; [| done | lia].
  unfold handleKeyDown. cbn [isOpen highlightedIndex negb andb].
  replace (Z.min (-1 + Z.of_nat (S k)) (Z.of_nat (length shown) - 1)) with (Z.of_nat k) by lia.
  cbn. destruct (Z.leb_spec 0 (Z.of_nat k)); [| lia].
  unfold suggestionAt. rewrite Nat2Z.id, Hk. reflexivity.
Qed.

(** An instance: two presses and [Enter] select the second of the four
    rows. *)
Lemma arrows_then_enter_select_witness :
  sampleRows !! 1 = Some rowA1
  /\ handleKeyDown sampleRows "Enter" (pressMany sampleRows "ArrowDown" 2 openDropdown)
     = ({| isOpen := false; highlightedIndex := -1 |},
        [OnChange (name (row rowA1)); OnSelectCustomer rowA1]).
Proof.
  split; [vm_compute; reflexivity |].
  apply (arrows_then_enter_select sampleRows 1 rowA1). vm_compute. reflexivity.
Defined.

(** ** The theme toggle *)

(** X16.  After the mount effect the [dark] class is on the document exactly
    when the component is dark.  A saved ["dark"] wins over the system
    preference, any other non-empty saved value means light whatever the
    system prefers, and with nothing saved (or the empty string) the system
    preference decides. *)
Theorem theme_on_mount (prefersDark : bool) (st : ThemeToggle.Theme) :
  let st' := ThemeToggle.onMount prefersDark st in
  ("dark" ∈ ThemeToggle.classList st' <-> ThemeToggle.isDark st' = true)
  /\ ThemeToggle.isDark st'
     = match getItem (ThemeToggle.storage st) "theme" with
       | Some "dark" => true
       | Some "" | None => prefersDark
       | Some _ => false
       end.
Proof.
  unfold ThemeToggle.onMount. cbn.
  destruct (getItem (ThemeToggle.storage st) "theme") as [s |] eqn:Hs; cbn.
  - destruct (String.eqb_spec s "dark") as [-> | Hdark]; cbn.
    + split; [set_solver | reflexivity].
    + destruct (String.eqb_spec s "") as [-> | Hempty]; cbn.
      * split; [destruct prefersDark; set_solver | reflexivity].
      * split; [set_solver |].
        destruct s as [| a s]; [done |].
        repeat (match goal with
                | |- context [match ?x with _ => _ end] => destruct x; try reflexivity
                end); congruence.
  - split; [destruct prefersDark; set_solver | reflexivity].
Qed.

(** X17.  A toggle whose write to the storage succeeds survives a page
    load: whatever the system prefers, the reloaded component has the
    toggled theme, and the [dark] class is set accordingly. *)
Theorem toggled_theme_survives_reload (quota : gmap string string -> bool)
    (prefersDark : bool) (st st' : ThemeToggle.Theme) :
  ThemeToggle.toggleTheme quota st = (st', None) ->
  ThemeToggle.isDark (ThemeToggle.reload prefersDark st') = negb (ThemeToggle.isDark st)
  /\ ("dark" ∈ ThemeToggle.classList (ThemeToggle.reload prefersDark st')
      <-> ThemeToggle.isDark st = false).
Proof.
  unfold ThemeToggle.toggleTheme, setItem.
  destruct (quota _); [| discriminate]. intros [= <-].
  unfold ThemeToggle.reload, ThemeToggle.onMount, getItem. cbn.
  rewrite lookup_insert_eq.
  destruct (ThemeToggle.isDark st); cbn; (split; [reflexivity | set_solver]).
Qed.

(** An instance: toggling the fresh light page. *)
Lemma toggled_theme_survives_reload_witness :
  ThemeToggle.isDark
    (ThemeToggle.reload false (fst (ThemeToggle.toggleTheme unlimited freshTheme)))
  = negb (ThemeToggle.isDark freshTheme)
  /\ ("dark" ∈ ThemeToggle.classList
                 (ThemeToggle.reload false (fst (ThemeToggle.toggleTheme unlimited freshTheme)))
      <-> ThemeToggle.isDark freshTheme = false).
Proof.
  apply (toggled_theme_survives_reload unlimited false freshTheme). reflexivity.
Defined.

(** ** The expanded rows of the home page *)

(** X18.  Toggling a row flips its membership in the set of expanded rows
    and no other; toggling it twice gives the set back. *)
Theorem toggleRowExpansion_flips_one (customerId other : string) (prev : gset string) :
  (customerId ∈ Home.toggleRowExpansion customerId prev <-> customerId ∉ prev)
  /\ (other <> customerId ->
      other ∈ Home.toggleRowExpansion customerId prev <-> other ∈ prev)
  /\ Home.toggleRowExpansion customerId (Home.toggleRowExpansion customerId prev) = prev.
Proof.
  unfold Home.toggleRowExpansion. split; [| split].
  - destruct (decide (customerId ∈ prev)); set_solver.
  - intros Hne. destruct (decide (customerId ∈ prev)); set_solver.
  - destruct (decide (customerId ∈ prev)) as [Hin | Hout].
    + destruct (decide (customerId ∈ prev ∖ {[customerId]})); [set_solver |].
      apply set_eq. intros x. destruct (decide (x = customerId)); set_solver.
    + destruct (decide (customerId ∈ prev ∪ {[customerId]})); [| set_solver].
      apply set_eq. intros x. destruct (decide (x = customerId)); set_solver.
Qed.

(** ** The batch page *)

Lemma createOne_cases (fullName : nat -> string) (reply : nat -> FetchResult)
    (selected : FlatRow) (interval : string) (quantity : Z)
    (tally : BatchCreate.Tally) (i : nat) :
  BatchCreate.createOne fullName reply selected interval quantity tally i
  = {| BatchCreate.created :=
         BatchCreate.created tally ++ (if replyOk reply i then [fullName i] else []);
       BatchCreate.successCount :=
         BatchCreate.successCount tally + (if replyOk reply i then 1 else 0);
       BatchCreate.failCount :=
         BatchCreate.failCount tally + (if replyOk reply i then 0 else 1);
       BatchCreate.posted :=
         BatchCreate.posted tally ++ [clientData (fullName i) selected interval quantity] |}.
Proof.
  unfold BatchCreate.createOne, replyOk.
  destruct (reply i) as [e | [|] s j]; rewrite ?app_nil_r; f_equal; lia.
Qed.

Lemma createFrom_spec (fullName : nat -> string) (reply : nat -> FetchResult)
    (selected : FlatRow) (interval : string) (quantity : Z) (turns : nat) :
  forall (i : nat) (tally : BatchCreate.Tally),
    let final := BatchCreate.createFrom fullName reply selected interval quantity i turns tally in
    BatchCreate.created final
      = BatchCreate.created tally
        ++ map fullName (List.filter (replyOk reply) (seq i turns))
    /\ BatchCreate.posted final
       = BatchCreate.posted tally
         ++ map (fun j => clientData (fullName j) selected interval quantity) (seq i turns)
    /\ BatchCreate.successCount final
       = BatchCreate.successCount tally + length (List.filter (replyOk reply) (seq i turns))
    /\ BatchCreate.failCount final
       = BatchCreate.failCount tally
         + length (List.filter (fun j => negb (replyOk reply j)) (seq i turns)).
Proof.
  induction turns as [| turns IH]; intros i tally; cbn zeta.
  - cbn. rewrite !app_nil_r. repeat split; lia.
  - cbn [BatchCreate.createFrom seq List.filter map].
    destruct (IH (S i) (BatchCreate.createOne fullName reply selected interval quantity tally i))
      as (Hc & Hp & Hs & Hf).
    cbn zeta in *. rewrite Hc, Hp, Hs, Hf. clear Hc Hp Hs Hf IH.
    rewrite createOne_cases.
    cbn [BatchCreate.created BatchCreate.posted BatchCreate.successCount BatchCreate.failCount].
    destruct (replyOk reply i); cbn [negb map length app];
      rewrite <- ?app_assoc, ?app_nil_r; cbn [app]; repeat split; lia.
Qed.

Lemma filter_length_split {A : Type} (p : A -> bool) (l : list A) :
  length (List.filter p l) + length (List.filter (fun x => negb (p x)) l) = length l.
Proof.
  induction l as [| x l IH]; [done |]. cbn. destruct (p x); cbn; lia.
Qed.

(** X19.  A valid submission with the webhook configured posts one request
    per client asked for, whatever fails on the way: the requests carry the
    generated names in order, the names listed as created are those whose
    request got an ok response, the page ends at full progress with
    [success] set, and an error is shown exactly when a request failed. *)
Theorem batch_posts_every_client (webhookUrl : option string) (url : string)
    (fullName : nat -> string) (reply : nat -> FetchResult)
    (page : BatchCreate.Page) (selected : FlatRow) :
  BatchCreate.selectedCustomer page = Some selected ->
  (1 <= BatchCreate.numberOfClients page <= 1000)%Z ->
  configured webhookUrl = Some url ->
  let n := Z.to_nat (BatchCreate.numberOfClients page) in
  let page' := fst (BatchCreate.handleSubmit webhookUrl fullName reply page) in
  snd (BatchCreate.handleSubmit webhookUrl fullName reply page)
    = map (fun i => clientData (fullName i) selected (BatchCreate.recurringInterval page)
                      (BatchCreate.recurringQuantity page)) (seq 0 n)
  /\ BatchCreate.createdClients page' = map fullName (List.filter (replyOk reply) (seq 0 n))
  /\ BatchCreate.success page' = true
  /\ BatchCreate.progress page'
     = {| BatchCreate.current := BatchCreate.numberOfClients page;
          BatchCreate.total := BatchCreate.numberOfClients page |}
  /\ (BatchCreate.error page' = None
      <-> length (BatchCreate.createdClients page') = n).
Proof.
  intros Hsel Hn Hurl n page'. subst page'. unfold BatchCreate.handleSubmit.
  rewrite Hsel, Hurl.
  destruct (Z.ltb_spec (BatchCreate.numberOfClients page) 1); [lia |].
  destruct (Z.ltb_spec 1000 (BatchCreate.numberOfClients page)); [lia |].
  cbn [orb fst snd].
  destruct (createFrom_spec fullName reply selected (BatchCreate.recurringInterval page)
              (BatchCreate.recurringQuantity page) n 0
              {| BatchCreate.created := []; BatchCreate.successCount := 0;
                 BatchCreate.failCount := 0; BatchCreate.posted := [] |})
    as (Hc & Hp & Hs & Hf).
  cbn zeta in *. cbn [BatchCreate.created BatchCreate.posted BatchCreate.successCount
                        BatchCreate.failCount app] in *.
  fold n. cbn [BatchCreate.createdClients BatchCreate.success BatchCreate.progress
                 BatchCreate.error].
  cbn [Nat.add] in Hs, Hf. rewrite Hc, Hp, Hf. repeat split; try reflexivity.
  - rewrite length_map.
    pose proof (filter_length_split (replyOk reply) (seq 0 n)) as Hsplit.
    rewrite length_seq in Hsplit.
    destruct (Nat.ltb_spec 0 (length (List.filter (fun j => negb (replyOk reply j)) (seq 0 n))));
      [intros Herr; discriminate Herr | lia].
  - rewrite length_map. intros Hlen.
    pose proof (filter_length_split (replyOk reply) (seq 0 n)) as Hsplit.
    rewrite length_seq in Hsplit.
    destruct (Nat.ltb_spec 0 (length (List.filter (fun j => negb (replyOk reply j)) (seq 0 n))));
      [lia | reflexivity].
Qed.

(** An instance: three clients, the second request refused. *)
Lemma batch_posts_every_client_witness :
  BatchCreate.createdClients
    (fst (BatchCreate.handleSubmit (Some "https://example.test/client") sampleNames
            everySecondFails samplePage))
  = map sampleNames (List.filter (replyOk everySecondFails) (seq 0 3))
  /\ BatchCreate.error
       (fst (BatchCreate.handleSubmit (Some "https://example.test/client") sampleNames
               everySecondFails samplePage))
     = Some "Created 2 clients successfully, 1 failed".
Proof.
  split; [| vm_compute; reflexivity].
  apply (batch_posts_every_client (Some "https://example.test/client")
           "https://example.test/client" sampleNames everySecondFails samplePage rowA1);
    [reflexivity | cbn; lia | reflexivity].
Defined.

(** X20.  Without a selected row, or with a number of clients outside 1 to
    1000, a submission posts nothing and only reports the error: the list of
    created clients is emptied, and [success], [isSubmitting] and the
    progress stay as they were. *)
Theorem batch_validates_before_posting (webhookUrl : option string)
    (fullName : nat -> string) (reply : nat -> FetchResult) (page : BatchCreate.Page) :
  BatchCreate.selectedCustomer page = None
  \/ (BatchCreate.numberOfClients page < 1)%Z
  \/ (1000 < BatchCreate.numberOfClients page)%Z ->
  let page' := fst (BatchCreate.handleSubmit webhookUrl fullName reply page) in
  snd (BatchCreate.handleSubmit webhookUrl fullName reply page) = []
  /\ BatchCreate.error page'
     = Some (match BatchCreate.selectedCustomer page with
             | None => "Please select a sub-organization"
             | Some _ => "Please enter a number between 1 and 1000"
             end)
  /\ BatchCreate.createdClients page' = []
  /\ BatchCreate.success page' = BatchCreate.success page
  /\ BatchCreate.isSubmitting page' = BatchCreate.isSubmitting page
  /\ BatchCreate.progress page' = BatchCreate.progress page.
Proof.
  intros H page'. subst page'. unfold BatchCreate.handleSubmit.
  destruct (BatchCreate.selectedCustomer page) as [selected |]; [| done].
  destruct H as [H | H]; [done |].
  destruct (Z.ltb_spec (BatchCreate.numberOfClients page) 1); [done |].
  destruct (Z.ltb_spec 1000 (BatchCreate.numberOfClients page)); [done | lia].
Qed.

(** An instance: zero clients asked for. *)
Lemma batch_validates_before_posting_witness :
  snd (BatchCreate.handleSubmit (Some "https://example.test/client") sampleNames
         everySecondFails
         {| BatchCreate.selectedCustomer := Some rowA1;
            BatchCreate.numberOfClients := 0;
            BatchCreate.recurringInterval := "month";
            BatchCreate.recurringQuantity := 1;
            BatchCreate.isSubmitting := false;
            BatchCreate.error := None;
            BatchCreate.success := false;
            BatchCreate.progress := {| BatchCreate.current := 0; BatchCreate.total := 0 |};
            BatchCreate.createdClients := ["stale"] |}) = [].
Proof.
  apply (batch_validates_before_posting (Some "https://example.test/client") sampleNames
           everySecondFails). right; left. cbn. lia.
Defined.

(** ** From the flattened list to the request for a client *)

(** X21.  For a normalised entity with a non-empty id and a truthy name, the
    row that the client pages build for its [i]-th child leads to a request
    that names the child as [customer_id] and carries the parent's id and
    name as [parent_org_id] and [parent_org_name]. *)
Theorem client_request_names_the_parent (E c : Customer) (i : nat)
    (clientName interval : string) (quantity : Z) :
  normalised E ->
  hasIdAndName E ->
  children E !! i = Some c ->
  exists r,
    ClientCreate.subOrgsWithParent E (children E) !! i = Some r
    /\ clientData clientName r interval quantity
       = JObj [("name", JStr clientName);
               ("customer_id", JStr (id c));
               ("org_name", name c);
               ("recurring_interval", JStr interval);
               ("recurring_quantity", JNum (Fin quantity));
               ("parent_org_id", JStr (id E));
               ("parent_org_name", name E)].
Proof.
  intros (rt & data & HE) [Hid Hname] Hc.
  pose proof (children_of_Ok rt data E HE) as Hchildren.
  pose proof (proj1 (Forall_forall _ _) Hchildren c
                (proj2 (list_elem_of_lookup _ _) (ex_intro _ i Hc))) as (Htype & _).
  eexists. split.
  - unfold ClientCreate.subOrgsWithParent. rewrite list_lookup_imap, Hc. reflexivity.
  - unfold clientData. cbn [row parent_org_id withParentName customer_type parent_org_name
                              id name].
    rewrite Htype, Hname. cbn [strictEqStr].
    destruct (String.eqb_spec (id E) ""); [done |]. reflexivity.
Qed.

(** An instance: the child ["3"] of [mixedKindsEntity]. *)
Lemma client_request_names_the_parent_witness :
  normalised mixedKindsEntity
  /\ hasIdAndName mixedKindsEntity
  /\ exists r,
       ClientCreate.subOrgsWithParent mixedKindsEntity (children mixedKindsEntity) !! 0 = Some r
       /\ clientData "Ada" r "month" 1
          = JObj [("name", JStr "Ada");
                  ("customer_id", JStr "3");
                  ("org_name", JStr "S");
                  ("recurring_interval", JStr "month");
                  ("recurring_quantity", JNum (Fin 1));
                  ("parent_org_id", JStr "1");
                  ("parent_org_name", JStr "A")].
Proof.
  assert (normalised mixedKindsEntity) as Hnorm.
  { exists (sampleRuntime 1700000000000 offline), mixedKindsPayload. vm_compute. reflexivity. }
  assert (hasIdAndName mixedKindsEntity) as Hvalid by (split; [discriminate | reflexivity]).
  split; [exact Hnorm |]. split; [exact Hvalid |].
  apply (client_request_names_the_parent mixedKindsEntity
           (entity "3" "S" "sub-org" []) 0 "Ada" "month" 1 Hnorm Hvalid).
  reflexivity.
Defined.

(** ** The clients page *)

(** What [fetchClients] does with a parsed body, when the address names a
    sub-organisation and the webhook is configured. *)
Lemma fetchClients_body (rt : Runtime) (webhookUrl suborgId : option string)
    (url suborg statusText : string) (body : JsVal) (page : ClientsView.Page) :
  configured suborgId = Some suborg ->
  configured webhookUrl = Some url ->
  ClientsView.fetchClients (withReply rt (Response true statusText (Ok body)))
    webhookUrl suborgId page
  = match (data ← ClientsView.unwrap body;
           match data with
           | JArr items => mapM (ClientsView.transformClient rt) items
           | _ => Ok []
           end) with
    | Ok transformedClients =>
        {| ClientsView.clients := transformedClients; ClientsView.loading := false;
           ClientsView.error := None |}
    | Throw err =>
        {| ClientsView.clients := ClientsView.clients page; ClientsView.loading := false;
           ClientsView.error := Some (errorMessage rt err) |}
    end.
Proof.
  intros Hsub Hurl. unfold ClientsView.fetchClients. rewrite Hsub, Hurl.
  cbn [withReply fetch negb mbind outcome_bind].
  destruct (ClientsView.unwrap body) as [data |]; cbn [mbind outcome_bind];
    [| by destruct e].
  destruct data; reflexivity.
Qed.

(** X22.  The three documented response formats give the same page: a list
    of clients whose first element has no truthy [data] property, the same
    list under the [data] key of an object, and that object as the only
    element of a list. *)
Theorem fetchClients_accepts_three_formats (rt : Runtime) (webhookUrl suborgId : option string)
    (url suborg statusText : string) (items : list JsVal)
    (wrapper : list (string * JsVal)) (page : ClientsView.Page) :
  configured suborgId = Some suborg ->
  configured webhookUrl = Some url ->
  plainHead items ->
  lookupProp "data" wrapper = JArr items ->
  let direct := ClientsView.fetchClients
                  (withReply rt (Response true statusText (Ok (JArr items))))
                  webhookUrl suborgId page in
  ClientsView.fetchClients (withReply rt (Response true statusText (Ok (JObj wrapper))))
    webhookUrl suborgId page = direct
  /\ ClientsView.fetchClients
       (withReply rt (Response true statusText (Ok (JArr [JObj wrapper]))))
       webhookUrl suborgId page = direct.
Proof.
  intros Hsub Hurl Hhead Hdata direct. subst direct.
  rewrite !(fetchClients_body _ _ _ _ _ _ _ _ Hsub Hurl).
  assert (ClientsView.unwrap (JArr items) = Ok (JArr items)) as ->.
  { destruct items as [| first rest]; [reflexivity |]. destruct Hhead as [Hnull Hfalsy].
    unfold ClientsView.unwrap. rewrite (getProp_prop _ _ Hnull). cbn. by rewrite Hfalsy. }
  assert (ClientsView.unwrap (JObj wrapper) = Ok (JArr items)) as ->.
  { unfold ClientsView.unwrap. cbn. by rewrite Hdata. }
  assert (ClientsView.unwrap (JArr [JObj wrapper]) = Ok (JArr items)) as ->.
  { unfold ClientsView.unwrap. cbn. by rewrite Hdata. }
  done.
Qed.

(** An instance: two clients, bare and wrapped. *)
Lemma fetchClients_accepts_three_formats_witness :
  plainHead sampleClients
  /\ ClientsView.fetchClients
       (withReply (sampleRuntime 1700000000000 offline)
          (Response true "OK" (Ok (JObj [("data", JArr sampleClients)]))))
       (Some "https://example.test/clients") (Some "3") emptyClientsPage
     = ClientsView.fetchClients
         (withReply (sampleRuntime 1700000000000 offline)
            (Response true "OK" (Ok (JArr sampleClients))))
         (Some "https://example.test/clients") (Some "3") emptyClientsPage.
Proof.
  assert (plainHead sampleClients) as Hhead by (split; reflexivity).
  split; [exact Hhead |].
  exact (proj1 (fetchClients_accepts_three_formats
                  (sampleRuntime 1700000000000 offline)
                  (Some "https://example.test/clients") (Some "3")
                  "https://example.test/clients" "3" "OK" sampleClients
                  [("data", JArr sampleClients)] emptyClientsPage
                  eq_refl eq_refl Hhead eq_refl)).
Defined.

(** X23.  A direct list whose first client happens to carry a truthy [data]
    property that is not a list is taken for a wrapper: the page ends with
    no clients and no error, whatever the list holds. *)
Theorem fetchClients_mistakes_data_field (rt : Runtime) (webhookUrl suborgId : option string)
    (url suborg statusText : string) (first : JsVal) (rest : list JsVal)
    (page : ClientsView.Page) :
  configured suborgId = Some suborg ->
  configured webhookUrl = Some url ->
  nullish first = false ->
  truthy (prop first "data") = true ->
  isArray (prop first "data") = false ->
  ClientsView.fetchClients
    (withReply rt (Response true statusText (Ok (JArr (first :: rest)))))
    webhookUrl suborgId page
  = {| ClientsView.clients := []; ClientsView.loading := false; ClientsView.error := None |}.
Proof.
  intros Hsub Hurl Hnull Htruthy Harr.
  rewrite (fetchClients_body _ _ _ _ _ _ _ _ Hsub Hurl).
  unfold ClientsView.unwrap. rewrite (getProp_prop _ _ Hnull). cbn [mbind outcome_bind].
  rewrite Htruthy. cbn [mbind outcome_bind]. by destruct (prop first "data").
Qed.

(** An instance: a client with a free-text [data] field. *)
Lemma fetchClients_mistakes_data_field_witness :
  ClientsView.fetchClients
    (withReply (sampleRuntime 1700000000000 offline)
       (Response true "OK"
          (Ok (JArr [JObj [("id", JNum (Fin 1)); ("name", JStr "Ada"); ("data", JStr "vip")];
                     JObj [("id", JNum (Fin 2)); ("name", JStr "Bob")]]))))
    (Some "https://example.test/clients") (Some "3") emptyClientsPage
  = {| ClientsView.clients := []; ClientsView.loading := false; ClientsView.error := None |}.
Proof.
  apply (fetchClients_mistakes_data_field (sampleRuntime 1700000000000 offline)
           (Some "https://example.test/clients") (Some "3")
           "https://example.test/clients" "3"); reflexivity.
Defined.

Lemma mapM_outcome_throws {A B : Type} (f : A -> Outcome B) (l : list A) (x : A) :
  x ∈ l -> (exists e, f x = Throw e) -> exists e, mapM f l = Throw e.
Proof.
  intros Hin Hx. induction l as [| y l IH]; [by apply elem_of_nil in Hin |].
  cbn [mapM]. apply elem_of_cons in Hin as [<- | Hin].
  - destruct Hx as [e ->]. cbn. eauto.
  - destruct (f y) as [b | e]; cbn; [| eauto].
    destruct (IH Hin) as [e He]. cbn [mapM] in He. rewrite He. cbn. eauto.
Qed.

(** X24.  One [null] among the clients fails the whole fetch: an error is
    stored and the clients shown before stay, even though the other
    elements are well-formed. *)
Theorem fetchClients_fails_on_null_element (rt : Runtime) (webhookUrl suborgId : option string)
    (url suborg statusText : string) (items : list JsVal) (x : JsVal)
    (page : ClientsView.Page) :
  configured suborgId = Some suborg ->
  configured webhookUrl = Some url ->
  plainHead items ->
  x ∈ items ->
  nullish x = true ->
  exists message,
    ClientsView.fetchClients (withReply rt (Response true statusText (Ok (JArr items))))
      webhookUrl suborgId page
    = {| ClientsView.clients := ClientsView.clients page; ClientsView.loading := false;
         ClientsView.error := Some message |}.
Proof.
  intros Hsub Hurl Hhead Hin Hnull.
  rewrite (fetchClients_body _ _ _ _ _ _ _ _ Hsub Hurl).
  assert (ClientsView.unwrap (JArr items) = Ok (JArr items)) as ->.
  { destruct items as [| first rest]; [reflexivity |]. destruct Hhead as [Hn Hfalsy].
    unfold ClientsView.unwrap. rewrite (getProp_prop _ _ Hn). cbn. by rewrite Hfalsy. }
  cbn [mbind outcome_bind].
  assert (exists e, ClientsView.transformClient rt x = Throw e) as Hx.
  { exists (Engine TypeError). by destruct x. }
  destruct (mapM_outcome_throws (ClientsView.transformClient rt) items x Hin Hx) as [e ->].
  eauto.
Qed.

(** An instance: a well-formed client followed by [null]. *)
Lemma fetchClients_fails_on_null_element_witness :
  plainHead [JObj [("id", JNum (Fin 1)); ("name", JStr "Ada")]; JNull]
  /\ exists message,
       ClientsView.fetchClients
         (withReply (sampleRuntime 1700000000000 offline)
            (Response true "OK"
               (Ok (JArr [JObj [("id", JNum (Fin 1)); ("name", JStr "Ada")]; JNull]))))
         (Some "https://example.test/clients") (Some "3") emptyClientsPage
       = {| ClientsView.clients := ClientsView.clients emptyClientsPage;
            ClientsView.loading := false; ClientsView.error := Some message |}.
Proof.
  assert (plainHead [JObj [("id", JNum (Fin 1)); ("name", JStr "Ada")]; JNull]) as Hhead
    by (split; reflexivity).
  split; [exact Hhead |].
  apply (fetchClients_fails_on_null_element (sampleRuntime 1700000000000 offline)
           (Some "https://example.test/clients") (Some "3")
           "https://example.test/clients" "3" "OK" _ JNull emptyClientsPage
           eq_refl eq_refl Hhead); [| reflexivity].
  right. left.
Defined.

(** ** The application context *)

Lemma lookupProp_assign (key k : string) (value : JsVal) (table : list (string * JsVal)) :
  lookupProp k (assign key value table)
  = if String.eqb key k then value else lookupProp k table.
Proof.
  induction table as [| [k' v'] rest IH]; cbn [assign lookupProp].
  - reflexivity.
  - destruct (String.eqb_spec k' key) as [-> | Hne]; cbn [lookupProp].
    + by destruct (String.eqb key k).
    + destruct (String.eqb_spec k' k) as [-> | Hk].
      * destruct (String.eqb_spec key k); [congruence | reflexivity].
      * exact IH.
Qed.

Lemma hasOwn_assign (key k : string) (value : JsVal) (table : list (string * JsVal)) :
  hasOwn k (assign key value table) = String.eqb key k || hasOwn k table.
Proof.
  unfold hasOwn. induction table as [| [k' v'] rest IH]; cbn [assign existsb fst].
  - by rewrite orb_false_r.
  - destruct (String.eqb_spec k' key) as [-> | Hne]; cbn [existsb fst].
    + by destruct (String.eqb key k).
    + rewrite IH. destruct (String.eqb k' k), (String.eqb key k); reflexivity.
Qed.

Lemma lookupProp_fold_assign (k : string) (entries all : list (string * JsVal)) :
  forall table,
    lookupProp k
      (fold_left (fun t kv => assign (fst kv) (lookupProp (fst kv) all) t) entries table)
    = if hasOwn k entries then lookupProp k all else lookupProp k table.
Proof.
  unfold hasOwn. induction entries as [| [k' v'] rest IH]; intros table; [reflexivity |].
  cbn [fold_left existsb fst]. rewrite IH, lookupProp_assign.
  destruct (String.eqb_spec k' k) as [-> | Hne]; cbn [orb]; [| reflexivity].
  by destruct (existsb _ rest).
Qed.

(** A spread reads each key from the source when the source has it, and
    from the target otherwise. *)
Lemma lookupProp_spread (k : string) (target : list (string * JsVal)) (source : JsVal) :
  lookupProp k (spread target source)
  = if hasOwn k (ownEntries source) then lookupProp k (ownEntries source)
    else lookupProp k target.
Proof. apply lookupProp_fold_assign. Qed.

Lemma hasOwn_fold_assign (k : string) (entries all : list (string * JsVal)) :
  forall table,
    hasOwn k (fold_left (fun t kv => assign (fst kv) (lookupProp (fst kv) all) t) entries table)
    = hasOwn k entries || hasOwn k table.
Proof.
  induction entries as [| [k' v'] rest IH]; intros table; [reflexivity |].
  cbn [fold_left fst]. rewrite IH, hasOwn_assign. unfold hasOwn at 3. cbn [existsb fst].
  fold (hasOwn k rest). destruct (String.eqb k' k), (hasOwn k rest); reflexivity.
Qed.

Lemma hasOwn_spread (k : string) (target : list (string * JsVal)) (source : JsVal) :
  hasOwn k (spread target source) = hasOwn k (ownEntries source) || hasOwn k target.
Proof. apply hasOwn_fold_assign. Qed.

Lemma loadPreferences_frame (b : AppContext.Browser) (app : AppContext.App) :
  AppContext.storage (AppContext.loadPreferences b app) = AppContext.storage app
  /\ AppContext.formDraft (AppContext.loadPreferences b app) = AppContext.formDraft app.
Proof.
  unfold AppContext.loadPreferences.
  destruct (getItem _ _) as [stored |]; [| done].
  destruct (present _); [| done]. by destruct (AppContext.parse b stored).
Qed.

(** The draft effect on a stored text that parses to a value with a
    numeric timestamp. *)
Lemma loadFormDraft_numeric (b : AppContext.Browser) (app : AppContext.App)
    (stored : string) (parsed : JsVal) (t : Z) :
  getItem (AppContext.storage app) AppContext.FORM_DRAFT_KEY = Some stored ->
  stored <> "" ->
  AppContext.parse b stored = Ok parsed ->
  nullish parsed = false ->
  toNumber (AppContext.stringToNumber b) (prop parsed "timestamp") = Ok (Fin t) ->
  AppContext.loadFormDraft b app
  = if (AppContext.clock b - t <? 24 * 60 * 60 * 1000)%Z
    then AppContext.setFormDraft (Some parsed) app
    else AppContext.setStorage
           (removeItem (AppContext.storage app) AppContext.FORM_DRAFT_KEY) app.
Proof.
  intros Hget Hne Hparse Hnull Hnum. unfold AppContext.loadFormDraft.
  rewrite Hget. unfold present. destruct (String.eqb_spec stored ""); [done |].
  cbn [negb]. rewrite Hparse. cbn [mbind outcome_bind].
  rewrite (getProp_prop _ _ Hnull). cbn [mbind outcome_bind]. rewrite Hnum.
  cbn [mbind outcome_bind AppContext.isRecent].
  by destruct (AppContext.clock b - t <? 24 * 60 * 60 * 1000)%Z.
Qed.

(** X25.  A saved draft comes back on the next page load while it is less
    than 24 hours old, and is deleted from the storage once it is older:
    when the write fits the quota and the stored text is not empty and
    parses back to the draft, the reloaded provider holds the draft if the
    clock has advanced by less than 86 400 000 ms, and otherwise holds none
    and the storage no longer has the key. *)
Theorem saved_draft_expires_after_a_day (save load : AppContext.Browser)
    (name customer_type : string) (app : AppContext.App) :
  let draft := JObj [("name", JStr name); ("customer_type", JStr customer_type);
                     ("timestamp", JNum (Fin (AppContext.clock save)))] in
  let text := AppContext.stringify save draft in
  AppContext.quota save (<[AppContext.FORM_DRAFT_KEY := text]> (AppContext.storage app)) = true ->
  text <> "" ->
  AppContext.parse load text = Ok draft ->
  let reloaded :=
    AppContext.reload load (AppContext.saveFormDraft save name customer_type app) in
  if (AppContext.clock load - AppContext.clock save <? 24 * 60 * 60 * 1000)%Z
  then AppContext.formDraft reloaded = Some draft
       /\ getItem (AppContext.storage reloaded) AppContext.FORM_DRAFT_KEY = Some text
  else AppContext.formDraft reloaded = None
       /\ getItem (AppContext.storage reloaded) AppContext.FORM_DRAFT_KEY = None.
Proof.
  intros draft text Hquota Htext Hparse reloaded. subst reloaded.
  unfold AppContext.reload.
  assert (AppContext.storage (AppContext.saveFormDraft save name customer_type app)
          = <[AppContext.FORM_DRAFT_KEY := text]> (AppContext.storage app)) as ->.
  { unfold AppContext.saveFormDraft, setItem. fold draft. fold text.
    cbn [AppContext.setFormDraft AppContext.storage]. by rewrite Hquota. }
  set (mounted := AppContext.loadPreferences load (AppContext.initial _)).
  destruct (loadPreferences_frame load
              (AppContext.initial
                 (<[AppContext.FORM_DRAFT_KEY := text]> (AppContext.storage app))))
    as [Hstorage Hdraft].
  fold mounted in Hstorage, Hdraft. cbn [AppContext.initial AppContext.storage
                                          AppContext.formDraft] in Hstorage, Hdraft.
  rewrite (loadFormDraft_numeric load mounted text draft (AppContext.clock save)).
  - destruct (AppContext.clock load - AppContext.clock save <? 24 * 60 * 60 * 1000)%Z.
    + cbn [AppContext.setFormDraft AppContext.formDraft AppContext.storage].
      rewrite Hstorage. unfold getItem. by rewrite lookup_insert_eq.
    + cbn [AppContext.setStorage AppContext.formDraft AppContext.storage].
      rewrite Hdraft, Hstorage. unfold getItem, removeItem. by rewrite lookup_delete_eq.
  - rewrite Hstorage. unfold getItem. by rewrite lookup_insert_eq.
  - exact Htext.
  - exact Hparse.
  - reflexivity.
  - reflexivity.
Qed.

(** An instance: a draft saved at 1700000000000 ms and reloaded an hour
    later. *)
Lemma saved_draft_expires_after_a_day_witness :
  AppContext.formDraft
    (AppContext.reload (sampleBrowser 1700000000000 1700003600000)
       (AppContext.saveFormDraft (sampleBrowser 1700000000000 1700000000000) "Acme" "org"
          (AppContext.initial ∅)))
  = Some (sampleDraft 1700000000000).
Proof.
  exact (proj1 (saved_draft_expires_after_a_day
                  (sampleBrowser 1700000000000 1700000000000)
                  (sampleBrowser 1700000000000 1700003600000)
                  "Acme" "org" (AppContext.initial ∅)
                  eq_refl ltac:(discriminate) eq_refl)).
Defined.

Lemma lookupProp_absent (key : string) (table : list (string * JsVal)) :
  hasOwn key table = false -> lookupProp key table = JUndefined.
Proof.
  unfold hasOwn. induction table as [| [k v] rest IH]; cbn [existsb lookupProp fst]; [done |].
  destruct (String.eqb k key); [done | exact IH].
Qed.

Lemma hasDefaultKeys_hasOwn (key : string) (table : list (string * JsVal)) :
  hasDefaultKeys table ->
  hasOwn key AppContext.DEFAULT_PREFERENCES = true -> hasOwn key table = true.
Proof.
  intros Hkeys Hd. unfold hasOwn in Hd.
  apply existsb_exists in Hd as ([k v] & Hin & Hk).
  apply String.eqb_eq in Hk. cbn [fst] in Hk. subst k.
  apply list_elem_of_In in Hin.
  exact (proj1 (Forall_forall _ _) Hkeys _ Hin).
Qed.

(** X26.  The draft effect has three outcomes only.  It restores the parsed
    value, and then the stored text parsed to a value whose timestamp reads
    as a number less than 24 hours behind the clock; or it deletes the
    stored draft and leaves the state's draft alone; or it changes nothing
    (nothing stored, an empty text, a text that does not parse, a value
    whose timestamp cannot be read).  The preferences, the search text and
    the filter are never touched. *)
Theorem loadFormDraft_outcomes (b : AppContext.Browser) (app : AppContext.App) :
  let app' := AppContext.loadFormDraft b app in
  AppContext.preferences app' = AppContext.preferences app
  /\ AppContext.searchQuery app' = AppContext.searchQuery app
  /\ AppContext.filterType app' = AppContext.filterType app
  /\ ((exists stored parsed t,
         getItem (AppContext.storage app) AppContext.FORM_DRAFT_KEY = Some stored
         /\ AppContext.parse b stored = Ok parsed
         /\ (parsed@"timestamp" ≫= toNumber (AppContext.stringToNumber b)) = Ok (Fin t)
         /\ (AppContext.clock b - t < 24 * 60 * 60 * 1000)%Z
         /\ AppContext.formDraft app' = Some parsed
         /\ AppContext.storage app' = AppContext.storage app)
      \/ (AppContext.formDraft app' = AppContext.formDraft app
          /\ AppContext.storage app'
             = removeItem (AppContext.storage app) AppContext.FORM_DRAFT_KEY)
      \/ app' = app).
Proof.
  cbn zeta. unfold AppContext.loadFormDraft.
  destruct (getItem _ _) as [stored |] eqn:Hget; [| by split_and!; try right; try right].
  destruct (present _); [| by split_and!; try right; try right].
  destruct (AppContext.parse b stored) as [parsed |] eqn:Hparse; cbn [mbind outcome_bind];
    [| by split_and!; try right; try right].
  destruct (parsed@"timestamp") as [timestamp |] eqn:Hts; cbn [mbind outcome_bind];
    [| by split_and!; try right; try right].
  destruct (toNumber _ timestamp) as [[| t] |] eqn:Hnum; cbn [mbind outcome_bind];
    [by split_and!; try (right; left) | | by split_and!; try right; try right].
  cbn [AppContext.isRecent].
  destruct (Z.ltb_spec (AppContext.clock b - t) (24 * 60 * 60 * 1000));
    [| by split_and!; try (right; left)].
  split_and!; try done. left. exists stored, parsed, t.
  split_and!; try done.
  by rewrite Hts.
Qed.

(** X27.  Updated preferences survive a page load: when the write fits the
    quota and the stored text is not empty and parses back to the updated
    object, the reloaded provider reads every key as the provider read it
    after the update, provided the preferences held the default keys. *)
Theorem updated_preferences_survive_reload (save load : AppContext.Browser)
    (updates : JsVal) (app : AppContext.App) (key : string) :
  let updated := spread (AppContext.preferences app) updates in
  let text := AppContext.stringify save (JObj updated) in
  hasDefaultKeys (AppContext.preferences app) ->
  AppContext.quota save (<[AppContext.PREFERENCES_KEY := text]> (AppContext.storage app)) = true ->
  text <> "" ->
  AppContext.parse load text = Ok (JObj updated) ->
  AppContext.preferences (AppContext.updatePreferences save updates app) = updated
  /\ lookupProp key
       (AppContext.preferences
          (AppContext.reload load (AppContext.updatePreferences save updates app)))
     = lookupProp key updated.
Proof.
  intros updated text Hkeys Hquota Htext Hparse.
  assert (AppContext.updatePreferences save updates app
          = AppContext.setStorage
              (<[AppContext.PREFERENCES_KEY := text]> (AppContext.storage app))
              (AppContext.setPreferences updated app)) as ->.
  { unfold AppContext.updatePreferences, setItem. fold updated. fold text.
    cbn [AppContext.setPreferences AppContext.storage]. by rewrite Hquota. }
  split; [reflexivity |].
  unfold AppContext.reload.
  cbn [AppContext.setStorage AppContext.storage].
  set (stored := <[AppContext.PREFERENCES_KEY := text]> (AppContext.storage app)).
  assert (AppContext.preferences
            (AppContext.loadFormDraft load
               (AppContext.loadPreferences load (AppContext.initial stored)))
          = AppContext.preferences
              (AppContext.loadPreferences load (AppContext.initial stored))) as ->.
  { unfold AppContext.loadFormDraft.
    destruct (getItem _ _) as [s |]; [| done].
    destruct (present _); [| done].
    destruct (AppContext.parse load s) as [parsed |]; cbn [mbind outcome_bind]; [| done].
    destruct (parsed@"timestamp") as [timestamp |]; cbn [mbind outcome_bind]; [| done].
    destruct (toNumber _ timestamp) as [age |]; cbn [mbind outcome_bind]; [| done].
    by destruct (AppContext.isRecent _ age). }
  unfold AppContext.loadPreferences. cbn [AppContext.initial AppContext.storage].
  unfold getItem, stored. rewrite lookup_insert_eq. unfold present.
  destruct (String.eqb_spec text ""); [done |]. cbn [negb]. rewrite Hparse.
  cbn [AppContext.setPreferences AppContext.preferences].
  rewrite lookupProp_spread. cbn [ownEntries].
  destruct (hasOwn key updated) eqn:Hown; [reflexivity |].
  rewrite (lookupProp_absent _ _ Hown).
  apply lookupProp_absent.
  destruct (hasOwn key AppContext.DEFAULT_PREFERENCES) eqn:Hd; [| reflexivity].
  apply (hasDefaultKeys_hasOwn _ _ Hkeys) in Hd.
  unfold updated in Hown. rewrite hasOwn_spread, Hd, orb_true_r in Hown. done.
Qed.

Lemma updated_preferences_survive_reload_witness :
  lookupProp "itemsPerPage"
    (AppContext.preferences
       (AppContext.reload
          (prefsBrowser (spread AppContext.DEFAULT_PREFERENCES
                           (JObj [("itemsPerPage", JNum (Fin 25))])))
          (AppContext.updatePreferences
             (prefsBrowser [])
             (JObj [("itemsPerPage", JNum (Fin 25))]) (AppContext.initial ∅))))
  = JNum (Fin 25).
Proof.
  refine (proj2 (updated_preferences_survive_reload
                   (prefsBrowser [])
                   (prefsBrowser (spread AppContext.DEFAULT_PREFERENCES
                                    (JObj [("itemsPerPage", JNum (Fin 25))])))
                   (JObj [("itemsPerPage", JNum (Fin 25))]) (AppContext.initial ∅)
                   "itemsPerPage" _ eq_refl _ eq_refl)).
  - repeat constructor.
  - discriminate.
Defined.

(** ** The customer creation page *)



(** ** The home page: the search filter *)

Lemma some_pure {A : Type} (callback : A -> Outcome bool) (q : A -> bool) (l : list A) :
  Forall (fun x => callback x = Ok (q x)) l -> Home.some callback l = Ok (existsb q l).
Proof.
  induction 1 as [| x l Hx _ IH]; [done |]. cbn [Home.some existsb].
  rewrite Hx. cbn [mbind outcome_bind]. by destruct (q x).
Qed.

Lemma subOrgNameMatches_pure (toLowerCase : string -> string) (searchLower : string)
    (suborg : Customer) :
  nullish (name suborg) = true \/ isString (name suborg) ->
  Home.subOrgNameMatches toLowerCase searchLower suborg
  = Ok (Home.nameContains toLowerCase searchLower (name suborg)).
Proof.
  unfold Home.subOrgNameMatches, Home.nameContains.
  intros [Hnull | [s Hs]].
  - rewrite Hnull. by destruct (name suborg).
  - by rewrite Hs.
Qed.

(** X29.  The home page's search.  With an empty search text the filter
    keeps exactly the customers that have a truthy name, whatever the names
    are.  With any other text, over customers whose names (and whose
    children's names, where present) are strings, it keeps the named
    customers whose own name or one of whose direct children's names
    contains the text, case-insensitively; deeper descendants are not
    searched. *)
Theorem home_search_keeps_matching_customers (toLowerCase : string -> string)
    (searchQuery : string) (customers : list Customer) :
  Home.filteredCustomers toLowerCase "" customers
  = Ok (List.filter (fun c => truthy (name c)) customers)
  /\ (searchQuery <> "" ->
      Forall Home.searchable customers ->
      Home.filteredCustomers toLowerCase searchQuery customers
      = Ok (List.filter
              (fun c =>
                 truthy (name c)
                 && (Home.nameContains toLowerCase (toLowerCase searchQuery) (name c)
                     || existsb
                          (fun suborg =>
                             Home.nameContains toLowerCase (toLowerCase searchQuery)
                               (name suborg))
                          (default [] (suborgs c))))
              customers)).
Proof.
  split.
  - apply filterM_pure, Forall_forall. intros c _.
    unfold Home.customerMatches. by destruct (truthy (name c)).
  - intros Hquery Hall. apply filterM_pure.
    apply (Forall_impl _ _ _ Hall). intros c Hc.
    unfold Home.customerMatches.
    destruct (truthy (name c)) eqn:Hname; cbn [negb andb]; [| reflexivity].
    destruct (Hc Hname) as [[n Hn] Hsubs].
    assert (truthy (JStr searchQuery) = true) as ->.
    { cbn. by destruct searchQuery. }
    cbn [negb]. rewrite Hn. cbn [lowerCase mbind outcome_bind Home.nameContains].
    destruct (suborgs c) as [subs |]; cbn [default existsb] in *.
    + rewrite (some_pure _ (fun suborg =>
                 Home.nameContains toLowerCase (toLowerCase searchQuery) (name suborg))).
      * reflexivity.
      * apply (Forall_impl _ _ _ Hsubs). intros suborg. apply subOrgNameMatches_pure.
    + reflexivity.
Qed.

Lemma lowerCase_throws (toLowerCase : string -> string) (v : JsVal) (e : JsError) :
  lowerCase toLowerCase v = Throw e -> e = Engine TypeError.
Proof. destruct v; cbn; congruence. Qed.

Lemma some_throws {A : Type} (callback : A -> Outcome bool) (l : list A) (e : JsError) :
  (forall x e', callback x = Throw e' -> e' = Engine TypeError) ->
  Home.some callback l = Throw e -> e = Engine TypeError.
Proof.
  intros Hcb. induction l as [| x l IH]; cbn [Home.some]; [done |].
  destruct (callback x) as [hit | e'] eqn:Hx; cbn [mbind outcome_bind].
  - destruct hit; [done | exact IH].
  - intros [= <-]. eauto.
Qed.

Lemma subOrgNameMatches_throws (toLowerCase : string -> string) (searchLower : string)
    (suborg : Customer) (e : JsError) :
  Home.subOrgNameMatches toLowerCase searchLower suborg = Throw e -> e = Engine TypeError.
Proof.
  unfold Home.subOrgNameMatches. destruct (nullish (name suborg)); [done |].
  destruct (lowerCase toLowerCase (name suborg)) as [lower | e'] eqn:Hlower;
    cbn [mbind outcome_bind]; [done |].
  intros [= <-]. by apply lowerCase_throws in Hlower.
Qed.

Lemma customerMatches_throws (toLowerCase : string -> string) (searchQuery : string)
    (c : Customer) (e : JsError) :
  Home.customerMatches toLowerCase searchQuery c = Throw e -> e = Engine TypeError.
Proof.
  unfold Home.customerMatches.
  destruct (negb (truthy (name c))); [done |].
  destruct (negb (truthy (JStr searchQuery))); [done |].
  destruct (lowerCase toLowerCase (name c)) as [lower | e'] eqn:Hlower;
    cbn [mbind outcome_bind].
  - destruct (suborgs c) as [subs |]; [| done].
    destruct (Home.some _ subs) as [hit | e'] eqn:Hsome; cbn [mbind outcome_bind]; [done |].
    intros [= <-]. apply some_throws in Hsome; [done |].
    intros x e''. apply subOrgNameMatches_throws.
  - intros [= <-]. by apply lowerCase_throws in Hlower.
Qed.

(** X30.  A customer with a truthy name that is not a string (a number, say,
    which the refresh accepts) breaks the home page's search: with any
    non-empty search text the filter raises a [TypeError], wherever the
    customer stands in the list. *)
Theorem home_search_breaks_on_non_string_name (toLowerCase : string -> string)
    (searchQuery : string) (customers : list Customer) (c : Customer) :
  c ∈ customers ->
  truthy (name c) = true ->
  ~ isString (name c) ->
  searchQuery <> "" ->
  Home.filteredCustomers toLowerCase searchQuery customers = Throw (Engine TypeError).
Proof.
  intros Hin Hname Hstring Hquery.
  assert (Home.customerMatches toLowerCase searchQuery c = Throw (Engine TypeError)) as Hc.
  { unfold Home.customerMatches. rewrite Hname. cbn [negb].
    assert (truthy (JStr searchQuery) = true) as -> by (cbn; by destruct searchQuery).
    cbn [negb].
    destruct (lowerCase_Ok toLowerCase (name c)) as [[Hs _] | [_ ->]]; done. }
  unfold Home.filteredCustomers.
  induction customers as [| x l IH]; [by apply elem_of_nil in Hin |].
  cbn [filterM].
  destruct (Home.customerMatches toLowerCase searchQuery x) as [keep | e] eqn:Hx;
    cbn [mbind outcome_bind].
  - apply elem_of_cons in Hin as [-> | Hin]; [congruence |].
    by rewrite (IH Hin).
  - by rewrite (customerMatches_throws _ _ _ _ Hx).
Qed.

(** An instance: searching for ["a"] in a list that holds a customer named
    42. *)
Lemma home_search_breaks_on_non_string_name_witness :
  Home.filteredCustomers asciiLower "a" [entity "7" "Seven" "org" []; numberNamed]
  = Throw (Engine TypeError).
Proof.
  apply (home_search_breaks_on_non_string_name asciiLower "a"
           [entity "7" "Seven" "org" []; numberNamed] numberNamed).
  - apply elem_of_cons. right. apply elem_of_cons. by left.
  - reflexivity.
  - intros [s Hs]. discriminate Hs.
  - discriminate.
Defined.
